(** * Trustbook: the esign-agent-trust adapter (scripts/esign_trustbook_adapter.js)

    A shallow embedding of the adapter's signing side: the MB2 canonical
    message builder, the body digest, the [TrustbookEsignClient] class and the
    evaluation of the module's top level, together with the statements the
    design document makes about them.

    Sections 8b to 8e and 17 onwards go on to the rest of the file: unsigned
    requests, posts and comments, key generation, identity binding and the
    commands of [runCli], with what the code itself shows of them.

    JavaScript strings are sequences of UTF-16 code units and Node buffers are
    sequences of octets; both are lists of [Z] here, with the ranges written
    out where a statement depends on them. *)

From Stdlib Require Import ZArith List Lia Bool Ascii String DecimalString
  DecimalPos DecimalZ.
From stdpp Require Import base option list gmap strings.

Open Scope Z_scope.

(* ===================================================================== *)
(** * 1. Strings, buffers and literals *)
(* ===================================================================== *)

(** A JavaScript string: its UTF-16 code units. *)
Abbreviation jsstring := (list Z).
(** A Node [Buffer]: its octets. *)
Abbreviation buffer := (list Z).

Definition LF : Z := 10.

Definition is_high_surrogate (u : Z) : bool := (0xD800 <=? u) && (u <=? 0xDBFF).
Definition is_low_surrogate (u : Z) : bool := (0xDC00 <=? u) && (u <=? 0xDFFF).

(** The code point of a surrogate pair. *)
Definition pair_code_point (hi lo : Z) : Z :=
  0x10000 + (hi - 0xD800) * 0x400 + (lo - 0xDC00).

(** UTF-8 octets of one code point. *)
Definition utf8_of_code_point (c : Z) : buffer :=
  if c <? 0x80 then [c]
  else if c <? 0x800 then [0xC0 + c / 64; 0x80 + c mod 64]
  else if c <? 0x10000 then
    [0xE0 + c / 4096; 0x80 + (c / 64) mod 64; 0x80 + c mod 64]
  else
    [0xF0 + c / 262144; 0x80 + (c / 4096) mod 64;
     0x80 + (c / 64) mod 64; 0x80 + c mod 64].

(** U+FFFD, which the encoder emits for a surrogate that has no partner. *)
Definition replacement_utf8 : buffer := [0xEF; 0xBF; 0xBD].

(** [Buffer.from(s, "utf-8")]: surrogate pairs become one four-octet
    sequence, a lone surrogate becomes U+FFFD. *)
Fixpoint Buffer_from_utf8 (s : jsstring) : buffer :=
  match s with
  | [] => []
  | u :: rest =>
      if is_high_surrogate u then
        match rest with
        | v :: rest' =>
            if is_low_surrogate v
            then utf8_of_code_point (pair_code_point u v) ++ Buffer_from_utf8 rest'
            else replacement_utf8 ++ Buffer_from_utf8 rest
        | [] => replacement_utf8
        end
      else if is_low_surrogate u then replacement_utf8 ++ Buffer_from_utf8 rest
      else utf8_of_code_point u ++ Buffer_from_utf8 rest
  end.

(** The code units of a code point (one unit, or a surrogate pair). *)
Definition utf16_of_code_point (c : Z) : jsstring :=
  if c <? 0x10000 then [c]
  else [0xD800 + (c - 0x10000) / 0x400; 0xDC00 + (c - 0x10000) mod 0x400].

(** Source text is UTF-8; [utf16_of_utf8] reads the octets of a literal of the
    source file into the code units the running program holds. *)
Fixpoint utf16_of_utf8 (bs : list Z) : jsstring :=
  match bs with
  | [] => []
  | b0 :: r0 =>
      if b0 <? 0xC0 then b0 :: utf16_of_utf8 r0
      else match r0 with
      | [] => [b0]
      | b1 :: r1 =>
          if b0 <? 0xE0 then
            utf16_of_code_point ((b0 - 0xC0) * 64 + (b1 - 0x80)) ++ utf16_of_utf8 r1
          else match r1 with
          | [] => [b0; b1]
          | b2 :: r2 =>
              if b0 <? 0xF0 then
                utf16_of_code_point
                  ((b0 - 0xE0) * 4096 + (b1 - 0x80) * 64 + (b2 - 0x80))
                ++ utf16_of_utf8 r2
              else match r2 with
              | [] => [b0; b1; b2]
              | b3 :: r3 =>
                  utf16_of_code_point
                    ((b0 - 0xF0) * 262144 + (b1 - 0x80) * 4096
                     + (b2 - 0x80) * 64 + (b3 - 0x80))
                  ++ utf16_of_utf8 r3
              end
          end
      end
  end.

Definition octets_of_string (s : string) : list Z :=
  List.map (fun c => Z.of_N (N_of_ascii c)) (list_ascii_of_string s).

(** A string literal of the source. *)
Definition lit (s : string) : jsstring := utf16_of_utf8 (octets_of_string s).

(** [String(n)] for an integral number [n]. *)
Definition Number_toString (n : Z) : jsstring :=
  lit (NilZero.string_of_int (Z.to_int n)).

(** The values a field of the adapter's inputs can hold: a string, or one of
    the two absent values. *)
Inductive jsval : Type :=
| VUndefined
| VNull
| VStr (s : jsstring).

(** [ToString], as a template literal applies it to a substitution. *)
Definition ToString (v : jsval) : jsstring :=
  match v with
  | VUndefined => lit "undefined"
  | VNull => lit "null"
  | VStr s => s
  end.

(** [ToBoolean]: the empty string and the absent values are falsy. *)
Definition truthy (v : jsval) : bool :=
  match v with
  | VStr (_ :: _) => true
  | _ => false
  end.

(** [a || b]. *)
Definition js_or (a b : jsval) : jsval := if truthy a then a else b.

(** A string without a line feed. *)
Definition one_line (s : jsstring) : Prop := LF ∉ s.

(** Well-formed UTF-16: every unit is a 16-bit value and surrogates come in
    high/low pairs. *)
Fixpoint well_formed (s : jsstring) : Prop :=
  match s with
  | [] => True
  | u :: rest =>
      0 <= u < 0x10000 /\
      if is_high_surrogate u then
        match rest with
        | v :: rest' => is_low_surrogate v = true /\ well_formed rest'
        | [] => False
        end
      else is_low_surrogate u = false /\ well_formed rest
  end.

(** The code points a string stands for; the encoder's view of a string. *)
Fixpoint code_points (s : jsstring) : list Z :=
  match s with
  | [] => []
  | u :: rest =>
      if is_high_surrogate u then
        match rest with
        | v :: rest' =>
            if is_low_surrogate v
            then pair_code_point u v :: code_points rest'
            else 0xFFFD :: code_points rest
        | [] => [0xFFFD]
        end
      else if is_low_surrogate u then 0xFFFD :: code_points rest
      else u :: code_points rest
  end.

(** A Unicode code point. *)
Definition scalar (c : Z) : Prop := 0 <= c < 0x110000.

(* ===================================================================== *)
(** * 2. The [crypto] module: SHA-256 and the base64 digest encoding *)
(* ===================================================================== *)

Module SHA256.

Definition w32 (x : Z) : Z := x mod 0x100000000.
Definition add32 (x y : Z) : Z := w32 (x + y).
Definition rotr (n x : Z) : Z := Z.lor (Z.shiftr x n) (w32 (Z.shiftl x (32 - n))).
Definition not32 (x : Z) : Z := Z.lxor x 0xFFFFFFFF.

Definition Ch (x y z : Z) : Z := Z.lxor (Z.land x y) (Z.land (not32 x) z).
Definition Maj (x y z : Z) : Z :=
  Z.lxor (Z.lxor (Z.land x y) (Z.land x z)) (Z.land y z).
Definition Sigma0 (x : Z) : Z := Z.lxor (Z.lxor (rotr 2 x) (rotr 13 x)) (rotr 22 x).
Definition Sigma1 (x : Z) : Z := Z.lxor (Z.lxor (rotr 6 x) (rotr 11 x)) (rotr 25 x).
Definition sigma0 (x : Z) : Z := Z.lxor (Z.lxor (rotr 7 x) (rotr 18 x)) (Z.shiftr x 3).
Definition sigma1 (x : Z) : Z := Z.lxor (Z.lxor (rotr 17 x) (rotr 19 x)) (Z.shiftr x 10).

(** The first sixty-four primes. *)
Definition primes : list Z :=
  [2; 3; 5; 7; 11; 13; 17; 19; 23; 29; 31; 37; 41; 43; 47; 53; 59; 61; 67; 71;
   73; 79; 83; 89; 97; 101; 103; 107; 109; 113; 127; 131; 137; 139; 149; 151;
   157; 163; 167; 173; 179; 181; 191; 193; 197; 199; 211; 223; 227; 229; 233;
   239; 241; 251; 257; 263; 269; 271; 277; 281; 283; 293; 307; 311].

(** The integer cube root, by bisection between [lo] and [hi]. *)
Fixpoint cube_root_between (fuel : nat) (lo hi n : Z) : Z :=
  match fuel with
  | O => lo
  | S fuel' =>
      let mid := (lo + hi + 1) / 2 in
      if mid * mid * mid <=? n
      then cube_root_between fuel' mid hi n
      else cube_root_between fuel' lo (mid - 1) n
  end.
Definition cube_root (n : Z) : Z := cube_root_between 48 0 (2 ^ 40) n.

(** The round constants: the first thirty-two bits of the fractional parts of
    the cube roots of the first sixty-four primes. *)
Definition K : list Z := List.map (fun q => w32 (cube_root (q * 2 ^ 96))) primes.

(** The initial hash value: the first thirty-two bits of the fractional parts
    of the square roots of the first eight primes. *)
Definition H0 : list Z := List.map (fun q => w32 (Z.sqrt (q * 2 ^ 64))) (take 8 primes).

(** Big-endian octets of a value, [n] of them. *)
Fixpoint be_octets (n : nat) (x : Z) : list Z :=
  match n with
  | O => []
  | S n' => be_octets n' (x / 256) ++ [x mod 256]
  end.

Definition be_word (bs : list Z) : Z := fold_left (fun acc b => acc * 256 + b) bs 0.

(** The message followed by 0x80, zeros up to 56 mod 64, and its length in
    bits on eight octets. *)
Definition pad (msg : list Z) : list Z :=
  let n := Z.of_nat (length msg) in
  let zeros := Z.to_nat ((55 - n) mod 64) in
  msg ++ [0x80] ++ repeat 0 zeros ++ be_octets 8 (8 * n).

Fixpoint groups (fuel size : nat) (l : list Z) : list (list Z) :=
  match fuel with
  | O => []
  | S fuel' =>
      match l with
      | [] => []
      | _ => take size l :: groups fuel' size (drop size l)
      end
  end.

(** The message schedule, newest word first. *)
Fixpoint extend (n : nat) (ws : list Z) : list Z :=
  match n with
  | O => ws
  | S n' =>
      let w := add32 (add32 (sigma1 (nth 1 ws 0)) (nth 6 ws 0))
                     (add32 (sigma0 (nth 14 ws 0)) (nth 15 ws 0)) in
      extend n' (w :: ws)
  end.

Definition schedule (block : list Z) : list Z :=
  rev (extend 48 (rev (List.map be_word (groups 16 4 block)))).

Definition round (st : list Z) (kw : Z * Z) : list Z :=
  match st with
  | [a; b; c; d; e; f; g; h] =>
      let t1 := add32 (add32 (add32 h (Sigma1 e)) (add32 (Ch e f g) (fst kw))) (snd kw) in
      let t2 := add32 (Sigma0 a) (Maj a b c) in
      [add32 t1 t2; a; b; c; add32 d t1; e; f; g]
  | _ => st
  end.

Definition compress (h : list Z) (block : list Z) : list Z :=
  let st := fold_left round (combine K (schedule block)) h in
  List.map (fun p => add32 (fst p) (snd p)) (combine h st).

Definition digest (msg : list Z) : list Z :=
  let padded := pad msg in
  let blocks := groups (length padded) 64 padded in
  concat (List.map (be_octets 4) (fold_left compress blocks H0)).

End SHA256.

Module Base64.

Definition alphabet : list Z :=
  lit "ABCDEFGHIJKLMNOPQRSTUVWXYZabcdefghijklmnopqrstuvwxyz0123456789+/".

Definition sym (i : Z) : Z := nth (Z.to_nat i) alphabet 0.
Definition pad_sym : Z := 61.

(** Three octets give four symbols; a final group of one or two octets is
    completed with [=]. *)
Fixpoint encode (bs : list Z) : jsstring :=
  match bs with
  | [] => []
  | [a] => [sym (a / 4); sym ((a mod 4) * 16); pad_sym; pad_sym]
  | [a; b] =>
      [sym (a / 4); sym ((a mod 4) * 16 + b / 16); sym ((b mod 16) * 4); pad_sym]
  | a :: b :: c :: rest =>
      sym (a / 4) :: sym ((a mod 4) * 16 + b / 16)
      :: sym ((b mod 16) * 4 + c / 64) :: sym (c mod 64) :: encode rest
  end.

End Base64.

(** [crypto.createHash("sha256").update(buffer).digest("base64")]. *)
Definition sha256Base64 (buf : buffer) : jsstring :=
  Base64.encode (SHA256.digest buf).

Arguments sha256Base64 : simpl never.

(* ===================================================================== *)
(** * 3. Exceptions, the host and the calls that leave the adapter *)
(* ===================================================================== *)

Inductive exn : Type :=
| JsError (message : jsstring)          (* throw new Error(message) *)
| JsTypeError (message : string)
| JsReferenceError (identifier : string)
| Foreign (message : jsstring).         (* raised by code outside the adapter *)

(** [error instanceof Error ? error.message : String(error)]. *)
Definition exn_message (e : exn) : jsstring :=
  match e with
  | JsError m => m
  | JsTypeError m => lit m
  | JsReferenceError x => lit x ++ lit " is not defined"
  | Foreign m => m
  end.

Inductive completion (A : Type) : Type :=
| Normal (a : A)
| Abrupt (e : exn).
Arguments Normal {A} a.
Arguments Abrupt {A} e.

(** The built-ins of the language the adapter relies on and does not define:
    Unicode upper-casing and the JSON object over the values of the
    language. *)
Class Host : Type := {
  toUpperCase : jsstring -> jsstring;
  Value : Type;
  null_value : Value;
  (** [JSON.stringify(v)]: a text, [undefined] (for a function or a symbol),
      or an exception (a cycle, a BigInt, a throwing [toJSON]). *)
  JSON_stringify : Value -> completion (option jsstring);
  JSON_parse : jsstring -> completion Value;
  (** [json && json.detail]: its text when it is truthy. *)
  detail_text : Value -> option jsstring
}.

(** [s.toUpperCase()] on a value: a [TypeError] on the absent values. *)
Definition String_toUpperCase {host : Host} (v : jsval) : completion jsstring :=
  match v with
  | VStr s => Normal (toUpperCase s)
  | VUndefined => Abrupt (JsTypeError "Cannot read properties of undefined (reading 'toUpperCase')")
  | VNull => Abrupt (JsTypeError "Cannot read properties of null (reading 'toUpperCase')")
  end.

(** [Buffer.from(text, "utf-8")] on what [JSON.stringify] gave. *)
Definition Buffer_from (text : option jsstring) : completion buffer :=
  match text with
  | Some s => Normal (Buffer_from_utf8 s)
  | None => Abrupt (JsTypeError "The first argument must be of type string or an instance of Buffer, ArrayBuffer, or Array or an Array-like Object. Received undefined")
  end.

Record SdkConfig : Type := {
  keystoreService : jsval;
  certStorePath : jsval
}.

Record SignResult : Type := { signature : jsstring }.

(** What [fetch(url, { method, headers, body })] is given. *)
Record HttpRequest : Type := {
  url : jsstring;
  http_method : jsstring;
  headers : gmap string jsstring;
  body : option jsstring
}.

Record Response : Type := {
  ok : bool;
  status : Z;
  text : completion jsstring            (* what [await response.text()] gives *)
}.

(** The octets [fetch] puts on the wire for a string body: its UTF-8
    encoding. *)
Definition transmitted_octets (req : HttpRequest) : option buffer :=
  Buffer_from_utf8 <$> body req.

(** The calls that leave the adapter, indexed by the type of their answer. *)
Inductive call : Type -> Type :=
| EnvVar (name : string) : call jsval                        (* process.env[name] *)
| LoadEsignModule (packageRef : jsstring) : call (completion unit)
| NewEsignAgentTrust (cfg : SdkConfig) : call (completion unit)
| SdkLoad (agentId : jsstring) : call (completion bool)      (* sdk.load(agentId) *)
| SdkSign (msg : buffer) : call (completion SignResult)      (* sdk.sign(msg) *)
| DateNow : call Z                                           (* Date.now() *)
| RandomUUID : call jsstring                                 (* crypto.randomUUID() *)
| Fetch (req : HttpRequest) : call (completion Response).

(** A call together with the answer it got. *)
Inductive event : Type :=
| Ev {X : Type} (c : call X) (x : X).

(** The world outside: it answers every call, from a state of its own. *)
Definition Oracle (W : Type) : Type := forall X : Type, call X -> W -> X * W.

(** The receiver of the methods of [TrustbookEsignClient]. *)
Record Client : Type := {
  baseUrl : jsstring;
  apiKey : jsstring;
  agentId : jsstring;
  agentName : jsstring;
  signatureAlg : jsstring;
  loaded : bool
}.

(** The object [new] hands to the constructor. *)
Definition blank : Client :=
  {| baseUrl := []; apiKey := []; agentId := []; agentName := [];
     signatureAlg := []; loaded := false |}.

Definition set_baseUrl (v : jsstring) (c : Client) : Client :=
  {| baseUrl := v; apiKey := apiKey c; agentId := agentId c; agentName := agentName c;
     signatureAlg := signatureAlg c; loaded := loaded c |}.
Definition set_apiKey (v : jsstring) (c : Client) : Client :=
  {| baseUrl := baseUrl c; apiKey := v; agentId := agentId c; agentName := agentName c;
     signatureAlg := signatureAlg c; loaded := loaded c |}.
Definition set_agentId (v : jsstring) (c : Client) : Client :=
  {| baseUrl := baseUrl c; apiKey := apiKey c; agentId := v; agentName := agentName c;
     signatureAlg := signatureAlg c; loaded := loaded c |}.
Definition set_agentName (v : jsstring) (c : Client) : Client :=
  {| baseUrl := baseUrl c; apiKey := apiKey c; agentId := agentId c; agentName := v;
     signatureAlg := signatureAlg c; loaded := loaded c |}.
Definition set_signatureAlg (v : jsstring) (c : Client) : Client :=
  {| baseUrl := baseUrl c; apiKey := apiKey c; agentId := agentId c; agentName := agentName c;
     signatureAlg := v; loaded := loaded c |}.
Definition set_loaded (v : bool) (c : Client) : Client :=
  {| baseUrl := baseUrl c; apiKey := apiKey c; agentId := agentId c; agentName := agentName c;
     signatureAlg := signatureAlg c; loaded := v |}.

(** Programs: a method body is a tree of calls, reads and writes of [this],
    ending in a value or an exception. *)
Inductive Prog (A : Type) : Type :=
| Ret (a : A)
| Raise (e : exn)
| Call {X : Type} (c : call X) (k : X -> Prog A)
| This (k : Client -> Prog A)
| Assign (f : Client -> Client) (k : Prog A).
Arguments Ret {A} a.
Arguments Raise {A} e.
Arguments Call {A X} c k.
Arguments This {A} k.
Arguments Assign {A} f k.

Fixpoint bind {A B : Type} (p : Prog A) (f : A -> Prog B) : Prog B :=
  match p with
  | Ret a => f a
  | Raise e => Raise e
  | Call c k => Call c (fun x => bind (k x) f)
  | This k => This (fun t => bind (k t) f)
  | Assign g k => Assign g (bind k f)
  end.

#[export] Instance Prog_ret : MRet Prog := @Ret.
#[export] Instance Prog_bind : MBind Prog := fun A B f p => bind p f.

Definition perform {X : Type} (c : call X) : Prog X := Call c Ret.
Definition this : Prog Client := This Ret.
Definition assign (f : Client -> Client) : Prog unit := Assign f (Ret tt).

(** A completion becomes a return or a throw. *)
Definition lift {A : Type} (r : completion A) : Prog A :=
  match r with
  | Normal a => Ret a
  | Abrupt e => Raise e
  end.

(** A call that may throw, or [await] on a call that may reject. *)
Definition attempt {A : Type} (c : call (completion A)) : Prog A :=
  r ← perform c; lift r.

(** One run: the completion, the receiver afterwards, the world afterwards and
    the calls made, oldest first. *)
Record Run (W A : Type) : Type := {
  outcome : completion A;
  receiver : Client;
  world : W;
  trace : list event
}.
Arguments outcome {W A} r.
Arguments receiver {W A} r.
Arguments world {W A} r.
Arguments trace {W A} r.

Definition logged {W A : Type} (e : event) (r : Run W A) : Run W A :=
  {| outcome := outcome r; receiver := receiver r; world := world r;
     trace := e :: trace r |}.

Fixpoint exec {W A : Type} (O : Oracle W) (p : Prog A) (c : Client) (w : W) : Run W A :=
  match p with
  | Ret a => {| outcome := Normal a; receiver := c; world := w; trace := [] |}
  | Raise e => {| outcome := Abrupt e; receiver := c; world := w; trace := [] |}
  | Call q k =>
      let (x, w') := O _ q w in
      logged (Ev q x) (exec O (k x) c w')
  | This k => exec O (k c) c w
  | Assign f k => exec O k (f c) w
  end.

(** What a trace shows: the requests handed to [fetch], the clock readings,
    the UUIDs drawn, and the calls to the key custody with their answers. *)
Definition fetched (e : event) : option HttpRequest :=
  match e with
  | @Ev X q _ => match q with Fetch req => Some req | _ => None end
  end.
Definition clock_read (e : event) : option Z :=
  match e with
  | @Ev X q x => match q in call X return X -> option Z with
                 | DateNow => fun now => Some now
                 | _ => fun _ => None
                 end x
  end.
Definition uuid_drawn (e : event) : option jsstring :=
  match e with
  | @Ev X q x => match q in call X return X -> option jsstring with
                 | RandomUUID => fun u => Some u
                 | _ => fun _ => None
                 end x
  end.
Definition sign_call (e : event) : option (buffer * completion SignResult) :=
  match e with
  | @Ev X q x => match q in call X return X -> option (buffer * completion SignResult) with
                 | SdkSign msg => fun r => Some (msg, r)
                 | _ => fun _ => None
                 end x
  end.
Definition load_call (e : event) : option (jsstring * completion bool) :=
  match e with
  | @Ev X q x => match q in call X return X -> option (jsstring * completion bool) with
                 | SdkLoad id => fun r => Some (id, r)
                 | _ => fun _ => None
                 end x
  end.

Definition requests_sent (tr : list event) : list HttpRequest := omap fetched tr.
Definition clock_reads (tr : list event) : list Z := omap clock_read tr.
Definition uuids_drawn (tr : list event) : list jsstring := omap uuid_drawn tr.
Definition sign_calls (tr : list event) : list (buffer * completion SignResult) :=
  omap sign_call tr.
Definition load_calls (tr : list event) : list (jsstring * completion bool) :=
  omap load_call tr.

(* ===================================================================== *)
(** * 4. The adapter *)
(* ===================================================================== *)

Section Adapter.
Context {host : Host}.

(** The argument object of [buildMb2Message], destructured. *)
Record Mb2Input : Type := {
  ts : jsval;
  nonce : jsval;
  mb_agentName : jsval;
  method : jsval;
  pathOnly : jsval;
  bodySha256 : jsval
}.

(** [buildMb2Message]: the template literal, then [Buffer.from(.., "utf-8")]. *)
Definition buildMb2Message (i : Mb2Input) : completion buffer :=
  match String_toUpperCase (method i) with
  | Abrupt e => Abrupt e
  | Normal METHOD =>
      Normal (Buffer_from_utf8
        (lit "MB2" ++ [LF] ++ ToString (ts i) ++ [LF] ++ ToString (nonce i) ++ [LF]
         ++ ToString (mb_agentName i) ++ [LF] ++ METHOD ++ [LF]
         ++ ToString (pathOnly i) ++ [LF] ++ ToString (bodySha256 i) ++ [LF]))
  end.

(** [resolveEsignModule]: the [try] body (the [path] tests and [require])
    is one call; its failure is wrapped in a new [Error]. *)
Definition resolveEsignModule : Prog unit :=
  env ← perform (EnvVar "ESIGN_AGENT_TRUST_PATH");
  let packageRef := ToString (js_or env (VStr (lit "esign-agent-trust"))) in
  r ← perform (LoadEsignModule packageRef);
  match r with
  | Normal m => Ret m
  | Abrupt error =>
      Raise (JsError
        (lit "无法加载 esign-agent-trust（" ++ packageRef ++ lit "）: "
         ++ exn_message error ++ [LF]
         ++ lit "可设置 ESIGN_AGENT_TRUST_PATH=/path/to/esignAgentTrust"))
  end.

(** [s.replace(/\/+$/, "")]. *)
Fixpoint drop_leading (u0 : Z) (s : jsstring) : jsstring :=
  match s with
  | u :: rest => if bool_decide (u = u0) then drop_leading u0 rest else s
  | [] => []
  end.

Definition strip_trailing_slashes (s : jsstring) : jsstring :=
  rev (drop_leading 47 (rev s)).

(** The options object of the constructor; the last two have defaults. *)
Record ClientOptions : Type := {
  opt_baseUrl : jsval;
  opt_apiKey : jsval;
  opt_agentId : jsval;
  opt_agentName : jsval;
  opt_signatureAlg : option jsstring;
  opt_sdkConfig : option SdkConfig
}.

Definition empty_sdkConfig : SdkConfig :=
  {| keystoreService := VUndefined; certStorePath := VUndefined |}.

(** [constructor({ baseUrl, apiKey, agentId, agentName, signatureAlg, sdkConfig })]. *)
Definition constructor (o : ClientOptions) : Prog unit :=
  let signatureAlg := default (lit "rsa-v1_5-sha256") (opt_signatureAlg o) in
  let sdkConfig := default empty_sdkConfig (opt_sdkConfig o) in
  if negb (truthy (opt_baseUrl o)) || negb (truthy (opt_apiKey o))
     || negb (truthy (opt_agentId o)) || negb (truthy (opt_agentName o))
  then Raise (JsError (lit "baseUrl/apiKey/agentId/agentName 不能为空"))
  else
    resolveEsignModule;;
    attempt (NewEsignAgentTrust sdkConfig);;
    assign (set_baseUrl (strip_trailing_slashes (ToString (opt_baseUrl o))));;
    assign (set_apiKey (ToString (opt_apiKey o)));;
    assign (set_agentId (ToString (opt_agentId o)));;
    assign (set_agentName (ToString (opt_agentName o)));;
    assign (set_signatureAlg signatureAlg);;
    assign (set_loaded false).

(** [new TrustbookEsignClient(o)]: the constructor runs on a blank object. *)
Definition new_TrustbookEsignClient {W : Type} (O : Oracle W) (o : ClientOptions) (w : W)
  : Run W unit :=
  exec O (constructor o) blank w.

(** [loadIdentity()]. *)
Definition loadIdentity : Prog unit :=
  self ← this;
  ok ← attempt (SdkLoad (agentId self));
  if negb ok then
    Raise (JsError
      (lit "未找到本地凭证，agentId=" ++ agentId self ++ lit "。"
       ++ lit "请先完成证书导入并确保证书文件/私钥都能被 sdk.load(agentId) 找到。"))
  else assign (set_loaded true).

(** The headers object of a signed request. *)
Definition request_headers (self : Client) (signResult : SignResult)
    (ts nonce : jsstring) (has_body : bool) : gmap string jsstring :=
  let headers : gmap string jsstring :=
    <["X-MB-Signature-Nonce" := nonce]>
    (<["X-MB-Signature-Ts" := ts]>
    (<["X-MB-Signature-Alg" := signatureAlg self]>
    (<["X-MB-Signature" := signature signResult]>
    (<["Authorization" := lit "Bearer " ++ apiKey self]> ∅)))) in
  if has_body then <["Content-Type" := lit "application/json"]> headers else headers.

(** [request(method, apiPath, bodyObject)]; [bodyObject] is [None] when the
    argument is [undefined]. [Date.now()] is an integral number of
    milliseconds, on which [Math.floor(now / 1000)] is the floored quotient. *)
Definition request (method apiPath : jsstring) (bodyObject : option Value) : Prog Value :=
  self ← this;
  (if negb (loaded self) then loadIdentity else Ret tt);;
  bodyText ← match bodyObject with
             | None => Ret (Some [])
             | Some v => lift (JSON_stringify v)
             end;
  bodyBytes ← lift (Buffer_from bodyText);
  now ← perform DateNow;
  let ts := Number_toString (now / 1000) in
  nonce ← perform RandomUUID;
  let bodySha256 := sha256Base64 bodyBytes in
  self ← this;
  msg ← lift (buildMb2Message
                {| ts := VStr ts; nonce := VStr nonce;
                   mb_agentName := VStr (agentName self);
                   method := VStr method; pathOnly := VStr apiPath;
                   bodySha256 := VStr bodySha256 |});
  signResult ← attempt (SdkSign msg);
  let headers := request_headers self signResult ts nonce (bool_decide (is_Some bodyObject)) in
  response ← attempt (Fetch
                {| url := baseUrl self ++ apiPath;
                   http_method := method;
                   headers := headers;
                   body := match bodyObject with None => None | Some _ => bodyText end |});
  text ← lift (text response);
  let json := match text with
              | [] => null_value
              | _ => match JSON_parse text with
                     | Normal v => v
                     | Abrupt _ => null_value
                     end
              end in
  if negb (ok response) then
    let detail := match detail_text json with
                  | Some d => d
                  | None => match text with
                            | [] => lit "HTTP " ++ Number_toString (status response)
                            | _ => text
                            end
                  end in
    Raise (JsError (method ++ lit " " ++ apiPath ++ lit " 失败: " ++ detail))
  else Ret json.

End Adapter.

(* ===================================================================== *)
(** * 5. The top level of the module *)
(* ===================================================================== *)

(** The names bound in the module's scope when its last statement runs: the
    two [const]s, the function declarations, the class, and the parameters of
    the CommonJS wrapper. *)
Definition module_scope : list string :=
  ["crypto"; "path"; "resolveEsignModule"; "sha256Base64"; "buildMb2Message";
   "generateAndStoreKeyPairWithEsign"; "TrustbookEsignClient"; "rawApiRequest";
   "runCli"; "exports"; "require"; "module"; "__filename"; "__dirname"].

(** The shorthand properties of the object assigned to [module.exports]. *)
Definition exported_identifiers : list string :=
  ["TrustbookEsignClient"; "buildMb1Message"; "sha256Base64"].

(** An identifier is looked up in the module's scope, then among the
    properties of the global object; one bound in neither is a
    [ReferenceError]. *)
Definition resolve_identifier (globals : string -> bool) (x : string) : completion string :=
  if bool_decide (x ∈ module_scope) || globals x then Normal x
  else Abrupt (JsReferenceError x).

(** The object literal evaluates its properties in order. *)
Fixpoint evaluate_exports (globals : string -> bool) (ids : list string)
  : completion (list string) :=
  match ids with
  | [] => Normal []
  | x :: rest =>
      match resolve_identifier globals x with
      | Abrupt e => Abrupt e
      | Normal v =>
          match evaluate_exports globals rest with
          | Abrupt e => Abrupt e
          | Normal vs => Normal (v :: vs)
          end
      end
  end.

(** How far the call [runCli()] gets before it hands a promise back: the
    usage branch ends the process with [process.exit(0)]; every other branch
    awaits, returns or throws inside the [async] function, which leaves a
    pending or settled promise (code outside the adapter is taken not to end
    the process). *)
Inductive cli_start : Type :=
| ProcessExits (code : Z)
| PromiseReturned.

Definition runCli_start (argv2 : jsval) : cli_start :=
  let cmd := ToString (js_or argv2 (VStr [])) in
  if bool_decide (cmd = []) || bool_decide (cmd = lit "help")
     || bool_decide (cmd = lit "--help") || bool_decide (cmd = lit "-h")
  then ProcessExits 0
  else PromiseReturned.

Inductive module_outcome : Type :=
| Evaluated (exports : list string)
| Throws (e : exn)
| Exited (code : Z).

(** Evaluation of the statements after the declarations:
    [if (require.main === module) runCli().catch(..)], then
    [module.exports = { .. }]. *)
Definition evaluate_module (globals : string -> bool) (is_main : bool) (argv2 : jsval)
  : module_outcome :=
  match (if is_main then runCli_start argv2 else PromiseReturned) with
  | ProcessExits code => Exited code
  | PromiseReturned =>
      match evaluate_exports globals exported_identifiers with
      | Normal e => Evaluated e
      | Abrupt e => Throws e
      end
  end.

(* ===================================================================== *)
(** * 6. The verifier of the design document *)
(* ===================================================================== *)

(** Modelled from the spec: the signature algorithm behind the external key
    custody ("sign these bytes") and the verifier's cryptographic check; the
    repository holds neither. *)
Class SignatureScheme : Type := {
  PrivateKey : Type;
  PublicKey : Type;
  public_of : PrivateKey -> PublicKey;
  sig_sign : PrivateKey -> buffer -> jsstring;
  sig_verify : PublicKey -> buffer -> jsstring -> bool
}.

Section Verifier.
Context {host : Host} {scheme : SignatureScheme}.

(** Modelled from the spec: the certificate bound to an agent (section 3,
    AgentIdentity), with the agent name among its display fields. *)
Record Certificate : Type := {
  serial_number : jsstring;
  issuer_cn : jsstring;
  subject_owner_id : jsstring;
  subject_agent_name : jsstring;
  not_before : Z;
  not_after : Z;
  public_key : PublicKey
}.

(** Modelled from the spec: the SigningEnvelope of section 3; [ts] is kept as
    the decimal string the header carries. *)
Record SigningEnvelope : Type := {
  env_ts : jsstring;
  env_nonce : jsstring;
  env_method : jsstring;
  env_path : jsstring;
  env_body_sha256_b64 : jsstring;
  env_algorithm : jsstring;
  env_signature : jsstring
}.

(** Modelled from the spec: the stored action the verifier judges, with the
    name of the agent it is attributed to. *)
Record StoredAction : Type := {
  action_agent_name : jsstring;
  action_method : jsstring;
  action_path : jsstring;
  action_body : buffer
}.

(** Modelled from the spec: the six terminal states of section 4.3. *)
Inductive Status : Type :=
| unsigned | no_cert | cert_not_yet_valid | cert_expired | invalid | verified.

(** Modelled from the spec: the canonical message "reconstructed from the
    stored action's current (method, path, body) plus the stored envelope's
    (ts, nonce)", through the builder of section 4.1. *)
Definition recomputed_message (env : SigningEnvelope) (act : StoredAction)
  : completion buffer :=
  buildMb2Message
    {| ts := VStr (env_ts env); nonce := VStr (env_nonce env);
       mb_agentName := VStr (action_agent_name act);
       method := VStr (action_method act); pathOnly := VStr (action_path act);
       bodySha256 := VStr (sha256Base64 (action_body act)) |}.

(** Modelled from the spec: [verify(envelope, stored_action,
    certificate_or_absent, now)] of section 4.3, the states tried in the
    order listed there. [replayed] is the deployment's freshness policy
    (window and consumed nonces), whose verdict is a kind of [invalid]. *)
Definition verify (replayed : SigningEnvelope -> Z -> bool)
    (envelope : option SigningEnvelope) (act : StoredAction)
    (certificate : option Certificate) (now : Z) : Status :=
  match envelope with
  | None => unsigned
  | Some env =>
      match certificate with
      | None => no_cert
      | Some cert =>
          if now <? not_before cert then cert_not_yet_valid
          else if not_after cert <? now then cert_expired
          else
            let signature_ok :=
              match recomputed_message env act with
              | Normal msg => sig_verify (public_key cert) msg (env_signature env)
              | Abrupt _ => false
              end in
            let digest_ok :=
              bool_decide (env_body_sha256_b64 env = sha256Base64 (action_body act)) in
            let identity_ok :=
              bool_decide (subject_agent_name cert = action_agent_name act) in
            if signature_ok && digest_ok && identity_ok && negb (replayed env now)
            then verified
            else invalid
      end
  end.

(** Modelled from the spec: what the backend makes of an inbound request
    (section 6): the envelope read from the four signature headers, with the
    digest of the raw body; no envelope when a header is missing. *)
Definition inbound_envelope (method path : jsstring) (hs : gmap string jsstring)
    (raw_body : buffer) : option SigningEnvelope :=
  sig ← hs !! "X-MB-Signature";
  alg ← hs !! "X-MB-Signature-Alg";
  ts ← hs !! "X-MB-Signature-Ts";
  nonce ← hs !! "X-MB-Signature-Nonce";
  Some {| env_ts := ts; env_nonce := nonce; env_method := method; env_path := path;
          env_body_sha256_b64 := sha256Base64 raw_body;
          env_algorithm := alg; env_signature := sig |}.

(** Modelled from the spec: what "cryptographically verifies" rests on for the
    key pair of [sk], the law of a signature algorithm that what [sk] signs,
    its public key accepts. *)
Definition accepts_own_signatures (sk : PrivateKey) : Prop :=
  forall msg, sig_verify (public_of sk) msg (sig_sign sk msg) = true.

End Verifier.

(* ===================================================================== *)
(** * 7. The shapes of a run of [request] *)
(* ===================================================================== *)

Section RunShapes.
Context {host : Host} {W : Type}.

(** The world in which a call of [request] reads the clock: the one it is
    started in, after the identity was loaded if it had to be. *)
Definition world_after_load (O : Oracle W) (c : Client) (w : W) : W :=
  if loaded c then w else (O _ (SdkLoad (agentId c)) w).2.
Definition clock_at_signing (O : Oracle W) (c : Client) (w : W) : Z :=
  (O _ DateNow (world_after_load O c w)).1.
Definition uuid_at_signing (O : Oracle W) (c : Client) (w : W) : jsstring :=
  (O _ RandomUUID (O _ DateNow (world_after_load O c w)).2).1.

(** [text] is the body text of a call: empty without a body object, what
    [JSON.stringify] returns otherwise. *)
Definition body_text (b : option Value) (text : jsstring) : Prop :=
  match b with
  | None => text = []
  | Some v => JSON_stringify v = Normal (Some text)
  end.

Definition signing_input (c : Client) (m p text : jsstring) (now : Z) (uuid : jsstring)
  : Mb2Input :=
  {| ts := VStr (Number_toString (now / 1000)); nonce := VStr uuid;
     mb_agentName := VStr (agentName c); method := VStr m; pathOnly := VStr p;
     bodySha256 := VStr (sha256Base64 (Buffer_from_utf8 text)) |}.

Definition signed_request (c : Client) (m p : jsstring) (b : option Value)
    (text : jsstring) (now : Z) (uuid : jsstring) (sr : SignResult) : HttpRequest :=
  {| url := baseUrl c ++ p;
     http_method := m;
     headers := request_headers c sr (Number_toString (now / 1000)) uuid
                  (bool_decide (is_Some b));
     body := match b with None => None | Some _ => Some text end |}.

Definition load_events (c : Client) : list event :=
  if loaded c then [] else [Ev (SdkLoad (agentId c)) (Normal true)].

(** The four ways a call of [request] can go, with the calls it makes. *)
Inductive request_run (c : Client) (m p : jsstring) (b : option Value)
    (now : Z) (uuid : jsstring) (r : Run W Value) : Prop :=
| run_load_failed answer e :
    loaded c = false -> answer <> Normal true ->
    trace r = [Ev (SdkLoad (agentId c)) answer] ->
    outcome r = Abrupt e ->
    request_run c m p b now uuid r
| run_body_failed e :
    trace r = load_events c ->
    outcome r = Abrupt e ->
    request_run c m p b now uuid r
| run_sign_failed text msg e :
    body_text b text ->
    buildMb2Message (signing_input c m p text now uuid) = Normal msg ->
    trace r = load_events c
              ++ [Ev DateNow now; Ev RandomUUID uuid; Ev (SdkSign msg) (Abrupt e)] ->
    outcome r = Abrupt e ->
    request_run c m p b now uuid r
| run_sent text msg sr answer :
    body_text b text ->
    buildMb2Message (signing_input c m p text now uuid) = Normal msg ->
    trace r = load_events c
              ++ [Ev DateNow now; Ev RandomUUID uuid; Ev (SdkSign msg) (Normal sr);
                  Ev (Fetch (signed_request c m p b text now uuid sr)) answer] ->
    request_run c m p b now uuid r.

End RunShapes.

(** A field that is missing or holds the empty string. *)
Definition empty_or_absent (v : jsval) : Prop :=
  v = VUndefined \/ v = VNull \/ v = VStr [].

(* ===================================================================== *)
(** * 8. A concrete host, key custody and world, to run the definitions *)
(* ===================================================================== *)

Definition ascii_upper (u : Z) : Z :=
  if (97 <=? u) && (u <=? 122) then u - 32 else u.

(** A host whose strings are ASCII and whose values are strings or absent. *)
Definition ascii_host : Host :=
  {| toUpperCase := List.map ascii_upper;
     Value := jsval;
     null_value := VNull;
     JSON_stringify := fun v =>
       match v with
       | VUndefined => Normal None
       | VNull => Normal (Some (lit "null"))
       | VStr s => Normal (Some ([34] ++ s ++ [34]))
       end;
     JSON_parse := fun t =>
       if bool_decide (t = lit "null") then Normal VNull
       else Abrupt (Foreign (lit "Unexpected token"));
     detail_text := fun _ => None |}.

(** A keyed digest standing for a signature algorithm: the public key is the
    private key. *)
Definition keyed_digest : SignatureScheme :=
  {| PrivateKey := buffer;
     PublicKey := buffer;
     public_of := fun k => k;
     sig_sign := fun k m => sha256Base64 (k ++ m);
     sig_verify := fun k m s => bool_decide (s = sha256Base64 (k ++ m)) |}.

(** A world with a fixed clock and UUID, whose key custody answers as told. *)
Definition fixed_world (load_answer : completion bool)
    (sign_answer : buffer -> completion SignResult) : Oracle unit :=
  fun X q w =>
    match q in call X return X * unit with
    | EnvVar _ => (VUndefined, w)
    | LoadEsignModule _ => (Normal tt, w)
    | NewEsignAgentTrust _ => (Normal tt, w)
    | SdkLoad _ => (load_answer, w)
    | SdkSign msg => (sign_answer msg, w)
    | DateNow => (1700000000123, w)
    | RandomUUID => (lit "3b241101-e2bb-4255-8caf-4136c566a962", w)
    | Fetch _ => (Normal {| ok := true; status := 200; text := Normal (lit "null") |}, w)
    end.

Definition demo_key : buffer := [1; 2; 3].

Definition custody_signs (msg : buffer) : completion SignResult :=
  Normal {| signature := sig_sign (SignatureScheme := keyed_digest) demo_key msg |}.

Definition demo_options : ClientOptions :=
  {| opt_baseUrl := VStr (lit "http://localhost:3456/");
     opt_apiKey := VStr (lit "mb_key");
     opt_agentId := VStr (lit "agent_local_001");
     opt_agentName := VStr (lit "MyAgent");
     opt_signatureAlg := None;
     opt_sdkConfig := None |}.

Definition demo_client : Client :=
  {| baseUrl := lit "http://localhost:3456"; apiKey := lit "mb_key";
     agentId := lit "agent_local_001"; agentName := lit "MyAgent";
     signatureAlg := lit "rsa-v1_5-sha256"; loaded := false |}.

(** Two inputs that differ only in where a line feed sits between [ts] and
    [nonce], and an input whose fields are all empty. *)
Definition shifted_left : Mb2Input :=
  {| ts := VStr (lit "1"); nonce := VStr (lit "2" ++ [LF] ++ lit "3");
     mb_agentName := VStr (lit "A"); method := VStr (lit "POST");
     pathOnly := VStr (lit "/p"); bodySha256 := VStr (lit "d") |}.
Definition shifted_right : Mb2Input :=
  {| ts := VStr (lit "1" ++ [LF] ++ lit "2"); nonce := VStr (lit "3");
     mb_agentName := VStr (lit "A"); method := VStr (lit "POST");
     pathOnly := VStr (lit "/p"); bodySha256 := VStr (lit "d") |}.
(** Two inputs that differ only in the letter case of [method], and two that
    differ only in which unpaired surrogate [nonce] holds. *)
Definition lower_case_method : Mb2Input :=
  {| ts := VStr (lit "1"); nonce := VStr (lit "n");
     mb_agentName := VStr (lit "A"); method := VStr (lit "get");
     pathOnly := VStr (lit "/p"); bodySha256 := VStr (lit "d") |}.
Definition upper_case_method : Mb2Input :=
  {| ts := VStr (lit "1"); nonce := VStr (lit "n");
     mb_agentName := VStr (lit "A"); method := VStr (lit "GET");
     pathOnly := VStr (lit "/p"); bodySha256 := VStr (lit "d") |}.
Definition unpaired_D800 : Mb2Input :=
  {| ts := VStr (lit "1"); nonce := VStr [0xD800];
     mb_agentName := VStr (lit "A"); method := VStr (lit "GET");
     pathOnly := VStr (lit "/p"); bodySha256 := VStr (lit "d") |}.
Definition unpaired_D801 : Mb2Input :=
  {| ts := VStr (lit "1"); nonce := VStr [0xD801];
     mb_agentName := VStr (lit "A"); method := VStr (lit "GET");
     pathOnly := VStr (lit "/p"); bodySha256 := VStr (lit "d") |}.
Definition empty_input : Mb2Input :=
  {| ts := VStr []; nonce := VStr []; mb_agentName := VStr []; method := VStr [];
     pathOnly := VStr []; bodySha256 := VStr [] |}.

(** The scenario of the design document: agent A signs
    POST /api/v1/projects/p1/posts at ts 1700000000 with nonce abc123. *)
Definition quoted (s : jsstring) : jsstring := [34] ++ s ++ [34].
Definition scenario_body : jsstring :=
  lit "{" ++ quoted (lit "title") ++ lit ":" ++ quoted (lit "Hello") ++ lit ","
  ++ quoted (lit "content") ++ lit ":" ++ quoted (lit "Hi") ++ lit "}".
Definition scenario_path : jsstring := lit "/api/v1/projects/p1/posts".
Definition scenario_input : Mb2Input :=
  {| ts := VStr (lit "1700000000"); nonce := VStr (lit "abc123");
     mb_agentName := VStr (lit "A"); method := VStr (lit "post");
     pathOnly := VStr scenario_path;
     bodySha256 := VStr (sha256Base64 (Buffer_from_utf8 scenario_body)) |}.
Definition scenario_message : buffer :=
  Buffer_from_utf8
    (lit "MB2" ++ [LF] ++ lit "1700000000" ++ [LF] ++ lit "abc123" ++ [LF] ++ lit "A" ++ [LF]
     ++ lit "POST" ++ [LF] ++ scenario_path ++ [LF]
     ++ lit "yRkHIK8JoNJtH1aWEL+I7KBf5SN6zWxEdFwbyyL0dh0=" ++ [LF]).

(** A client posting a string, in a world where the identity loads and the
    custody signs; the same call where the identity does not load. *)
Definition demo_run : Run unit jsval :=
  exec (fixed_world (Normal true) custody_signs)
    (request (host := ascii_host) (lit "POST") scenario_path (Some (VStr (lit "Hello"))))
    demo_client tt.
Definition refused_run : Run unit jsval :=
  exec (fixed_world (Normal false) custody_signs)
    (request (host := ascii_host) (lit "POST") scenario_path (Some (VStr (lit "Hello"))))
    demo_client tt.

Definition demo_certificate : Certificate (scheme := keyed_digest) :=
  @Build_Certificate keyed_digest
    (lit "01") (lit "Demo CA") (lit "owner-1") (lit "MyAgent")
    1600000000 1800000000 demo_key.

Definition never_replayed : SigningEnvelope -> Z -> bool := fun _ _ => false.

Definition nameless_options : ClientOptions :=
  {| opt_baseUrl := VStr (lit "http://localhost:3456");
     opt_apiKey := VStr (lit "mb_key");
     opt_agentId := VStr (lit "agent_local_001");
     opt_agentName := VStr [];
     opt_signatureAlg := None;
     opt_sdkConfig := None |}.

(* ===================================================================== *)
(** * 8b. More of the adapter: what a trace shows of [fetch] *)
(* ===================================================================== *)

(** The calls of [fetch] with their answers. *)
Definition fetch_call (e : event) : option (HttpRequest * completion Response) :=
  match e with
  | @Ev X q x => match q in call X return X -> option (HttpRequest * completion Response) with
                 | Fetch req => fun r => Some (req, r)
                 | _ => fun _ => None
                 end x
  end.
Definition fetch_calls (tr : list event) : list (HttpRequest * completion Response) :=
  omap fetch_call tr.

(** The names of the headers [request] sets. *)
Definition signature_header_names : list string :=
  ["X-MB-Signature"; "X-MB-Signature-Alg"; "X-MB-Signature-Ts"; "X-MB-Signature-Nonce"].

(** The loads of the esign module, the SDK objects constructed and the
    environment variables read. *)
Definition module_load (e : event) : option (jsstring * completion unit) :=
  match e with
  | @Ev X q x => match q in call X return X -> option (jsstring * completion unit) with
                 | LoadEsignModule ref => fun r => Some (ref, r)
                 | _ => fun _ => None
                 end x
  end.
Definition sdk_construction (e : event) : option (SdkConfig * completion unit) :=
  match e with
  | @Ev X q x => match q in call X return X -> option (SdkConfig * completion unit) with
                 | NewEsignAgentTrust cfg => fun r => Some (cfg, r)
                 | _ => fun _ => None
                 end x
  end.
Definition env_read (e : event) : option (string * jsval) :=
  match e with
  | @Ev X q x => match q in call X return X -> option (string * jsval) with
                 | EnvVar name => fun v => Some (name, v)
                 | _ => fun _ => None
                 end x
  end.
Definition module_loads (tr : list event) : list (jsstring * completion unit) :=
  omap module_load tr.
Definition sdk_constructions (tr : list event) : list (SdkConfig * completion unit) :=
  omap sdk_construction tr.
Definition env_reads (tr : list event) : list (string * jsval) := omap env_read tr.

(** The error [resolveEsignModule] throws when the module does not load. *)
Definition module_load_error (packageRef : jsstring) (error : exn) : exn :=
  JsError
    (lit "无法加载 esign-agent-trust（" ++ packageRef ++ lit "）: "
     ++ exn_message error ++ [LF]
     ++ lit "可设置 ESIGN_AGENT_TRUST_PATH=/path/to/esignAgentTrust").

Section ResponseReading.
Context {host : Host}.

(** What [request] and [rawApiRequest] make of the text of a response: the
    parsed value, [null] for an empty text and for a text that does not
    parse. *)
Definition parsed_body (text : jsstring) : Value :=
  match text with
  | [] => null_value
  | _ => match JSON_parse text with
         | Normal v => v
         | Abrupt _ => null_value
         end
  end.

(** The detail of the error for a response that is not ok: the [detail] of
    the parsed body when it has one, else the text, else the status. *)
Definition failure_detail (resp : Response) (text : jsstring) : jsstring :=
  match detail_text (parsed_body text) with
  | Some d => d
  | None => match text with
            | [] => lit "HTTP " ++ Number_toString (status resp)
            | _ => text
            end
  end.

End ResponseReading.

(** An octet. *)
Definition octet (b : Z) : Prop := 0 <= b < 256.

(** A character of base64 text: one of the alphabet, or the padding [=]. *)
Definition base64_char (u : Z) : Prop := u ∈ Base64.alphabet \/ u = Base64.pad_sym.

(** A decimal digit, [0] to [9]. *)
Definition decimal_digit (u : Z) : Prop := 48 <= u <= 57.

(** A decimal numeral: digits, after a minus sign for a negative number. *)
Definition decimal_numeral (negative : bool) (s : jsstring) : Prop :=
  exists digits,
    s = (if negative then [45] else []) ++ digits
    /\ digits <> [] /\ Forall decimal_digit digits.

(** A string of ASCII characters. *)
Definition ascii_text (s : jsstring) : Prop := Forall (fun u => 0 <= u < 128) s.

(* ===================================================================== *)
(** * 8c. More of the adapter: unsigned requests, posts and comments *)
(* ===================================================================== *)

(** [baseUrl.replace(/\/+$/, "")] on a value: a [TypeError] on the absent
    values. *)
Definition String_replace_trailing_slashes (v : jsval) : completion jsstring :=
  match v with
  | VStr s => Normal (strip_trailing_slashes s)
  | VUndefined => Abrupt (JsTypeError "Cannot read properties of undefined (reading 'replace')")
  | VNull => Abrupt (JsTypeError "Cannot read properties of null (reading 'replace')")
  end.

(** The literals the adapter builds its request bodies from, and
    [ToBoolean] on the values of the language. *)
Class Literals {host : Host} : Type := {
  string_value : jsstring -> Value;
  array_literal : list Value -> Value;
  object_literal : list (string * Value) -> Value;
  ToBoolean : Value -> bool
}.

Section Unsigned.
Context {host : Host}.

(** The argument object of [rawApiRequest], destructured; [raw_headers] is
    [None] when the property is missing, [raw_bodyObject] when it is
    [undefined]. *)
Record RawApiRequest : Type := {
  raw_baseUrl : jsval;
  raw_method : jsstring;
  raw_apiPath : jsstring;
  raw_bodyObject : option Value;
  raw_headers : option (gmap string jsstring)
}.

(** [rawApiRequest({ baseUrl, method, apiPath, bodyObject, headers = {} })]. *)
Definition rawApiRequest (a : RawApiRequest) : Prog Value :=
  bodyText ← match raw_bodyObject a with
             | None => Ret (Some [])
             | Some v => lift (JSON_stringify v)
             end;
  let reqHeaders := default ∅ (raw_headers a) in
  let reqHeaders := match raw_bodyObject a with
                    | Some _ => <["Content-Type" := lit "application/json"]> reqHeaders
                    | None => reqHeaders
                    end in
  base ← lift (String_replace_trailing_slashes (raw_baseUrl a));
  response ← attempt (Fetch
                {| url := base ++ raw_apiPath a;
                   http_method := raw_method a;
                   headers := reqHeaders;
                   body := match raw_bodyObject a with None => None | Some _ => bodyText end |});
  text ← lift (text response);
  let json := parsed_body text in
  if negb (ok response) then
    Raise (JsError (raw_method a ++ lit " " ++ raw_apiPath a ++ lit " 失败: "
                    ++ failure_detail response text))
  else Ret json.

Context {literals : Literals}.

(** The second argument of [createPost], destructured; [post_type] and
    [post_tags] are [None] when the property is [undefined]. *)
Record PostFields : Type := {
  post_title : Value;
  post_content : Value;
  post_type : option Value;
  post_tags : option Value
}.

Definition post_body (f : PostFields) : Value :=
  object_literal
    [("title", post_title f);
     ("content", post_content f);
     ("type", default (string_value (lit "discussion")) (post_type f));
     ("tags", default (array_literal []) (post_tags f))].

(** [createPost(projectId, { title, content, type, tags })]. *)
Definition createPost (projectId : jsval) (f : PostFields) : Prog Value :=
  request (lit "POST") (lit "/api/v1/projects/" ++ ToString projectId ++ lit "/posts")
    (Some (post_body f)).

Definition comment_body (content parentId : Value) : Value :=
  object_literal
    [("content", content);
     ("parent_id", if ToBoolean parentId then parentId else null_value)].

(** [createComment(postId, content, parentId)]. *)
Definition createComment (postId : jsval) (content parentId : Value) : Prog Value :=
  request (lit "POST") (lit "/api/v1/posts/" ++ ToString postId ++ lit "/comments")
    (Some (comment_body content parentId)).

End Unsigned.

Section Outcomes.
Context {host : Host}.

(** How [request] and [rawApiRequest] end once [fetch] has answered. *)
Definition response_outcome (m p : jsstring) (answer : completion Response)
  : completion Value :=
  match answer with
  | Abrupt e => Abrupt e
  | Normal resp =>
      match text resp with
      | Abrupt e => Abrupt e
      | Normal t =>
          if ok resp then Normal (parsed_body t)
          else Abrupt (JsError (m ++ lit " " ++ p ++ lit " 失败: " ++ failure_detail resp t))
      end
  end.

End Outcomes.

Section SignedBodies.
Context {host : Host}.

(** [req] is a signed request of client [c] for [method] and [path] with the
    body object [v]: it carries the text [JSON.stringify] gave for [v], and
    the one message signed in the trace [tr] names the agent, the method
    upper-cased, the path and the digest of that text. *)
Definition signed_with_body (c : Client) (tr : list event) (req : HttpRequest)
    (method path : jsstring) (v : Value) : Prop :=
  url req = baseUrl c ++ path
  /\ http_method req = method
  /\ headers req !! "Content-Type" = Some (lit "application/json")
  /\ exists text t n sr,
       JSON_stringify v = Normal (Some text)
       /\ body req = Some text
       /\ sign_calls tr
          = [([77; 66; 50; 10] ++ Buffer_from_utf8 t ++ [10] ++ Buffer_from_utf8 n ++ [10]
              ++ Buffer_from_utf8 (agentName c) ++ [10]
              ++ Buffer_from_utf8 (toUpperCase method) ++ [10]
              ++ Buffer_from_utf8 path ++ [10]
              ++ Buffer_from_utf8 (sha256Base64 (Buffer_from_utf8 text)) ++ [10],
              Normal sr)]
       /\ headers req !! "X-MB-Signature" = Some (signature sr)
       /\ headers req !! "X-MB-Signature-Ts" = Some t
       /\ headers req !! "X-MB-Signature-Nonce" = Some n.

End SignedBodies.

(** An unsigned request and a call without a usable body, to run the
    definitions on. *)
Definition demo_raw : RawApiRequest (host := ascii_host) :=
  @Build_RawApiRequest ascii_host
    (VStr (lit "http://localhost:3456/")) (lit "POST") scenario_path
    (Some (VStr (lit "Hello"))) None.

Definition raw_run : Run unit jsval :=
  exec (fixed_world (Normal true) custody_signs) (rawApiRequest demo_raw) demo_client tt.

Definition bodyless_run : Run unit jsval :=
  exec (fixed_world (Normal true) custody_signs)
    (request (host := ascii_host) (lit "POST") scenario_path (Some VUndefined))
    demo_client tt.

(* ===================================================================== *)
(** * 8d. The command line: key generation, identity binding and [runCli] *)
(* ===================================================================== *)

(** What the command-line part needs of the language besides [Literals]:
    [undefined], property reads, the text of a value in a template literal,
    [Number] on a string and [JSON.stringify(v, null, 2)]. [template_text] is
    total: it is applied to values that come out of [JSON.parse] only. *)
Class Runtime {host : Host} {literals : Literals} : Type := {
  undefined_value : Value;
  (** [v.name]: a [TypeError] on [null] and [undefined]. *)
  get_property : Value -> string -> completion Value;
  template_text : Value -> jsstring;
  Number_ : jsstring -> Value;
  JSON_stringify_indented : Value -> completion (option jsstring);
  ToBoolean_undefined : ToBoolean undefined_value = false
}.

(** How a run ends. *)
Inductive ending (A : Type) : Type :=
| Returns (a : A)
| Rejects (e : exn)
| ExitsWith (code : Z)
| LeavesModel.
Arguments Returns {A} a.
Arguments Rejects {A} e.
Arguments ExitsWith {A} code.
Arguments LeavesModel {A}.

Section Cli.
Context {host : Host} {literals : Literals} {runtime : Runtime}.

(** The calls that leave the command-line part: those of the library part,
    the arguments of the process, the console, the [KeyManager] of the esign
    module and two more methods of the SDK object. *)
Inductive cli_call : Type -> Type :=
| Lib {X : Type} (q : call X) : cli_call X
| Argv (i : nat) : cli_call jsval                             (* process.argv[i] *)
| ConsoleLog (arg : option jsstring) : cli_call unit
| ConsoleError (arg : jsstring) : cli_call unit
| NewKeyManager (cfg : SdkConfig) (keySize : Value) : cli_call (completion unit)
| GenerateKeyPair : cli_call (completion Value)               (* its [publicKey] *)
| SavePrivateKey (localId : jsstring) : cli_call (completion unit)
| HasPrivateKey (localId : jsstring) : cli_call (completion Value)
| SdkGetCredentials : cli_call (completion Value)
| SdkListAgents : cli_call (completion Value).

Inductive cli_event : Type :=
| CliEv {X : Type} (c : cli_call X) (x : X).

Definition CliOracle (W : Type) : Type := forall X : Type, cli_call X -> W -> X * W.

(** A function of the command-line part: a tree of calls that ends in a
    value, an exception or [process.exit(code)]. [Outside] marks the one
    place where a run leaves what the model covers. *)
Inductive Script (A : Type) : Type :=
| Done (a : A)
| Throw (e : exn)
| Exit (code : Z)
| Outside
| Do {X : Type} (c : cli_call X) (k : X -> Script A).
Arguments Done {A} a.
Arguments Throw {A} e.
Arguments Exit {A} code.
Arguments Outside {A}.
Arguments Do {A X} c k.

Fixpoint script_bind {A B : Type} (p : Script A) (f : A -> Script B) : Script B :=
  match p with
  | Done a => f a
  | Throw e => Throw e
  | Exit code => Exit code
  | Outside => Outside
  | Do c k => Do c (fun x => script_bind (k x) f)
  end.

#[export] Instance Script_ret : MRet Script := @Done.
#[export] Instance Script_bind : MBind Script := fun A B f p => script_bind p f.

Definition ask {X : Type} (c : cli_call X) : Script X := Do c Done.

Definition settle {A : Type} (r : completion A) : Script A :=
  match r with
  | Normal a => Done a
  | Abrupt e => Throw e
  end.

(** A call that may throw, or [await] on a call that may reject. *)
Definition try_call {A : Type} (c : cli_call (completion A)) : Script A :=
  r ← ask c; settle r.

(** A method of the client run on the object [c]: its result with the object
    as the method leaves it. *)
Fixpoint run_method {A : Type} (p : Prog A) (c : Client) : Script (A * Client) :=
  match p with
  | Ret a => Done (a, c)
  | Raise e => Throw e
  | Call q k => Do (Lib q) (fun x => run_method (k x) c)
  | This k => run_method (k c) c
  | Assign f k => run_method k (f c)
  end.

(** A function of the module, which has no [this]. *)
Definition run_function {A : Type} (p : Prog A) : Script A :=
  r ← run_method p blank; Done r.1.

Record CliRun (W A : Type) : Type := {
  ending_of : ending A;
  world_of : W;
  events : list cli_event
}.
Arguments ending_of {W A} _.
Arguments world_of {W A} _.
Arguments events {W A} _.

Fixpoint run {W A : Type} (O : CliOracle W) (p : Script A) (w : W) : CliRun W A :=
  match p with
  | Done a => {| ending_of := Returns a; world_of := w; events := [] |}
  | Throw e => {| ending_of := Rejects e; world_of := w; events := [] |}
  | Exit code => {| ending_of := ExitsWith code; world_of := w; events := [] |}
  | Outside => {| ending_of := LeavesModel; world_of := w; events := [] |}
  | Do c k =>
      let (x, w') := O _ c w in
      let r := run O (k x) w' in
      {| ending_of := ending_of r; world_of := world_of r;
         events := CliEv c x :: events r |}
  end.

(** The world of the library part inside the world of the command line, and
    an event of the library part as an event of the command line. *)
Definition lib_oracle {W : Type} (O : CliOracle W) : Oracle W := fun X q => O X (Lib q).
Definition of_lib (e : event) : cli_event :=
  match e with
  | Ev q x => CliEv (Lib q) x
  end.

(** The calls of the library part among the events of a run. *)
Definition lib_event (e : cli_event) : option event :=
  match e with
  | @CliEv X c x => match c in cli_call X return X -> option event with
                    | Lib q => fun x => Some (Ev q x)
                    | _ => fun _ => None
                    end x
  end.
Definition lib_events (tr : list cli_event) : list event := omap lib_event tr.

(** What was printed, and the calls of the key manager. *)
Definition logged_text (e : cli_event) : option (option jsstring) :=
  match e with
  | @CliEv X c _ => match c with ConsoleLog arg => Some arg | _ => None end
  end.
Definition error_text (e : cli_event) : option jsstring :=
  match e with
  | @CliEv X c _ => match c with ConsoleError arg => Some arg | _ => None end
  end.
Definition key_saved (e : cli_event) : option (jsstring * completion unit) :=
  match e with
  | @CliEv X c x => match c in cli_call X return X -> option (jsstring * completion unit) with
                    | SavePrivateKey id => fun r => Some (id, r)
                    | _ => fun _ => None
                    end x
  end.
Definition key_checked (e : cli_event) : option (jsstring * completion Value) :=
  match e with
  | @CliEv X c x => match c in cli_call X return X -> option (jsstring * completion Value) with
                    | HasPrivateKey id => fun r => Some (id, r)
                    | _ => fun _ => None
                    end x
  end.
Definition credentials_read (e : cli_event) : option (completion Value) :=
  match e with
  | @CliEv X c x => match c in cli_call X return X -> option (completion Value) with
                    | SdkGetCredentials => fun r => Some r
                    | _ => fun _ => None
                    end x
  end.
Definition console_log (tr : list cli_event) : list (option jsstring) := omap logged_text tr.
Definition console_error (tr : list cli_event) : list jsstring := omap error_text tr.
Definition keys_saved (tr : list cli_event) : list (jsstring * completion unit) :=
  omap key_saved tr.
Definition keys_checked (tr : list cli_event) : list (jsstring * completion Value) :=
  omap key_checked tr.
Definition credentials_reads (tr : list cli_event) : list (completion Value) :=
  omap credentials_read tr.

(** The calls on the [KeyManager] of the esign module: its construction and
    its three methods. *)
Definition is_key_call {X : Type} (c : cli_call X) : bool :=
  match c with
  | NewKeyManager _ _ | GenerateKeyPair | SavePrivateKey _ | HasPrivateKey _ => true
  | _ => false
  end.
Definition key_event (e : cli_event) : bool :=
  match e with
  | @CliEv X c _ => is_key_call c
  end.
Definition key_calls (tr : list cli_event) : list cli_event := List.filter key_event tr.

Definition key_generated (e : cli_event) : option (completion Value) :=
  match e with
  | @CliEv X c x => match c in cli_call X return X -> option (completion Value) with
                    | GenerateKeyPair => fun r => Some r
                    | _ => fun _ => None
                    end x
  end.
Definition keys_generated (tr : list cli_event) : list (completion Value) :=
  omap key_generated tr.

(** An event that only reads the arguments or the environment of the
    process. *)
Definition reads_input (e : cli_event) : bool :=
  match e with
  | @CliEv X c _ => match c with
                    | Argv _ => true
                    | Lib q => match q with EnvVar _ => true | _ => false end
                    | _ => false
                    end
  end.

(** What [generateAndStoreKeyPairWithEsign] returns. *)
Record Generated : Type := {
  publicKey : Value;
  hasPrivateKey : Value;
  gen_keystoreService : jsstring
}.

(** [generateAndStoreKeyPairWithEsign({ keySize, localId, sdkConfig })]. *)
Definition generateAndStoreKeyPairWithEsign (keySize : Value) (localId : jsval)
    (sdkConfig : SdkConfig) : Script Generated :=
  if negb (truthy localId) then Throw (JsError (lit "localId 不能为空"))
  else
    run_function resolveEsignModule;;
    try_call (NewKeyManager sdkConfig keySize);;
    publicKey ← try_call GenerateKeyPair;
    try_call (SavePrivateKey (ToString localId));;
    hasPrivateKey ← try_call (HasPrivateKey (ToString localId));
    if negb (ToBoolean hasPrivateKey) then
      Throw (JsError (lit "私钥保存失败（keystore account: " ++ ToString localId ++ lit "）"))
    else
      Done {| publicKey := publicKey;
              hasPrivateKey := hasPrivateKey;
              gen_keystoreService :=
                ToString (js_or (keystoreService sdkConfig)
                                (VStr (lit "esign-agent-trust"))) |}.

(** [bindIdentityToTrustbook()] on the client [c]. *)
Definition bindIdentityToTrustbook (c : Client) : Script (Value * Client) :=
  self ← (if negb (loaded c) then run_method loadIdentity c else Done (tt, c));
  credentials ← try_call SdkGetCredentials;
  certificate ← settle (get_property credentials "certificate");
  publicKey ← settle (get_property credentials "publicKey");
  run_method
    (request (lit "PUT") (lit "/api/v1/agents/me/identity")
       (Some (object_literal [("certificate_pem", certificate);
                              ("public_key_pem", publicKey)])))
    self.2.

(** What [runCli] reads before it looks at the command. *)
Record CliInputs : Type := {
  cmd : jsstring;
  in_baseUrl : jsval;
  in_apiKey : jsval;
  in_agentId : jsval;
  in_agentName : jsval;
  in_sdkConfig : SdkConfig
}.

Definition runCli_inputs : Script CliInputs :=
  argv2 ← ask (Argv 2);
  baseUrl ← ask (Lib (EnvVar "MB_BASE_URL"));
  apiKey ← ask (Lib (EnvVar "MB_API_KEY"));
  agentId ← ask (Lib (EnvVar "ESIGN_AGENT_ID"));
  agentName ← ask (Lib (EnvVar "MB_AGENT_NAME"));
  keystore ← ask (Lib (EnvVar "ESIGN_KEYSTORE_SERVICE"));
  certStore ← ask (Lib (EnvVar "ESIGN_CERT_STORE_PATH"));
  Done {| cmd := ToString (js_or argv2 (VStr []));
          in_baseUrl := baseUrl; in_apiKey := apiKey;
          in_agentId := agentId; in_agentName := agentName;
          in_sdkConfig := {| keystoreService := js_or keystore VUndefined;
                             certStorePath := js_or certStore VUndefined |} |}.

Definition usage : jsstring :=
  lit "用法:" ++ [LF]
  ++ lit "  [ESIGN_AGENT_TRUST_PATH=...] node scripts/esign_trustbook_adapter.js gen-keys <localId>" ++ [LF]
  ++ lit "  MB_BASE_URL=... MB_API_KEY=... [ESIGN_AGENT_TRUST_PATH=...] node scripts/esign_trustbook_adapter.js gen-bind-public <localId>" ++ [LF]
  ++ lit "  MB_BASE_URL=... node scripts/esign_trustbook_adapter.js register <agentName>" ++ [LF]
  ++ lit "  [ESIGN_AGENT_TRUST_PATH=...] node scripts/esign_trustbook_adapter.js agents" ++ [LF]
  ++ lit "  MB_BASE_URL=... ESIGN_AGENT_ID=... [ESIGN_AGENT_TRUST_PATH=...] node scripts/esign_trustbook_adapter.js bootstrap <agentName>" ++ [LF]
  ++ lit "  MB_BASE_URL=... MB_API_KEY=... ESIGN_AGENT_ID=... MB_AGENT_NAME=... node scripts/esign_trustbook_adapter.js bind-identity" ++ [LF]
  ++ lit "  MB_BASE_URL=... MB_API_KEY=... ESIGN_AGENT_ID=... MB_AGENT_NAME=... node scripts/esign_trustbook_adapter.js post <projectId> <title> <content>" ++ [LF]
  ++ lit "  MB_BASE_URL=... MB_API_KEY=... ESIGN_AGENT_ID=... MB_AGENT_NAME=... node scripts/esign_trustbook_adapter.js comment <postId> <content>" ++ [LF] ++ [LF]
  ++ lit "可选:" ++ [LF]
  ++ lit "  ESIGN_AGENT_TRUST_PATH=/Users/.../esignAgentTrust" ++ [LF]
  ++ lit "  ESIGN_KEYSTORE_SERVICE=esign-agent-trust" ++ [LF]
  ++ lit "  ESIGN_CERT_STORE_PATH=~/.esign-agent".

(** [console.log(JSON.stringify(v, null, 2))]. *)
Definition print (v : Value) : Script unit :=
  text ← settle (JSON_stringify_indented v);
  ask (ConsoleLog text).

(** [v || null]. *)
Definition or_null (v : Value) : Value := if ToBoolean v then v else null_value.

(** [Number(process.env.ESIGN_KEY_SIZE || "2048")]. *)
Definition read_keySize : Script Value :=
  size ← ask (Lib (EnvVar "ESIGN_KEY_SIZE"));
  Done (Number_ (ToString (js_or size (VStr (lit "2048"))))).

Definition register_request (baseUrl agentName : jsval) : RawApiRequest :=
  {| raw_baseUrl := baseUrl;
     raw_method := lit "POST";
     raw_apiPath := lit "/api/v1/agents";
     raw_bodyObject := Some (object_literal [("name", string_value (ToString agentName))]);
     raw_headers := None |}.

Definition cli_gen_keys (i : CliInputs) : Script unit :=
  localId ← ask (Argv 3);
  if negb (truthy localId) then Throw (JsError (lit "gen-keys 需要参数: <localId>"))
  else
    keySize ← read_keySize;
    generated ← generateAndStoreKeyPairWithEsign keySize localId (in_sdkConfig i);
    print (object_literal
             [("local_id", string_value (ToString localId));
              ("keystore_service", string_value (gen_keystoreService generated));
              ("has_private_key", hasPrivateKey generated);
              ("public_key_pem", publicKey generated)]).

Definition cli_gen_bind_public (i : CliInputs) : Script unit :=
  localId ← ask (Argv 3);
  if negb (truthy localId) || negb (truthy (in_baseUrl i)) || negb (truthy (in_apiKey i))
  then Throw (JsError (lit "gen-bind-public 需要 MB_BASE_URL、MB_API_KEY 和 <localId>"))
  else
    keySize ← read_keySize;
    generated ← generateAndStoreKeyPairWithEsign keySize localId (in_sdkConfig i);
    bound ← run_function (rawApiRequest
               {| raw_baseUrl := in_baseUrl i;
                  raw_method := lit "PUT";
                  raw_apiPath := lit "/api/v1/agents/me/identity";
                  raw_bodyObject :=
                    Some (object_literal [("public_key_pem", publicKey generated)]);
                  raw_headers :=
                    Some {[ "Authorization" := lit "Bearer " ++ ToString (in_apiKey i) ]} |});
    identity ← settle (get_property bound "identity");
    print (object_literal
             [("local_id", string_value (ToString localId));
              ("keystore_service", string_value (gen_keystoreService generated));
              ("has_private_key", hasPrivateKey generated);
              ("identity", or_null identity)]).

Definition cli_agents (i : CliInputs) : Script unit :=
  run_function resolveEsignModule;;
  try_call (Lib (NewEsignAgentTrust (in_sdkConfig i)));;
  ids ← try_call SdkListAgents;
  print (object_literal [("agent_ids", ids)]).

Definition cli_register (i : CliInputs) : Script unit :=
  agentName ← ask (Argv 3);
  if negb (truthy (in_baseUrl i)) || negb (truthy agentName)
  then Throw (JsError (lit "register 需要 MB_BASE_URL 和 <agentName>"))
  else
    result ← run_function (rawApiRequest (register_request (in_baseUrl i) agentName));
    print result.

(** In [bootstrap] the API key of the new client is a value of the
    registration response. It is truthy there, and the client uses it in a
    template literal only, so it is passed on as its text; a truthy value
    with an empty text (as the array [[]]) is outside the model, whose
    options are strings. *)
Definition cli_bootstrap (i : CliInputs) : Script unit :=
  agentName ← ask (Argv 3);
  if negb (truthy (in_baseUrl i)) || negb (truthy agentName) || negb (truthy (in_agentId i))
  then Throw (JsError (lit "bootstrap 需要 MB_BASE_URL、ESIGN_AGENT_ID 和 <agentName>"))
  else
    registered ← run_function (rawApiRequest (register_request (in_baseUrl i) agentName));
    if negb (ToBoolean registered) then Throw (JsError (lit "注册成功但未拿到 api_key"))
    else
      api_key ← settle (get_property registered "api_key");
      if negb (ToBoolean api_key) then Throw (JsError (lit "注册成功但未拿到 api_key"))
      else
        match template_text api_key with
        | [] => Outside
        | key =>
            bootstrapClient ← run_method
              (constructor {| opt_baseUrl := in_baseUrl i;
                              opt_apiKey := VStr key;
                              opt_agentId := in_agentId i;
                              opt_agentName := agentName;
                              opt_signatureAlg := None;
                              opt_sdkConfig := Some (in_sdkConfig i) |}) blank;
            bound ← bindIdentityToTrustbook bootstrapClient.2;
            id ← settle (get_property registered "id");
            name ← settle (get_property registered "name");
            api_key ← settle (get_property registered "api_key");
            identity ← settle (get_property bound.1 "identity");
            print (object_literal
                     [("register", object_literal
                                     [("id", id); ("name", name); ("api_key", api_key)]);
                      ("identity", or_null identity)])
        end.

Definition cli_post (client : Client) : Script unit :=
  projectId ← ask (Argv 3);
  title ← ask (Argv 4);
  content ← ask (Argv 5);
  if negb (truthy projectId) || negb (truthy title) || negb (truthy content)
  then Throw (JsError (lit "post 需要参数: <projectId> <title> <content>"))
  else
    result ← run_method
      (createPost projectId
         {| post_title := string_value (ToString title);
            post_content := string_value (ToString content);
            post_type := None; post_tags := None |}) client;
    print result.1.

Definition cli_comment (client : Client) : Script unit :=
  postId ← ask (Argv 3);
  content ← ask (Argv 4);
  if negb (truthy postId) || negb (truthy content)
  then Throw (JsError (lit "comment 需要参数: <postId> <content>"))
  else
    result ← run_method
      (createComment postId (string_value (ToString content)) undefined_value) client;
    print result.1.

(** The commands that sign: they need the four variables and a client. *)
Definition cli_signed (i : CliInputs) : Script unit :=
  if negb (truthy (in_baseUrl i)) || negb (truthy (in_apiKey i))
     || negb (truthy (in_agentId i)) || negb (truthy (in_agentName i))
  then Throw (JsError (lit "缺少环境变量：MB_BASE_URL / MB_API_KEY / ESIGN_AGENT_ID / MB_AGENT_NAME"))
  else
    client ← run_method
      (constructor {| opt_baseUrl := in_baseUrl i;
                      opt_apiKey := in_apiKey i;
                      opt_agentId := in_agentId i;
                      opt_agentName := in_agentName i;
                      opt_signatureAlg := None;
                      opt_sdkConfig := Some (in_sdkConfig i) |}) blank;
    if bool_decide (cmd i = lit "bind-identity") then
      result ← bindIdentityToTrustbook client.2;
      print result.1
    else if bool_decide (cmd i = lit "post") then cli_post client.2
    else if bool_decide (cmd i = lit "comment") then cli_comment client.2
    else Throw (JsError (lit "未知命令: " ++ cmd i)).

(** The body of [runCli] after its first lines. *)
Definition runCli_command (i : CliInputs) : Script unit :=
  if bool_decide (cmd i = []) || bool_decide (cmd i = lit "help")
     || bool_decide (cmd i = lit "--help") || bool_decide (cmd i = lit "-h")
  then ask (ConsoleLog (Some usage));; Exit 0
  else if bool_decide (cmd i = lit "gen-keys") then cli_gen_keys i
  else if bool_decide (cmd i = lit "gen-bind-public") then cli_gen_bind_public i
  else if bool_decide (cmd i = lit "agents") then cli_agents i
  else if bool_decide (cmd i = lit "register") then cli_register i
  else if bool_decide (cmd i = lit "bootstrap") then cli_bootstrap i
  else cli_signed i.

(** [runCli()]. *)
Definition runCli : Script unit :=
  i ← runCli_inputs; runCli_command i.

End Cli.

(** The commands that do not sign, with the four spellings of help. *)
Definition unsigned_commands : list jsstring :=
  [[]; lit "help"; lit "--help"; lit "-h"; lit "gen-keys"; lit "gen-bind-public";
   lit "agents"; lit "register"; lit "bootstrap"].

Arguments Done {host A} a.
Arguments Throw {host A} e.
Arguments Exit {host A} code.
Arguments Outside {host A}.
Arguments Do {host A X} c k.
Arguments CliEv {host X} c x.
Arguments ending_of {host W A} _.
Arguments world_of {host W A} _.
Arguments events {host W A} _.

(** A script that never ends the process and never writes to the error
    stream. *)
Definition is_console_error {host : Host} {X : Type} (c : cli_call X) : bool :=
  match c with
  | ConsoleError _ => true
  | _ => false
  end.

Inductive quiet {host : Host} {A : Type} : Script A -> Prop :=
| quiet_done (a : A) : quiet (Done a)
| quiet_throw (e : exn) : quiet (Throw e)
| quiet_outside : quiet Outside
| quiet_do {X : Type} (c : cli_call X) (k : X -> Script A) :
    is_console_error c = false -> (forall x, quiet (k x)) -> quiet (Do c k).

(* ===================================================================== *)
(** * 8e. A host whose values are JSON trees, to run the command line *)
(* ===================================================================== *)

(** The values of this host. Its strings need no escape when written as
    JSON. *)
#[local] Unset Elimination Schemes.
Inductive json : Type :=
| JUndefined
| JNull
| JBool (b : bool)
| JNumber (n : Z)
| JString (s : jsstring)
| JArray (items : list json)
| JObject (fields : list (string * json)).
#[local] Set Elimination Schemes.

Fixpoint intercalate (sep : jsstring) (parts : list jsstring) : jsstring :=
  match parts with
  | [] => []
  | [p] => p
  | p :: rest => p ++ sep ++ intercalate sep rest
  end.

(** [JSON.stringify(v)]: an [undefined] is left out of an object and written
    as null in an array. *)
Fixpoint json_text (v : json) : option jsstring :=
  match v with
  | JUndefined => None
  | JNull => Some (lit "null")
  | JBool b => Some (if b then lit "true" else lit "false")
  | JNumber n => Some (Number_toString n)
  | JString s => Some (quoted s)
  | JArray items =>
      Some (lit "[" ++ intercalate (lit ",")
                         (List.map (fun x => default (lit "null") (json_text x)) items)
            ++ lit "]")
  | JObject fields =>
      Some (lit "{" ++ intercalate (lit ",")
                         (flat_map (fun kv => match json_text kv.2 with
                                              | Some t => [quoted (lit kv.1) ++ lit ":" ++ t]
                                              | None => []
                                              end) fields)
            ++ lit "}")
  end.

(** [JSON.stringify(v, null, 2)] at a depth of nesting. *)
Fixpoint json_indented (depth : nat) (v : json) : option jsstring :=
  let pad := fun d : nat => concat (repeat (lit "  ") d) in
  match v with
  | JArray [] => Some (lit "[]")
  | JArray items =>
      Some (lit "[" ++ [LF]
            ++ intercalate (lit "," ++ [LF])
                 (List.map (fun x => pad (S depth)
                                     ++ default (lit "null") (json_indented (S depth) x))
                           items)
            ++ [LF] ++ pad depth ++ lit "]")
  | JObject fields =>
      match flat_map (fun kv => match json_indented (S depth) kv.2 with
                                | Some t => [pad (S depth) ++ quoted (lit kv.1) ++ lit ": " ++ t]
                                | None => []
                                end) fields with
      | [] => Some (lit "{}")
      | lines => Some (lit "{" ++ [LF] ++ intercalate (lit "," ++ [LF]) lines
                       ++ [LF] ++ pad depth ++ lit "}")
      end
  | _ => json_text v
  end.

Definition json_truthy (v : json) : bool :=
  match v with
  | JUndefined | JNull | JBool false | JNumber 0 | JString [] => false
  | _ => true
  end.

Fixpoint field (name : string) (fields : list (string * json)) : json :=
  match fields with
  | [] => JUndefined
  | (k, v) :: rest => if String.eqb k name then v else field name rest
  end.

Definition json_get (v : json) (name : string) : completion json :=
  match v with
  | JUndefined => Abrupt (JsTypeError "Cannot read properties of undefined")
  | JNull => Abrupt (JsTypeError "Cannot read properties of null")
  | JObject fields => Normal (field name fields)
  | _ => Normal JUndefined
  end.

(** [String(v)]; the elements of an array are not looked into here. *)
Definition json_template (v : json) : jsstring :=
  match v with
  | JUndefined => lit "undefined"
  | JNull => lit "null"
  | JBool b => if b then lit "true" else lit "false"
  | JNumber n => Number_toString n
  | JString s => s
  | JArray [] => []
  | JArray _ => lit ","
  | JObject _ => lit "[object Object]"
  end.

(** [Number(s)] on a string of digits; another text gives null, as which
    JSON writes NaN. *)
Definition json_number (s : jsstring) : json :=
  if forallb (fun u => (48 <=? u) && (u <=? 57)) s && negb (bool_decide (s = []))
  then JNumber (fold_left (fun acc u => acc * 10 + (u - 48)) s 0)
  else JNull.

(** The documents the servers of the scenarios answer with. *)
Definition registration_document : json :=
  JObject [("id", JString (lit "a1")); ("name", JString (lit "MyAgent"));
           ("api_key", JString (lit "mb_key"))].
Definition identity_document : json :=
  JObject [("identity", JObject [("status", JString (lit "bound"))])].
Definition known_documents : list json :=
  [JNull; registration_document; identity_document].

(** [JSON.parse] of this host knows the documents of the scenarios. *)
Definition json_parse (t : jsstring) : completion json :=
  match List.find (fun v => bool_decide (json_text v = Some t)) known_documents with
  | Some v => Normal v
  | None => Abrupt (Foreign (lit "Unexpected token"))
  end.

Definition tree_host : Host :=
  {| toUpperCase := List.map ascii_upper;
     Value := json;
     null_value := JNull;
     JSON_stringify := fun v => Normal (json_text v);
     JSON_parse := json_parse;
     detail_text := fun v =>
       match v with
       | JObject fields =>
           if json_truthy (field "detail" fields)
           then Some (json_template (field "detail" fields)) else None
       | _ => None
       end |}.

Definition tree_literals : Literals (host := tree_host) :=
  @Build_Literals tree_host JString JArray JObject json_truthy.

Definition tree_runtime : Runtime (host := tree_host) (literals := tree_literals) :=
  @Build_Runtime tree_host tree_literals
    JUndefined json_get json_template json_number
    (fun v => Normal (json_indented 0 v)) eq_refl.

(** A world for the command line: the arguments and the variables of the
    process are given, [fetch] answers with the next response of a list, the
    SDK and the key manager do what they are asked. *)
Definition ok_response (v : json) : completion Response :=
  Normal {| ok := true; status := 200; text := Normal (default [] (json_text v)) |}.

Definition scripted_world (args : list jsval) (env : list (string * jsstring))
  : CliOracle (host := tree_host) (list (completion Response)) :=
  fun X c =>
    match c in cli_call X return list (completion Response) -> X * list (completion Response) with
    | Lib q =>
        match q in call X
              return list (completion Response) -> X * list (completion Response) with
        | EnvVar name => fun w =>
            (match List.find (fun kv => String.eqb kv.1 name) env with
             | Some kv => VStr kv.2
             | None => VUndefined
             end, w)
        | LoadEsignModule _ => fun w => (Normal tt, w)
        | NewEsignAgentTrust _ => fun w => (Normal tt, w)
        | SdkLoad _ => fun w => (Normal true, w)
        | SdkSign msg => fun w => (custody_signs msg, w)
        | DateNow => fun w => (1700000000123, w)
        | RandomUUID => fun w => (lit "3b241101-e2bb-4255-8caf-4136c566a962", w)
        | Fetch _ => fun w =>
            match w with
            | answer :: rest => (answer, rest)
            | [] => (ok_response JNull, [])
            end
        end
    | Argv i => fun w => (nth i args VUndefined, w)
    | ConsoleLog _ => fun w => (tt, w)
    | ConsoleError _ => fun w => (tt, w)
    | NewKeyManager _ _ => fun w => (Normal tt, w)
    | GenerateKeyPair => fun w => (Normal (JString (lit "PUBLIC KEY")), w)
    | SavePrivateKey _ => fun w => (Normal tt, w)
    | HasPrivateKey _ => fun w => (Normal (JBool true), w)
    | SdkGetCredentials => fun w =>
        (Normal (JObject [("certificate", JString (lit "CERTIFICATE"));
                          ("publicKey", JString (lit "PUBLIC KEY"))]), w)
    | SdkListAgents => fun w => (Normal (JArray [JString (lit "agent_local_001")]), w)
    end.

(** The scenarios: the arguments after [node adapter.js], and the variables. *)
Definition argv_of (words : list string) : list jsval :=
  [VStr (lit "node"); VStr (lit "adapter.js")] ++ List.map (fun s => VStr (lit s)) words.

Definition demo_env : list (string * jsstring) :=
  [("MB_BASE_URL", lit "http://localhost:3456/"); ("MB_API_KEY", lit "mb_key");
   ("ESIGN_AGENT_ID", lit "agent_local_001"); ("MB_AGENT_NAME", lit "MyAgent")].

Definition demo_inputs (command : string) : CliInputs :=
  {| cmd := lit command;
     in_baseUrl := VStr (lit "http://localhost:3456/");
     in_apiKey := VStr (lit "mb_key");
     in_agentId := VStr (lit "agent_local_001");
     in_agentName := VStr (lit "MyAgent");
     in_sdkConfig := empty_sdkConfig |}.

(** One run of a command with one more word, against a server that answers
    with the given documents. *)
Definition command_run (command word : string) (answers : list json)
  : CliRun (host := tree_host) (list (completion Response)) unit :=
  run (host := tree_host)
    (scripted_world (argv_of [command; word]) demo_env)
    (runCli_command (host := tree_host) (literals := tree_literals) (runtime := tree_runtime)
       (demo_inputs command))
    (List.map ok_response answers).

Arguments lit : simpl never.
Arguments request_headers : simpl never.
Arguments Number_toString : simpl never.

(* ===================================================================== *)
(** * 9. Facts about the UTF-8 encoding *)
(* ===================================================================== *)

Section Utf8.

(** Induction two units at a time, as the encoder consumes a string. *)
Lemma units_ind2 (P : jsstring -> Prop) :
  P [] ->
  (forall u, P [u]) ->
  (forall u v s, P s -> P (v :: s) -> P (u :: v :: s)) ->
  forall s, P s.
Proof.
  intros Hnil Hone Hstep s.
  assert (P s /\ forall u, P (u :: s)) as [Hs _].
  { induction s as [|v s [IH1 IH2]]; split; auto. }
  exact Hs.
Qed.

Lemma Buffer_from_utf8_code_points s :
  Buffer_from_utf8 s = flat_map utf8_of_code_point (code_points s).
Proof.
  induction s as [|u|u v s IH1 IH2] using units_ind2.
  - reflexivity.
  - simpl. destruct (is_high_surrogate u); [reflexivity|].
    destruct (is_low_surrogate u); simpl; rewrite ?app_nil_r; reflexivity.
  - change (Buffer_from_utf8 (u :: v :: s)) with
      (if is_high_surrogate u then
         if is_low_surrogate v
         then utf8_of_code_point (pair_code_point u v) ++ Buffer_from_utf8 s
         else replacement_utf8 ++ Buffer_from_utf8 (v :: s)
       else if is_low_surrogate u then replacement_utf8 ++ Buffer_from_utf8 (v :: s)
       else utf8_of_code_point u ++ Buffer_from_utf8 (v :: s)).
    change (code_points (u :: v :: s)) with
      (if is_high_surrogate u then
         if is_low_surrogate v
         then pair_code_point u v :: code_points s
         else 0xFFFD :: code_points (v :: s)
       else if is_low_surrogate u then 0xFFFD :: code_points (v :: s)
       else u :: code_points (v :: s)).
    rewrite IH1, IH2.
    destruct (is_high_surrogate u), (is_low_surrogate v), (is_low_surrogate u);
      reflexivity.
Qed.

Lemma code_points_app_LF a b :
  code_points (a ++ LF :: b) = code_points a ++ LF :: code_points b.
Proof.
  induction a as [|u|u v s IH1 IH2] using units_ind2.
  - reflexivity.
  - simpl. destruct (is_high_surrogate u); [reflexivity|].
    destruct (is_low_surrogate u); reflexivity.
  - change (code_points ((u :: v :: s) ++ LF :: b)) with
      (if is_high_surrogate u then
         if is_low_surrogate v
         then pair_code_point u v :: code_points (s ++ LF :: b)
         else 0xFFFD :: code_points ((v :: s) ++ LF :: b)
       else if is_low_surrogate u then 0xFFFD :: code_points ((v :: s) ++ LF :: b)
       else u :: code_points ((v :: s) ++ LF :: b)).
    change (code_points (u :: v :: s)) with
      (if is_high_surrogate u then
         if is_low_surrogate v
         then pair_code_point u v :: code_points s
         else 0xFFFD :: code_points (v :: s)
       else if is_low_surrogate u then 0xFFFD :: code_points (v :: s)
       else u :: code_points (v :: s)).
    rewrite IH1, IH2.
    destruct (is_high_surrogate u), (is_low_surrogate v), (is_low_surrogate u);
      reflexivity.
Qed.

(** The encoding of a text cut at a line feed is the encodings of its two
    parts around the octet 10. *)
Lemma Buffer_from_utf8_app_LF a b :
  Buffer_from_utf8 (a ++ LF :: b) = Buffer_from_utf8 a ++ LF :: Buffer_from_utf8 b.
Proof.
  rewrite !Buffer_from_utf8_code_points, code_points_app_LF.
  rewrite flat_map_app. reflexivity.
Qed.

Lemma utf8_of_code_point_nonempty c : utf8_of_code_point c <> [].
Proof.
  unfold utf8_of_code_point.
  repeat match goal with |- context [if ?b then _ else _] => destruct b end;
    discriminate.
Qed.

(** A non-empty string has a non-empty encoding. *)
Lemma Buffer_from_utf8_nonempty s : s <> [] -> Buffer_from_utf8 s <> [].
Proof.
  destruct s as [|u s]; [congruence|]. intros _ E.
  rewrite Buffer_from_utf8_code_points in E.
  assert (Hc : exists c cs, code_points (u :: s) = c :: cs).
  { simpl. destruct (is_high_surrogate u); [destruct s as [|v s]|];
      repeat match goal with |- context [if ?b then _ else _] => destruct b end;
      eauto. }
  destruct Hc as (c & cs & Hc). rewrite Hc in E. simpl in E.
  apply app_eq_nil in E as [E _]. exact (utf8_of_code_point_nonempty c E).
Qed.

Lemma Buffer_from_utf8_line a b :
  Buffer_from_utf8 (a ++ [LF] ++ b) = Buffer_from_utf8 a ++ [LF] ++ Buffer_from_utf8 b.
Proof. exact (Buffer_from_utf8_app_LF a b). Qed.

Lemma Buffer_from_utf8_last_line a :
  Buffer_from_utf8 (a ++ [LF]) = Buffer_from_utf8 a ++ [LF].
Proof. exact (Buffer_from_utf8_app_LF a []). Qed.

End Utf8.

Section Utf8Injective.

(** No encoding is a prefix of another: the first octet tells the length. *)
Lemma utf8_of_code_point_prefix_free c1 c2 r1 r2 :
  scalar c1 -> scalar c2 ->
  utf8_of_code_point c1 ++ r1 = utf8_of_code_point c2 ++ r2 ->
  c1 = c2 /\ r1 = r2.
Proof.
  unfold scalar, utf8_of_code_point. intros H1 H2.
  destruct (Z.ltb_spec c1 0x80); [|destruct (Z.ltb_spec c1 0x800);
    [|destruct (Z.ltb_spec c1 0x10000)]];
  (destruct (Z.ltb_spec c2 0x80); [|destruct (Z.ltb_spec c2 0x800);
    [|destruct (Z.ltb_spec c2 0x10000)]]);
  simpl; intros E; injection E; clear E; intros;
  first [ exfalso; Z.div_mod_to_equations; lia
        | split; [Z.div_mod_to_equations; lia | congruence] ].
Qed.

Lemma flat_map_utf8_injective l1 : forall l2,
  Forall scalar l1 -> Forall scalar l2 ->
  flat_map utf8_of_code_point l1 = flat_map utf8_of_code_point l2 -> l1 = l2.
Proof.
  induction l1 as [|c1 l1 IH]; intros [|c2 l2] F1 F2 E.
  - reflexivity.
  - exfalso. simpl in E. unfold utf8_of_code_point in E.
    repeat match type of E with context [if ?b then _ else _] => destruct b end;
      discriminate.
  - exfalso. simpl in E. unfold utf8_of_code_point in E.
    repeat match type of E with context [if ?b then _ else _] => destruct b end;
      discriminate.
  - inversion F1; inversion F2; subst. simpl in E.
    apply utf8_of_code_point_prefix_free in E as [-> E]; auto.
    f_equal. apply IH; auto.
Qed.

Lemma surrogate_pair_scalar u v :
  is_high_surrogate u = true -> is_low_surrogate v = true ->
  0x10000 <= pair_code_point u v < 0x110000.
Proof. unfold is_high_surrogate, is_low_surrogate, pair_code_point. lia. Qed.

Lemma well_formed_scalars s : well_formed s -> Forall scalar (code_points s).
Proof.
  induction s as [|u|u v s IH1 IH2] using units_ind2; intros W.
  - constructor.
  - simpl in *. destruct W as [R W].
    destruct (is_high_surrogate u); [contradiction|].
    destruct W as [-> _]. repeat constructor; unfold scalar; lia.
  - destruct W as [R W].
    change (code_points (u :: v :: s)) with
      (if is_high_surrogate u then
         if is_low_surrogate v
         then pair_code_point u v :: code_points s
         else 0xFFFD :: code_points (v :: s)
       else if is_low_surrogate u then 0xFFFD :: code_points (v :: s)
       else u :: code_points (v :: s)).
    destruct (is_high_surrogate u) eqn:Hu.
    + destruct W as [Hv W]. rewrite Hv. constructor; [|auto].
      pose proof (surrogate_pair_scalar u v Hu Hv). unfold scalar. lia.
    + destruct W as [-> W]. constructor; [unfold scalar; lia | auto].
Qed.

(** On a well-formed string the code points determine the code units. *)
Lemma well_formed_units s :
  well_formed s -> flat_map utf16_of_code_point (code_points s) = s.
Proof.
  induction s as [|u|u v s IH1 IH2] using units_ind2; intros W.
  - reflexivity.
  - simpl in *. destruct W as [R W].
    destruct (is_high_surrogate u); [contradiction|].
    destruct W as [-> _]. simpl. unfold utf16_of_code_point.
    destruct (Z.ltb_spec u 0x10000); [reflexivity | lia].
  - destruct W as [R W].
    change (code_points (u :: v :: s)) with
      (if is_high_surrogate u then
         if is_low_surrogate v
         then pair_code_point u v :: code_points s
         else 0xFFFD :: code_points (v :: s)
       else if is_low_surrogate u then 0xFFFD :: code_points (v :: s)
       else u :: code_points (v :: s)).
    destruct (is_high_surrogate u) eqn:Hu.
    + destruct W as [Hv W]. rewrite Hv. cbn [flat_map]. rewrite (IH1 W).
      pose proof (surrogate_pair_scalar u v Hu Hv) as Hp.
      unfold utf16_of_code_point.
      destruct (Z.ltb_spec (pair_code_point u v) 0x10000); [lia|].
      unfold is_high_surrogate, is_low_surrogate, pair_code_point in *.
      simpl. f_equal; [|f_equal]; Z.div_mod_to_equations; lia.
    + destruct W as [-> W]. cbn [flat_map]. rewrite (IH2 W).
      unfold utf16_of_code_point.
      destruct (Z.ltb_spec u 0x10000); [reflexivity | lia].
Qed.

(** Two well-formed strings with the same UTF-8 encoding are equal. *)
Lemma Buffer_from_utf8_injective s1 s2 :
  well_formed s1 -> well_formed s2 ->
  Buffer_from_utf8 s1 = Buffer_from_utf8 s2 -> s1 = s2.
Proof.
  intros W1 W2 E. rewrite !Buffer_from_utf8_code_points in E.
  apply flat_map_utf8_injective in E; auto using well_formed_scalars.
  rewrite <- (well_formed_units s1 W1), <- (well_formed_units s2 W2).
  now rewrite E.
Qed.

Lemma LF_in_utf8_of_code_point c : LF ∈ utf8_of_code_point c -> c = LF.
Proof.
  unfold utf8_of_code_point, LF.
  destruct (Z.ltb_spec c 0x80); [|destruct (Z.ltb_spec c 0x800);
    [|destruct (Z.ltb_spec c 0x10000)]];
  rewrite ?elem_of_cons, elem_of_nil; intros; Z.div_mod_to_equations; lia.
Qed.

Lemma LF_in_code_points s : LF ∈ code_points s -> LF ∈ s.
Proof.
  induction s as [|u|u v s IH1 IH2] using units_ind2.
  - simpl. auto.
  - simpl. destruct (is_high_surrogate u); [|destruct (is_low_surrogate u)];
      rewrite !elem_of_cons, elem_of_nil; unfold LF; intros; lia.
  - change (code_points (u :: v :: s)) with
      (if is_high_surrogate u then
         if is_low_surrogate v
         then pair_code_point u v :: code_points s
         else 0xFFFD :: code_points (v :: s)
       else if is_low_surrogate u then 0xFFFD :: code_points (v :: s)
       else u :: code_points (v :: s)).
    destruct (is_high_surrogate u) eqn:Hu.
    + destruct (is_low_surrogate v) eqn:Hv.
      * pose proof (surrogate_pair_scalar u v Hu Hv).
        intros Hin. apply elem_of_cons in Hin as [?|?]; [unfold LF in *; lia|].
        do 2 right. auto.
      * intros Hin. apply elem_of_cons in Hin as [?|?]; [unfold LF in *; lia|].
        right. auto.
    + unfold is_high_surrogate in Hu.
      destruct (is_low_surrogate u) eqn:Hl.
      * intros Hin. apply elem_of_cons in Hin as [?|?]; [unfold LF in *; lia|].
        right. auto.
      * intros Hin. apply elem_of_cons in Hin as [?|?]; [subst u; left|right; auto].
Qed.

(** A string without a line feed encodes to octets without the octet 10. *)
Lemma one_line_utf8 s : one_line s -> LF ∉ Buffer_from_utf8 s.
Proof.
  unfold one_line. intros Hs Hin. apply Hs. apply LF_in_code_points.
  rewrite Buffer_from_utf8_code_points in Hin.
  apply list_elem_of_In, in_flat_map in Hin as (c & Hc & Hin).
  apply list_elem_of_In in Hin. apply LF_in_utf8_of_code_point in Hin. subst c.
  now apply list_elem_of_In.
Qed.

(** Cutting at the first line feed. *)
Lemma cut_at_first_LF (x1 x2 r1 r2 : list Z) :
  LF ∉ x1 -> LF ∉ x2 -> x1 ++ LF :: r1 = x2 ++ LF :: r2 -> x1 = x2 /\ r1 = r2.
Proof.
  revert x2. induction x1 as [|a x1 IH]; intros [|b x2] N1 N2 E; simpl in E.
  - injection E; auto.
  - injection E as <- _. exfalso. apply N2. left.
  - injection E as -> _. exfalso. apply N1. left.
  - injection E as -> E. apply not_elem_of_cons in N1 as [_ N1].
    apply not_elem_of_cons in N2 as [_ N2].
    destruct (IH _ N1 N2 E) as [-> ->]. auto.
Qed.

End Utf8Injective.

(* ===================================================================== *)
(** * 10. The canonical message builder *)
(* ===================================================================== *)

Section Builder.
Context {host : Host}.

Lemma canonical_octets (a b c d e f : jsstring) :
  Buffer_from_utf8
    (lit "MB2" ++ [LF] ++ a ++ [LF] ++ b ++ [LF] ++ c ++ [LF] ++ d ++ [LF]
     ++ e ++ [LF] ++ f ++ [LF])
  = [77; 66; 50] ++ [LF] ++ Buffer_from_utf8 a ++ [LF] ++ Buffer_from_utf8 b ++ [LF]
    ++ Buffer_from_utf8 c ++ [LF] ++ Buffer_from_utf8 d ++ [LF]
    ++ Buffer_from_utf8 e ++ [LF] ++ Buffer_from_utf8 f ++ [LF].
Proof.
  rewrite !Buffer_from_utf8_line, Buffer_from_utf8_last_line. reflexivity.
Qed.

Lemma buildMb2Message_strings (t n a m p d : jsstring) :
  buildMb2Message
    {| ts := VStr t; nonce := VStr n; mb_agentName := VStr a; method := VStr m;
       pathOnly := VStr p; bodySha256 := VStr d |}
  = Normal ([77; 66; 50] ++ [LF] ++ Buffer_from_utf8 t ++ [LF]
            ++ Buffer_from_utf8 n ++ [LF] ++ Buffer_from_utf8 a ++ [LF]
            ++ Buffer_from_utf8 (toUpperCase m) ++ [LF]
            ++ Buffer_from_utf8 p ++ [LF] ++ Buffer_from_utf8 d ++ [LF]).
Proof. unfold buildMb2Message. cbn -[Buffer_from_utf8 app]. now rewrite canonical_octets. Qed.

(** C1. For every tuple of strings (ts, nonce, agent_name, method, path,
    body_sha256_b64), [buildMb2Message] returns the UTF-8 octets of
    "MB2\n" + ts + "\n" + nonce + "\n" + agent_name + "\n" + uppercase(method)
    + "\n" + path + "\n" + body_sha256_b64 + "\n": the octets of "MB2", then
    each field's own UTF-8 octets followed by the octet 10, the last 10 after
    the digest included; and equal inputs give equal octets. *)
Theorem buildMb2Message_canonical_form (t n a m p d : jsstring) :
  let input := {| ts := VStr t; nonce := VStr n; mb_agentName := VStr a;
                  method := VStr m; pathOnly := VStr p; bodySha256 := VStr d |} in
  buildMb2Message input
  = Normal (Buffer_from_utf8
      (lit "MB2" ++ [LF] ++ t ++ [LF] ++ n ++ [LF] ++ a ++ [LF]
       ++ toUpperCase m ++ [LF] ++ p ++ [LF] ++ d ++ [LF]))
  /\ buildMb2Message input
     = Normal ([77; 66; 50; 10] ++ Buffer_from_utf8 t ++ [10]
               ++ Buffer_from_utf8 n ++ [10] ++ Buffer_from_utf8 a ++ [10]
               ++ Buffer_from_utf8 (toUpperCase m) ++ [10]
               ++ Buffer_from_utf8 p ++ [10] ++ Buffer_from_utf8 d ++ [10])
  /\ forall input', input' = input -> buildMb2Message input' = buildMb2Message input.
Proof.
  intros input. split; [reflexivity|]. split.
  - unfold input. rewrite buildMb2Message_strings. reflexivity.
  - intros input' ->. reflexivity.
Qed.

(** C3, on one-line fields. On tuples of well-formed strings whose ts, nonce,
    agent_name, upper-cased method and path hold no line feed, the encoding
    is injective up to the letter case of the method: equal octets come only
    from equal ts, nonce, agent_name, path and digest and from methods with
    the same upper-casing. *)
Theorem buildMb2Message_injective_on_lines (t1 n1 a1 m1 p1 d1 t2 n2 a2 m2 p2 d2 : jsstring) :
  Forall one_line [t1; n1; a1; toUpperCase m1; p1; t2; n2; a2; toUpperCase m2; p2] ->
  Forall well_formed [t1; n1; a1; toUpperCase m1; p1; d1;
                      t2; n2; a2; toUpperCase m2; p2; d2] ->
  buildMb2Message
    {| ts := VStr t1; nonce := VStr n1; mb_agentName := VStr a1; method := VStr m1;
       pathOnly := VStr p1; bodySha256 := VStr d1 |}
  = buildMb2Message
    {| ts := VStr t2; nonce := VStr n2; mb_agentName := VStr a2; method := VStr m2;
       pathOnly := VStr p2; bodySha256 := VStr d2 |} ->
  t1 = t2 /\ n1 = n2 /\ a1 = a2 /\ toUpperCase m1 = toUpperCase m2 /\ p1 = p2 /\ d1 = d2.
Proof.
  intros L W E. rewrite !buildMb2Message_strings in E.
  injection E as E.
  repeat match goal with
  | F : Forall _ (_ :: _) |- _ => apply Forall_cons in F as [? F]
  end.
  repeat match type of E with
  | ?x ++ LF :: _ ++ _ = ?y ++ LF :: _ ++ _ =>
      let E1 := fresh "E" in
      apply cut_at_first_LF in E as [E1 E];
      [apply Buffer_from_utf8_injective in E1; [|assumption..]
      | auto using one_line_utf8 ..]
  end.
  apply app_inv_tail, Buffer_from_utf8_injective in E; [|assumption..].
  repeat split; assumption.
Qed.

(** C4, what makes the builder fail. The builder validates nothing and knows no
    MalformedSigningInput: it fails exactly when [method] is absent
    (undefined or null), with a TypeError, and returns a message for every
    other input, empty strings included. *)
Theorem buildMb2Message_fails_only_without_method (i : Mb2Input) :
  ((exists e, buildMb2Message i = Abrupt e) <-> method i = VUndefined \/ method i = VNull)
  /\ (forall e, buildMb2Message i = Abrupt e -> exists m, e = JsTypeError m)
  /\ (forall m, method i = VStr m -> exists msg, buildMb2Message i = Normal msg).
Proof.
  unfold buildMb2Message. destruct (method i) as [| |m]; simpl.
  - split; [split; eauto|]. split; [|discriminate]. intros e [= <-]. eauto.
  - split; [split; eauto|]. split; [|discriminate]. intros e [= <-]. eauto.
  - split; [split; [intros [e [=]] | intros [[=]|[=]]]|].
    split; [discriminate|]. eauto.
Qed.

End Builder.

(** C3 does not hold of all tuples: two distinct tuples, a line feed in [nonce]
    for one and in [ts] for the other, receive the same octets under every
    host; so do two tuples whose nonces are different unpaired surrogates, and,
    where upper-casing maps "get" to "GET", two tuples that differ in the
    letter case of the method. *)
Lemma buildMb2Message_not_injective :
  (shifted_left <> shifted_right
   /\ forall host : Host,
        @buildMb2Message host shifted_left = @buildMb2Message host shifted_right)
  /\ (unpaired_D800 <> unpaired_D801
      /\ forall host : Host,
           @buildMb2Message host unpaired_D800 = @buildMb2Message host unpaired_D801)
  /\ (lower_case_method <> upper_case_method
      /\ @buildMb2Message ascii_host lower_case_method
         = @buildMb2Message ascii_host upper_case_method).
Proof.
  split; [|split]; (split; [discriminate|]).
  - intros host. reflexivity.
  - intros host. reflexivity.
  - vm_compute. reflexivity.
Qed.

(** C4 does not hold of empty fields: with every field empty the builder does not fail;
    it returns "MB2" and seven line feeds. *)
Lemma buildMb2Message_accepts_empty_fields :
  @buildMb2Message ascii_host empty_input = Normal [77; 66; 50; 10; 10; 10; 10; 10; 10; 10]
  /\ forall host : Host, exists msg, @buildMb2Message host empty_input = Normal msg.
Proof.
  split; [reflexivity|]. intros host. eexists. reflexivity.
Qed.

(* ===================================================================== *)
(** * 11. Runs of [request] *)
(* ===================================================================== *)

Section RequestRuns.
Context {host : Host} {W : Type}.

Ltac reduce :=
  cbn -[sha256Base64 Buffer_from_utf8 Number_toString lit request_headers
        buildMb2Message] in *.

Ltac ask O :=
  match goal with
  | |- context [O ?X ?q ?w] => is_var w; destruct (O X q w) as [? ?] eqn:?
  end; reduce.

Ltac branch :=
  match goal with
  | |- context [lift ?x] => destruct x eqn:?
  | |- context [if negb ?b then _ else _] => destruct b eqn:?
  end; reduce.

Ltac after_load O L :=
  match goal with
  | |- context [lift (JSON_stringify ?v)] =>
      destruct (JSON_stringify v) as [[?|]|?] eqn:?; reduce
  | _ => idtac
  end;
  [ ask O; ask O;
    match goal with
    | |- context [lift (buildMb2Message ?i)] =>
        destruct (buildMb2Message i) eqn:?;
        [|match goal with B : buildMb2Message _ = Abrupt _ |- _ =>
            rewrite buildMb2Message_strings in B; discriminate B end]
    end; reduce;
    ask O;
    match goal with
    | |- context [lift ?x] => destruct x
    end; reduce;
    [ ask O; repeat branch;
      eapply run_sent; unfold load_events, signing_input, signed_request;
      rewrite ?L; reduce; eauto
    | eapply run_sign_failed; unfold load_events, signing_input;
      rewrite ?L; reduce; eauto ]
  | eapply run_body_failed; unfold load_events; rewrite ?L; reflexivity .. ].

(** Every run of [request] has one of the four shapes, with the clock reading
    and the UUID the world gives once the identity is loaded. *)
Lemma request_runs (O : Oracle W) (c : Client) (w : W) (m p : jsstring) (b : option Value) :
  request_run c m p b (clock_at_signing O c w) (uuid_at_signing O c w)
    (exec O (request m p b) c w).
Proof.
  unfold clock_at_signing, uuid_at_signing, world_after_load.
  unfold request. reduce.
  destruct (loaded c) eqn:L; reduce.
  - destruct b as [v|]; reduce.
    + after_load O L.
    + after_load O L.
  - ask O. branch; [branch|].
    + destruct b as [v|]; reduce; after_load O L.
    + eapply run_load_failed; eauto; discriminate.
    + eapply run_load_failed; eauto; discriminate.
Qed.

(** What the observers see in each kind of run. *)
Lemma request_run_observed c m p b now uuid (r : Run W Value) :
  request_run c m p b now uuid r ->
  (sign_calls (trace r) = [] /\ requests_sent (trace r) = []
   /\ exists e, outcome r = Abrupt e)
  \/ exists text msg,
       body_text b text
       /\ buildMb2Message (signing_input c m p text now uuid) = Normal msg
       /\ clock_reads (trace r) = [now] /\ uuids_drawn (trace r) = [uuid]
       /\ load_calls (trace r) = (if loaded c then [] else [(agentId c, Normal true)])
       /\ ((exists e, sign_calls (trace r) = [(msg, Abrupt e)]
                      /\ requests_sent (trace r) = [] /\ outcome r = Abrupt e)
           \/ exists sr, sign_calls (trace r) = [(msg, Normal sr)]
                      /\ requests_sent (trace r)
                         = [signed_request c m p b text now uuid sr]).
Proof.
  intros [answer e L A T R | e T R | text msg e B M T R | text msg sr answer B M T].
  - left. rewrite T. eauto.
  - left. rewrite T. unfold load_events. destruct (loaded c); eauto.
  - right. exists text, msg. rewrite T. unfold load_events.
    destruct (loaded c); repeat split; eauto 10.
  - right. exists text, msg. rewrite T. unfold load_events.
    destruct (loaded c); repeat split; eauto 10.
Qed.

End RequestRuns.

(* ===================================================================== *)
(** * 12. Signed requests *)
(* ===================================================================== *)

Section SignedRequests.
Context {host : Host} {W : Type}.

Lemma request_headers_lookup (c : Client) (sr : SignResult) (t n : jsstring) (hb : bool) :
  request_headers c sr t n hb !! "X-MB-Signature" = Some (signature sr)
  /\ request_headers c sr t n hb !! "X-MB-Signature-Alg" = Some (signatureAlg c)
  /\ request_headers c sr t n hb !! "X-MB-Signature-Ts" = Some t
  /\ request_headers c sr t n hb !! "X-MB-Signature-Nonce" = Some n.
Proof.
  unfold request_headers.
  destruct hb; repeat split; by rewrite ?lookup_insert_ne, ?lookup_insert_eq by done.
Qed.

(** The digest agrees with the published SHA-256 test messages. *)
Lemma sha256Base64_empty :
  sha256Base64 [] = lit "47DEQpj8HBSa+/TImW+5JCeuQeRkm5NMpJWZG3hSuFU=".
Proof. vm_compute. reflexivity. Qed.

Example sha256Base64_abc :
  sha256Base64 (lit "abc") = lit "ungWv48Bz+pBQUDeXa4iI7ADYaOWF3qctBD/YfIAFa0=".
Proof. vm_compute. reflexivity. Qed.

Example sha256Base64_two_blocks :
  sha256Base64 (lit "abcdbcdecdefdefgefghfghighijhijkijkljklmklmnlmnomnopnopq")
  = lit "JI1qYdIGOLjlwCaTDD5gOaM85Flk/yFn9uzt1BnbBsE=".
Proof. vm_compute. reflexivity. Qed.

(** C5. In every request sent by [request], the digest line of the message
    that was signed is the base64 text of the SHA-256 digest of the octets put
    on the wire: the UTF-8 octets of the one text [JSON.stringify] returned,
    which is also the body handed to [fetch]; without a body object nothing is
    transmitted and the digest is that of the empty string. The digest is
    written out as [Base64.encode (SHA256.digest ..)], the hash and the
    encoding themselves. *)
Theorem signed_digest_covers_transmitted_octets
    (O : Oracle W) (c : Client) (w : W) (m p : jsstring) (b : option Value) :
  let r := exec O (request m p b) c w in
  forall req, req ∈ requests_sent (trace r) ->
  exists t n msg sr,
    sign_calls (trace r) = [(msg, Normal sr)]
    /\ buildMb2Message
         {| ts := VStr t; nonce := VStr n; mb_agentName := VStr (agentName c);
            method := VStr m; pathOnly := VStr p;
            bodySha256 :=
              VStr (Base64.encode (SHA256.digest (default [] (transmitted_octets req)))) |}
       = Normal msg
    /\ match b with
       | Some v => exists text, JSON_stringify v = Normal (Some text)
                                /\ body req = Some text
                                /\ transmitted_octets req = Some (Buffer_from_utf8 text)
       | None => body req = None
                 /\ Base64.encode (SHA256.digest (default [] (transmitted_octets req)))
                    = lit "47DEQpj8HBSa+/TImW+5JCeuQeRkm5NMpJWZG3hSuFU="
       end.
Proof.
  intros r req Hreq. subst r.
  destruct (request_run_observed _ _ _ _ _ _ _ (request_runs O c w m p b))
    as [(_ & S & _) | (text & msg & B & M & _ & _ & _ & [(e & _ & S & _) | (sr & Sg & S)])];
    rewrite S in Hreq; try (apply elem_of_nil in Hreq; contradiction).
  apply list_elem_of_singleton in Hreq. subst req.
  eexists _, _, msg, sr. split; [exact Sg|].
  unfold signing_input, sha256Base64 in M. unfold signed_request, transmitted_octets.
  destruct b as [v|]; cbn [body fmap option_fmap option_map default body_text] in *.
  - split; [exact M|]. eauto.
  - subst text. split; [exact M|]. split; [reflexivity|].
    vm_compute. reflexivity.
Qed.

(** C6. The ts and the nonce of a call are made inside the call: whatever
    the arguments, the message signed carries the seconds of the one clock
    reading and the one UUID drawn during that call; they are fixed by the
    world the call runs in, not by anything the caller passes. *)
Theorem ts_and_nonce_generated_in_call (O : Oracle W) (c : Client) (w : W) :
  exists now uuid,
    forall (m p : jsstring) (b : option Value),
      let r := exec O (request m p b) c w in
      forall msg answer, (msg, answer) ∈ sign_calls (trace r) ->
        clock_reads (trace r) = [now]
        /\ uuids_drawn (trace r) = [uuid]
        /\ exists d,
             buildMb2Message
               {| ts := VStr (Number_toString (now / 1000)); nonce := VStr uuid;
                  mb_agentName := VStr (agentName c); method := VStr m;
                  pathOnly := VStr p; bodySha256 := VStr d |}
             = Normal msg.
Proof.
  exists (clock_at_signing O c w), (uuid_at_signing O c w).
  intros m p b r msg answer Hin. subst r.
  destruct (request_run_observed _ _ _ _ _ _ _ (request_runs O c w m p b))
    as [(S & _) | (text & msg' & B & M & C & U & _ & [(e & S & _) | (sr & S & _)])];
    rewrite S in Hin; try (apply elem_of_nil in Hin; contradiction);
    apply list_elem_of_singleton in Hin; injection Hin as -> _;
    (split; [exact C|]); (split; [exact U|]); eexists; exact M.
Qed.

(** C7. In every request sent by [request], the X-MB-Signature-Ts header is
    the ts string of the message that was signed and the
    X-MB-Signature-Nonce header is its nonce: the signed octets are "MB2\n",
    the UTF-8 of the Ts header, a line feed, the UTF-8 of the Nonce header, a
    line feed, and the remaining lines. *)
Theorem signature_headers_carry_signed_ts_and_nonce
    (O : Oracle W) (c : Client) (w : W) (m p : jsstring) (b : option Value) :
  let r := exec O (request m p b) c w in
  forall req, req ∈ requests_sent (trace r) ->
  exists now n d msg sr,
    clock_reads (trace r) = [now]
    /\ uuids_drawn (trace r) = [n]
    /\ sign_calls (trace r) = [(msg, Normal sr)]
    /\ buildMb2Message
         {| ts := VStr (Number_toString (now / 1000)); nonce := VStr n;
            mb_agentName := VStr (agentName c); method := VStr m;
            pathOnly := VStr p; bodySha256 := VStr d |}
       = Normal msg
    /\ (exists rest,
          msg = [77; 66; 50; 10] ++ Buffer_from_utf8 (Number_toString (now / 1000)) ++ [10]
                ++ Buffer_from_utf8 n ++ [10] ++ rest)
    /\ headers req !! "X-MB-Signature-Ts" = Some (Number_toString (now / 1000))
    /\ headers req !! "X-MB-Signature-Nonce" = Some n
    /\ headers req !! "X-MB-Signature" = Some (signature sr).
Proof.
  intros r req Hreq. subst r.
  destruct (request_run_observed _ _ _ _ _ _ _ (request_runs O c w m p b))
    as [(_ & S & _) | (text & msg & B & M & C & U & _ & [(e & _ & S & _) | (sr & Sg & S)])];
    rewrite S in Hreq; try (apply elem_of_nil in Hreq; contradiction).
  apply list_elem_of_singleton in Hreq. subst req.
  eexists _, _, _, msg, sr. repeat (split; [eassumption|]).
  split.
  { unfold signing_input in M. rewrite buildMb2Message_strings in M.
    injection M as <-. eexists. reflexivity. }
  unfold signed_request. cbn [headers].
  destruct (request_headers_lookup c sr
              (Number_toString (clock_at_signing O c w / 1000))
              (uuid_at_signing O c w) (bool_decide (is_Some b)))
    as (? & ? & ? & ?).
  auto.
Qed.

(** C8. When [sdk.load] answers false or throws, or [sdk.sign] throws, the
    call of [request] ends in an exception and hands nothing to [fetch]; and
    whatever happens, each request handed to [fetch] carries the signature
    the key custody returned for the message. *)
Theorem no_request_without_signature
    (O : Oracle W) (c : Client) (w : W) (m p : jsstring) (b : option Value) :
  let r := exec O (request m p b) c w in
  (((exists id, (id, Normal false) ∈ load_calls (trace r))
    \/ (exists id e, (id, Abrupt e) ∈ load_calls (trace r))
    \/ (exists msg e, (msg, Abrupt e) ∈ sign_calls (trace r))) ->
   (exists e, outcome r = Abrupt e) /\ requests_sent (trace r) = [])
  /\ forall req, req ∈ requests_sent (trace r) ->
       exists msg sr, sign_calls (trace r) = [(msg, Normal sr)]
                      /\ headers req !! "X-MB-Signature" = Some (signature sr).
Proof.
  intros r. subst r.
  destruct (request_run_observed _ _ _ _ _ _ _ (request_runs O c w m p b))
    as [(Sg & S & E) | (text & msg & B & M & C & U & L & [(e & Sg & S & E) | (sr & Sg & S)])].
  - split; [auto|]. rewrite S. intros req Hin. apply elem_of_nil in Hin. contradiction.
  - split; [eauto|]. rewrite S. intros req Hin. apply elem_of_nil in Hin. contradiction.
  - split.
    + rewrite L, Sg. intros [(id & Hin) | [(id & e & Hin) | (msg' & e & Hin)]]; exfalso.
      * destruct (loaded c); [apply elem_of_nil in Hin; contradiction|].
        apply list_elem_of_singleton in Hin. discriminate.
      * destruct (loaded c); [apply elem_of_nil in Hin; contradiction|].
        apply list_elem_of_singleton in Hin. discriminate.
      * apply list_elem_of_singleton in Hin. discriminate.
    + rewrite S. intros req Hin. apply list_elem_of_singleton in Hin. subst req.
      exists msg, sr. split; [exact Sg|]. unfold signed_request. cbn [headers].
      apply request_headers_lookup.
Qed.

End SignedRequests.

(* ===================================================================== *)
(** * 13. The constructor *)
(* ===================================================================== *)

Section Constructor.
Context {host : Host}.

Lemma empty_or_absent_falsy v : empty_or_absent v <-> truthy v = false.
Proof.
  unfold empty_or_absent. destruct v as [| |[|u s]]; simpl; split; auto;
    try discriminate; intros [?|[?|?]]; congruence.
Qed.

Lemma truthy_string v : truthy v = true -> exists u s, v = VStr (u :: s).
Proof. destruct v as [| |[|u s]]; simpl; try discriminate. eauto. Qed.

Ltac reduce :=
  cbn -[sha256Base64 Buffer_from_utf8 Number_toString lit request_headers
        buildMb2Message strip_trailing_slashes] in *.

Lemma constructor_run {W : Type} (O : Oracle W) (o : ClientOptions) (w : W) :
  outcome (new_TrustbookEsignClient O o w) = Normal tt ->
  truthy (opt_agentName o) = true
  /\ agentName (receiver (new_TrustbookEsignClient O o w)) = ToString (opt_agentName o).
Proof.
  unfold new_TrustbookEsignClient, constructor.
  destruct (truthy (opt_baseUrl o)), (truthy (opt_apiKey o)),
    (truthy (opt_agentId o)), (truthy (opt_agentName o)); reduce;
    try discriminate.
  destruct (O _ (EnvVar "ESIGN_AGENT_TRUST_PATH") w) as [env w1]; reduce.
  match goal with
  | |- context [O ?X ?q w1] => destruct (O X q w1) as [[u|e] w2]
  end; reduce; [|discriminate].
  match goal with
  | |- context [O ?X ?q w2] => destruct (O X q w2) as [[u'|e] w3]
  end; reduce; [|discriminate].
  auto.
Qed.

(** C10. The constructor throws whenever baseUrl, apiKey, agentId or
    agentName is empty or absent, before it calls anything; so a constructed
    client holds a non-empty agentName, and every message signed through it
    is built with that non-empty name, though the builder checks nothing. *)
Theorem constructor_requires_named_agent {W : Type} (O : Oracle W) (o : ClientOptions) (w : W) :
  let r := new_TrustbookEsignClient O o w in
  ((empty_or_absent (opt_baseUrl o) \/ empty_or_absent (opt_apiKey o)
    \/ empty_or_absent (opt_agentId o) \/ empty_or_absent (opt_agentName o)) ->
   outcome r = Abrupt (JsError (lit "baseUrl/apiKey/agentId/agentName 不能为空"))
   /\ trace r = [])
  /\ (outcome r = Normal tt ->
      agentName (receiver r) <> []
      /\ Buffer_from_utf8 (agentName (receiver r)) <> []
      /\ opt_agentName o = VStr (agentName (receiver r))
      /\ forall (W' : Type) (O' : Oracle W') (w' : W') (l : bool)
                (m p : jsstring) (b : option Value) msg answer,
           (msg, answer)
             ∈ sign_calls (trace (exec O' (request m p b) (set_loaded l (receiver r)) w')) ->
           exists t n d,
             buildMb2Message
               {| ts := VStr t; nonce := VStr n;
                  mb_agentName := VStr (agentName (receiver r));
                  method := VStr m; pathOnly := VStr p; bodySha256 := VStr d |}
             = Normal msg
             /\ exists rest,
                  msg = [77; 66; 50; 10] ++ Buffer_from_utf8 t ++ [10]
                        ++ Buffer_from_utf8 n ++ [10]
                        ++ Buffer_from_utf8 (agentName (receiver r)) ++ [10] ++ rest).
Proof.
  intros r. split.
  - subst r. unfold new_TrustbookEsignClient, constructor.
    rewrite !empty_or_absent_falsy.
    intros [ -> | [ -> | [ -> | -> ] ] ]; rewrite ?orb_true_r; simpl; auto.
  - intros Hok. destruct (constructor_run O o w Hok) as [Ht Hn].
    fold r in Hn. destruct (truthy_string _ Ht) as (u & s & Hv).
    rewrite Hv in Hn. simpl in Hn. split; [congruence|].
    split; [rewrite Hn; apply Buffer_from_utf8_nonempty; discriminate|].
    split; [congruence|].
    intros W' O' w' l m p b msg answer Hin.
    destruct (request_run_observed _ _ _ _ _ _ _
                (request_runs O' (set_loaded l (receiver r)) w' m p b))
      as [(S & _) | (text & msg' & B & M & _ & _ & _ & [(e & S & _) | (sr & S & _)])];
      rewrite S in Hin; try (apply elem_of_nil in Hin; contradiction);
      apply list_elem_of_singleton in Hin; injection Hin as -> _;
      unfold signing_input in M; cbn [agentName set_loaded] in M;
      (eexists _, _, _; split; [exact M|]);
      rewrite buildMb2Message_strings in M; injection M as <-;
      eexists; reflexivity.
Qed.

End Constructor.

(* ===================================================================== *)
(** * 14. Signing and verifying *)
(* ===================================================================== *)

Section RoundTrip.
Context {host : Host} {scheme : SignatureScheme}.

Lemma verify_signed (replayed : SigningEnvelope -> Z -> bool)
    (sk : PrivateKey) (cert : Certificate) (now : Z)
    (t n a m p alg : jsstring) (octets msg : buffer) :
  accepts_own_signatures sk ->
  public_key cert = public_of sk ->
  subject_agent_name cert = a ->
  not_before cert <= now <= not_after cert ->
  buildMb2Message
    {| ts := VStr t; nonce := VStr n; mb_agentName := VStr a; method := VStr m;
       pathOnly := VStr p; bodySha256 := VStr (sha256Base64 octets) |} = Normal msg ->
  let env := {| env_ts := t; env_nonce := n; env_method := m; env_path := p;
                env_body_sha256_b64 := sha256Base64 octets;
                env_algorithm := alg; env_signature := sig_sign sk msg |} in
  replayed env now = false ->
  verify replayed (Some env)
    {| action_agent_name := a; action_method := m; action_path := p;
       action_body := octets |}
    (Some cert) now = verified.
Proof.
  intros Hsig Hpk Hname Hwin Hmsg env Hfresh.
  unfold verify, recomputed_message. rewrite Hfresh. subst env.
  cbn [env_ts env_nonce env_signature env_body_sha256_b64
       action_agent_name action_method action_path action_body].
  destruct (Z.ltb_spec now (not_before cert)); [lia|].
  destruct (Z.ltb_spec (not_after cert) now); [lia|].
  rewrite Hmsg, Hpk, Hsig, Hname.
  rewrite !bool_decide_eq_true_2 by reflexivity. reflexivity.
Qed.

(** C2. Round trip, against the verifier of the design document: for any
    (ts, nonce, agent_name, method, path, body) and the key pair of a private
    key, the signature made over the canonical message verifies as
    [verified] on the untouched inputs, under a certificate that binds the
    public key to the agent and is within its validity window, when the
    freshness policy does not flag the envelope; and so does every request
    a client sends whose key custody signs with that private key. *)
Theorem sign_then_verify_is_verified {W : Type}
    (replayed : SigningEnvelope -> Z -> bool)
    (sk : PrivateKey) (cert : Certificate) (now : Z) (a : jsstring) :
  accepts_own_signatures sk ->
  public_key cert = public_of sk ->
  subject_agent_name cert = a ->
  not_before cert <= now <= not_after cert ->
  (forall (t n m p alg : jsstring) (octets : buffer),
     exists msg,
       buildMb2Message
         {| ts := VStr t; nonce := VStr n; mb_agentName := VStr a; method := VStr m;
            pathOnly := VStr p; bodySha256 := VStr (sha256Base64 octets) |} = Normal msg
       /\ let env := {| env_ts := t; env_nonce := n; env_method := m; env_path := p;
                        env_body_sha256_b64 := sha256Base64 octets;
                        env_algorithm := alg; env_signature := sig_sign sk msg |} in
          (replayed env now = false ->
           verify replayed (Some env)
             {| action_agent_name := a; action_method := m; action_path := p;
                action_body := octets |}
             (Some cert) now = verified))
  /\ (forall (O : Oracle W) (c : Client) (w : W) (m p : jsstring) (b : option Value),
        let r := exec O (request m p b) c w in
        agentName c = a ->
        (forall msg sr, (msg, Normal sr) ∈ sign_calls (trace r) ->
                        signature sr = sig_sign sk msg) ->
        forall req, req ∈ requests_sent (trace r) ->
          let octets := default [] (transmitted_octets req) in
          exists env,
            inbound_envelope m p (headers req) octets = Some env
            /\ (replayed env now = false ->
                verify replayed (Some env)
                  {| action_agent_name := a; action_method := m; action_path := p;
                     action_body := octets |}
                  (Some cert) now = verified)).
Proof.
  intros Hsig Hpk Hname Hwin. split.
  - intros t n m p alg octets.
    eexists. split; [apply buildMb2Message_strings|].
    intros env Hfresh. eapply verify_signed; eauto using buildMb2Message_strings.
  - intros O c w m p b r Hc Hcustody req Hreq. subst r.
    destruct (request_run_observed _ _ _ _ _ _ _ (request_runs O c w m p b))
      as [(_ & S & _) | (text & msg & B & M & _ & _ & _ & [(e & _ & S & _) | (sr & Sg & S)])];
      rewrite S in Hreq; try (apply elem_of_nil in Hreq; contradiction).
    apply list_elem_of_singleton in Hreq. subst req.
    rewrite Sg in Hcustody.
    specialize (Hcustody msg sr (proj2 (list_elem_of_singleton _ _) eq_refl)).
    intros octets.
    destruct (request_headers_lookup c sr
                (Number_toString (clock_at_signing O c w / 1000))
                (uuid_at_signing O c w) (bool_decide (is_Some b)))
      as (Hs & Ha & Ht & Hn).
    unfold inbound_envelope, signed_request. cbn [headers].
    rewrite Hs, Ha, Ht, Hn. cbn [mbind option_bind].
    eexists. split; [reflexivity|]. rewrite Hcustody.
    assert (Hoct : octets = Buffer_from_utf8 text).
    { unfold octets, transmitted_octets, signed_request. cbn [body].
      destruct b; cbn [fmap option_fmap option_map default body_text] in *;
        [reflexivity | now subst text]. }
    rewrite Hoct. intros Hfresh.
    eapply verify_signed; eauto. unfold signing_input in M. rewrite <- Hc. exact M.
Qed.

End RoundTrip.

(* ===================================================================== *)
(** * 15. Evaluating the module *)
(* ===================================================================== *)

Section ModuleEvaluation.

Lemma exports_throw (globals : string -> bool) :
  globals "buildMb1Message" = false ->
  evaluate_exports globals exported_identifiers
  = Abrupt (JsReferenceError "buildMb1Message").
Proof.
  intros Hg. unfold exported_identifiers, evaluate_exports, resolve_identifier.
  rewrite Hg. reflexivity.
Qed.

(** C9, outside the usage branch. Provided the global object has no property named
    buildMb1Message, evaluating the module never completes: loaded as a
    library it throws the ReferenceError for buildMb1Message; run as the main
    module it throws the same error once [runCli()] has returned its promise,
    except that with no command or a help command [runCli] ends the process
    with code 0 before the exports are reached. *)
Theorem module_evaluation_never_completes
    (globals : string -> bool) (is_main : bool) (argv2 : jsval) :
  globals "buildMb1Message" = false ->
  (forall exports, evaluate_module globals is_main argv2 <> Evaluated exports)
  /\ evaluate_module globals false argv2 = Throws (JsReferenceError "buildMb1Message")
  /\ (runCli_start argv2 = PromiseReturned ->
      evaluate_module globals true argv2 = Throws (JsReferenceError "buildMb1Message"))
  /\ (forall code, runCli_start argv2 = ProcessExits code ->
        code = 0 /\ evaluate_module globals true argv2 = Exited 0)
  /\ (runCli_start argv2 = ProcessExits 0 <->
      ToString (js_or argv2 (VStr [])) ∈ [[]; lit "help"; lit "--help"; lit "-h"]).
Proof.
  intros Hg. unfold evaluate_module. rewrite (exports_throw globals Hg).
  repeat split.
  - intros exports. destruct is_main; [destruct (runCli_start argv2)|]; discriminate.
  - intros ->. reflexivity.
  - unfold runCli_start in *.
    destruct (_ || _); congruence.
  - unfold runCli_start in *.
    destruct (_ || _); congruence.
  - unfold runCli_start. intros Hs.
    destruct (bool_decide_reflect (ToString (js_or argv2 (VStr [])) = [])) as [->|];
      [set_solver|].
    destruct (bool_decide_reflect (ToString (js_or argv2 (VStr [])) = lit "help")) as [->|];
      [set_solver|].
    destruct (bool_decide_reflect (ToString (js_or argv2 (VStr [])) = lit "--help")) as [->|];
      [set_solver|].
    destruct (bool_decide_reflect (ToString (js_or argv2 (VStr [])) = lit "-h")) as [->|];
      [set_solver|].
    discriminate.
  - unfold runCli_start. intros Hin.
    repeat (apply elem_of_cons in Hin as [->|Hin]; [reflexivity|]).
    apply elem_of_nil in Hin. contradiction.
Qed.

End ModuleEvaluation.

(** C9 does not hold of the usage branch: run as the main module with the command [help],
    evaluation does not throw; the process exits with code 0. *)
Lemma help_command_exits_before_exports :
  evaluate_module (fun _ => false) true (VStr (lit "help")) = Exited 0
  /\ evaluate_module (fun _ => false) true (VStr (lit "help"))
     <> Throws (JsReferenceError "buildMb1Message").
Proof. split; [reflexivity | discriminate]. Qed.

(* ===================================================================== *)
(** * 16. The statements at concrete inputs *)
(* ===================================================================== *)

Lemma well_formed_ascii (s : jsstring) : Forall (fun u => 0 <= u < 128) s -> well_formed s.
Proof.
  induction 1 as [|u s Hu _ IH]; simpl; [exact I|].
  split; [lia|].
  unfold is_high_surrogate, is_low_surrogate.
  destruct (Z.leb_spec 0xD800 u); [lia|]. simpl.
  destruct (Z.leb_spec 0xDC00 u); [lia|]. simpl. auto.
Defined.

Ltac ascii_string :=
  apply well_formed_ascii, Forall_forall;
  let u := fresh "u" in let Hu := fresh "Hu" in
  intros u Hu; apply list_elem_of_In in Hu; vm_compute in Hu;
  repeat (destruct Hu as [<-|Hu]; [lia|]); contradiction.

Ltac no_line_feed :=
  let Hin := fresh "Hin" in
  intros Hin; apply list_elem_of_In in Hin; vm_compute in Hin;
  repeat (destruct Hin as [Hin|Hin]; [discriminate Hin|]); contradiction.

Ltac member := apply list_elem_of_In; vm_compute; left; reflexivity.

(** The canonical form on the scenario of the design document. *)
Lemma buildMb2Message_canonical_form_witness :
  @buildMb2Message ascii_host scenario_input = Normal scenario_message.
Proof.
  destruct (@buildMb2Message_canonical_form ascii_host
              (lit "1700000000") (lit "abc123") (lit "A") (lit "post") scenario_path
              (sha256Base64 (Buffer_from_utf8 scenario_body))) as (E1 & E2 & E3).
  rewrite (E3 scenario_input eq_refl), E1. vm_compute. reflexivity.
Defined.

(** Two one-line tuples with the same octets, get and GET as methods. *)
Lemma buildMb2Message_injective_on_lines_witness :
  @toUpperCase ascii_host (lit "get") = @toUpperCase ascii_host (lit "GET")
  /\ lit "/p" = lit "/p".
Proof.
  destruct (@buildMb2Message_injective_on_lines ascii_host
              (lit "1") (lit "n") (lit "A") (lit "get") (lit "/p") (lit "d")
              (lit "1") (lit "n") (lit "A") (lit "GET") (lit "/p") (lit "d"))
    as (_ & _ & _ & Em & Ep & _).
  - repeat (apply List.Forall_cons; [no_line_feed|]). apply List.Forall_nil.
  - repeat (apply List.Forall_cons; [ascii_string|]). apply List.Forall_nil.
  - vm_compute. reflexivity.
  - split; assumption.
Defined.

(** The empty input has a string as method, hence a message. *)
Lemma buildMb2Message_fails_only_without_method_witness :
  exists msg, @buildMb2Message ascii_host empty_input = Normal msg.
Proof.
  destruct (@buildMb2Message_fails_only_without_method ascii_host empty_input)
    as (_ & _ & Hok).
  exact (Hok [] eq_refl).
Defined.

(** The run of the demonstration client: the body sent is the seven
    characters of the quoted word, the octets on the wire are their UTF-8
    octets, the SHA-256 digest of these in base64 is the text shown, and the
    one message signed is the MB2 message that has this text as its digest
    line. *)
Lemma signed_digest_covers_transmitted_octets_witness :
  exists req msg sr,
    req ∈ requests_sent (trace demo_run)
    /\ sign_calls (trace demo_run) = [(msg, Normal sr)]
    /\ body req = Some (quoted (lit "Hello"))
    /\ transmitted_octets req = Some (Buffer_from_utf8 (quoted (lit "Hello")))
    /\ Base64.encode (SHA256.digest (Buffer_from_utf8 (quoted (lit "Hello"))))
       = lit "wlv5Rar/j+FoJtPB7xFwRNbMGvjg6fC0FiMIRgqCB6c="
    /\ @buildMb2Message ascii_host
         {| ts := VStr (lit "1700000000");
            nonce := VStr (lit "3b241101-e2bb-4255-8caf-4136c566a962");
            mb_agentName := VStr (lit "MyAgent"); method := VStr (lit "POST");
            pathOnly := VStr scenario_path;
            bodySha256 := VStr (lit "wlv5Rar/j+FoJtPB7xFwRNbMGvjg6fC0FiMIRgqCB6c=") |}
       = Normal msg.
Proof.
  assert (Hex : exists req, req ∈ requests_sent (trace demo_run)).
  { eexists. member. }
  destruct Hex as [req Hin].
  destruct (signed_digest_covers_transmitted_octets (host := ascii_host)
              (fixed_world (Normal true) custody_signs) demo_client tt
              (lit "POST") scenario_path (Some (VStr (lit "Hello"))) req Hin)
    as (t & n & msg & sr & Hs & _ & text & Hj & Hb & Ho).
  injection Hj as Hj.
  exists req, msg, sr. split; [exact Hin|]. split; [exact Hs|].
  split; [rewrite Hb, <- Hj; reflexivity|].
  split; [rewrite Ho, <- Hj; reflexivity|].
  split; [vm_compute; reflexivity|].
  pose proof (f_equal (fun l => head (fst <$> l)) Hs) as Hm.
  vm_compute in Hm. injection Hm as <-. vm_compute. reflexivity.
Defined.

(** The same run: its clock reading and its UUID. *)
Lemma ts_and_nonce_generated_in_call_witness :
  clock_reads (trace demo_run) = [1700000000123]
  /\ uuids_drawn (trace demo_run) = [lit "3b241101-e2bb-4255-8caf-4136c566a962"].
Proof.
  destruct (ts_and_nonce_generated_in_call (host := ascii_host)
              (fixed_world (Normal true) custody_signs) demo_client tt)
    as (now & uuid & Hgen).
  assert (Hex : exists call, call ∈ sign_calls (trace demo_run)).
  { eexists. member. }
  destruct Hex as [[msg answer] Hin].
  destruct (Hgen (lit "POST") scenario_path (Some (VStr (lit "Hello"))) msg answer Hin)
    as (Hc & Hu & _).
  assert (Hnow : [now] = [1700000000123]) by (rewrite <- Hc; vm_compute; reflexivity).
  assert (Hid : [uuid] = [lit "3b241101-e2bb-4255-8caf-4136c566a962"])
    by (rewrite <- Hu; vm_compute; reflexivity).
  split; [exact (eq_trans Hc Hnow) | exact (eq_trans Hu Hid)].
Defined.

(** The same run: the two headers of the request it sends. *)
Lemma signature_headers_carry_signed_ts_and_nonce_witness :
  exists req,
    req ∈ requests_sent (trace demo_run)
    /\ headers req !! "X-MB-Signature-Ts" = Some (lit "1700000000")
    /\ headers req !! "X-MB-Signature-Nonce"
       = Some (lit "3b241101-e2bb-4255-8caf-4136c566a962").
Proof.
  assert (Hex : exists req, req ∈ requests_sent (trace demo_run)).
  { eexists. member. }
  destruct Hex as [req Hin].
  destruct (signature_headers_carry_signed_ts_and_nonce (host := ascii_host)
              (fixed_world (Normal true) custody_signs) demo_client tt
              (lit "POST") scenario_path (Some (VStr (lit "Hello"))) req Hin)
    as (now & n & d & msg & sr & Hc & Hu & _ & _ & _ & Ht & Hn & _).
  assert (Hnow : [now] = [1700000000123]) by (rewrite <- Hc; vm_compute; reflexivity).
  assert (Hid : [n] = [lit "3b241101-e2bb-4255-8caf-4136c566a962"])
    by (rewrite <- Hu; vm_compute; reflexivity).
  injection Hnow as ->. injection Hid as ->.
  exists req. split; [exact Hin|]. split; [exact Ht | exact Hn].
Defined.

(** The run in which the identity does not load. *)
Lemma no_request_without_signature_witness :
  (exists e, outcome refused_run = Abrupt e) /\ requests_sent (trace refused_run) = [].
Proof.
  apply (no_request_without_signature (host := ascii_host)
           (fixed_world (Normal false) custody_signs) demo_client tt
           (lit "POST") scenario_path (Some (VStr (lit "Hello")))).
  left. exists (agentId demo_client). member.
Defined.

(** Constructing without a name, and with one. *)
Lemma constructor_requires_named_agent_witness :
  (exists e, outcome (new_TrustbookEsignClient (fixed_world (Normal true) custody_signs)
                        nameless_options tt) = Abrupt e)
  /\ agentName (receiver (new_TrustbookEsignClient (fixed_world (Normal true) custody_signs)
                            demo_options tt)) <> [].
Proof.
  split.
  - destruct (constructor_requires_named_agent (host := ascii_host)
                (fixed_world (Normal true) custody_signs) nameless_options tt)
      as [Hthrow _].
    destruct Hthrow as [Ho _]; [|eexists; exact Ho].
    right. right. right. right. right. reflexivity.
  - destruct (constructor_requires_named_agent (host := ascii_host)
                (fixed_world (Normal true) custody_signs) demo_options tt)
      as [_ Hbuilt].
    apply Hbuilt. vm_compute. reflexivity.
Defined.

(** The request of the demonstration run, verified under a certificate for its key. *)
Lemma sign_then_verify_is_verified_witness :
  exists req env,
    req ∈ requests_sent (trace demo_run)
    /\ inbound_envelope (lit "POST") scenario_path (headers req)
         (default [] (transmitted_octets req)) = Some env
    /\ verify (host := ascii_host) (scheme := keyed_digest) never_replayed (Some env)
         {| action_agent_name := lit "MyAgent"; action_method := lit "POST";
            action_path := scenario_path;
            action_body := default [] (transmitted_octets req) |}
         (Some demo_certificate) 1700000000 = verified.
Proof.
  assert (Hkeys : accepts_own_signatures (scheme := keyed_digest) demo_key).
  { intros msg. apply bool_decide_eq_true_2. reflexivity. }
  assert (Hwindow : not_before demo_certificate <= 1700000000 <= not_after demo_certificate).
  { vm_compute. split; discriminate. }
  destruct (sign_then_verify_is_verified (host := ascii_host) (scheme := keyed_digest)
              (W := unit) never_replayed demo_key demo_certificate 1700000000
              (lit "MyAgent") Hkeys eq_refl eq_refl Hwindow) as [_ Hrun].
  assert (Hex : exists req, req ∈ requests_sent (trace demo_run)).
  { eexists. member. }
  destruct Hex as [req Hin].
  destruct (Hrun (fixed_world (Normal true) custody_signs) demo_client tt
              (lit "POST") scenario_path (Some (VStr (lit "Hello"))) eq_refl) with (req := req)
    as (env & He & Hv).
  - intros msg sr Hs. apply list_elem_of_In in Hs. vm_compute in Hs.
    destruct Hs as [Hs|[]]. injection Hs as <- <-. vm_compute. reflexivity.
  - exact Hin.
  - exists req, env. split; [exact Hin|]. split; [exact He|]. apply Hv. reflexivity.
Defined.

(** The module required as a library, and run with the command post. *)
Lemma module_evaluation_never_completes_witness :
  evaluate_module (fun _ => false) false VUndefined
  = Throws (JsReferenceError "buildMb1Message")
  /\ evaluate_module (fun _ => false) true (VStr (lit "post"))
     = Throws (JsReferenceError "buildMb1Message").
Proof.
  split.
  - apply (module_evaluation_never_completes (fun _ => false) false VUndefined eq_refl).
  - apply (module_evaluation_never_completes (fun _ => false) true (VStr (lit "post")) eq_refl).
    reflexivity.
Defined.

(* ===================================================================== *)
(** * 17. The base URL of a client *)
(* ===================================================================== *)

Section BaseUrl.

Lemma drop_leading_spec (u : Z) (s : jsstring) :
  exists k : nat, s = repeat u k ++ drop_leading u s /\ head (drop_leading u s) <> Some u.
Proof.
  induction s as [|v s (k & E & N)]; simpl.
  - exists 0%nat. split; [reflexivity | discriminate].
  - destruct (bool_decide_reflect (v = u)) as [->|Hne].
    + exists (S k). split; [simpl; f_equal; exact E | exact N].
    + exists 0%nat. split; [reflexivity|]. simpl. congruence.
Qed.

Lemma repeat_rev {A : Type} (x : A) (k : nat) : rev (repeat x k) = repeat x k.
Proof.
  induction k as [|k IH]; [reflexivity|].
  simpl. rewrite IH. clear IH.
  induction k as [|k IH]; [reflexivity|]. simpl. f_equal. exact IH.
Qed.

Lemma last_rev_head {A : Type} (l : list A) : last (rev l) = head l.
Proof. destruct l as [|x l]; [reflexivity|]. simpl. apply last_snoc. Qed.

(** [s.replace(/\/+$/, "")] removes the slashes at the end of [s], all of
    them and nothing else. *)
Lemma strip_trailing_slashes_spec (s : jsstring) :
  exists k : nat,
    s = strip_trailing_slashes s ++ repeat 47 k
    /\ last (strip_trailing_slashes s) <> Some 47.
Proof.
  unfold strip_trailing_slashes.
  destruct (drop_leading_spec 47 (rev s)) as (k & E & N).
  exists k. split.
  - rewrite <- (rev_involutive s) at 1. rewrite E at 1.
    rewrite rev_app_distr, repeat_rev. reflexivity.
  - rewrite last_rev_head. exact N.
Qed.

End BaseUrl.

(* ===================================================================== *)
(** * 18. What the constructor leaves behind *)
(* ===================================================================== *)

Section Construction.
Context {W : Type}.

Ltac reduce :=
  cbn -[sha256Base64 Buffer_from_utf8 Number_toString lit request_headers
        buildMb2Message strip_trailing_slashes] in *.

(** The three ways the constructor can go once its guard is passed, and the
    one way it goes when it is not. *)
Lemma constructor_cases (O : Oracle W) (o : ClientOptions) (w : W) :
  let r := new_TrustbookEsignClient O o w in
  (exists v, v ∈ [opt_baseUrl o; opt_apiKey o; opt_agentId o; opt_agentName o]
             /\ truthy v = false
             /\ trace r = [] /\ receiver r = blank
             /\ outcome r = Abrupt (JsError (lit "baseUrl/apiKey/agentId/agentName 不能为空")))
  \/ (Forall (fun v => truthy v = true)
             [opt_baseUrl o; opt_apiKey o; opt_agentId o; opt_agentName o]
      /\ exists env,
           let ref := ToString (js_or env (VStr (lit "esign-agent-trust"))) in
           (exists e, trace r = [Ev (EnvVar "ESIGN_AGENT_TRUST_PATH") env;
                                 Ev (LoadEsignModule ref) (Abrupt e)]
                      /\ receiver r = blank
                      /\ outcome r = Abrupt (module_load_error ref e))
           \/ (exists e, trace r = [Ev (EnvVar "ESIGN_AGENT_TRUST_PATH") env;
                                    Ev (LoadEsignModule ref) (Normal tt);
                                    Ev (NewEsignAgentTrust
                                          (default empty_sdkConfig (opt_sdkConfig o)))
                                       (Abrupt e)]
                         /\ receiver r = blank
                         /\ outcome r = Abrupt e)
           \/ (trace r = [Ev (EnvVar "ESIGN_AGENT_TRUST_PATH") env;
                          Ev (LoadEsignModule ref) (Normal tt);
                          Ev (NewEsignAgentTrust
                                (default empty_sdkConfig (opt_sdkConfig o)))
                             (Normal tt)]
               /\ outcome r = Normal tt
               /\ receiver r
                  = {| baseUrl := strip_trailing_slashes (ToString (opt_baseUrl o));
                       apiKey := ToString (opt_apiKey o);
                       agentId := ToString (opt_agentId o);
                       agentName := ToString (opt_agentName o);
                       signatureAlg := default (lit "rsa-v1_5-sha256") (opt_signatureAlg o);
                       loaded := false |})).
Proof.
  intros r. subst r. unfold new_TrustbookEsignClient, constructor.
  destruct (truthy (opt_baseUrl o)) eqn:T1; reduce;
    [|left; exists (opt_baseUrl o); split; [set_solver | auto]].
  destruct (truthy (opt_apiKey o)) eqn:T2; reduce;
    [|left; exists (opt_apiKey o); split; [set_solver | auto]].
  destruct (truthy (opt_agentId o)) eqn:T3; reduce;
    [|left; exists (opt_agentId o); split; [set_solver | auto]].
  destruct (truthy (opt_agentName o)) eqn:T4; reduce;
    [|left; exists (opt_agentName o); split; [set_solver | auto]].
  right. split; [repeat constructor; assumption|].
  destruct (O _ (EnvVar "ESIGN_AGENT_TRUST_PATH") w) as [env w1]; reduce.
  exists env.
  match goal with
  | |- context [O ?X ?q w1] => destruct (O X q w1) as [[u|e] w2]
  end; reduce; [destruct u | left; eauto].
  match goal with
  | |- context [O ?X ?q w2] => destruct (O X q w2) as [[u|e] w3]
  end; reduce; [destruct u | right; left; eauto].
  right. right. auto.
Qed.

(** X1. A constructed client holds the given base URL without the slashes at
    its end (all of them: a base URL made of slashes only leaves the empty
    string), the other three options as given, the algorithm
    "rsa-v1_5-sha256" unless one was passed, and an identity not yet loaded. *)
Theorem constructed_client_fields (O : Oracle W) (o : ClientOptions) (w : W) :
  let r := new_TrustbookEsignClient O o w in
  outcome r = Normal tt ->
  (exists k : nat,
     opt_baseUrl o = VStr (baseUrl (receiver r) ++ repeat 47 k)
     /\ last (baseUrl (receiver r)) <> Some 47)
  /\ opt_apiKey o = VStr (apiKey (receiver r))
  /\ opt_agentId o = VStr (agentId (receiver r))
  /\ opt_agentName o = VStr (agentName (receiver r))
  /\ signatureAlg (receiver r) = default (lit "rsa-v1_5-sha256") (opt_signatureAlg o)
  /\ loaded (receiver r) = false.
Proof.
  intros r Hok. subst r.
  destruct (constructor_cases O o w)
    as [(v & _ & _ & _ & _ & E)
       | (T & env & [(e & _ & _ & E) | [(e & _ & _ & E) | (_ & _ & R)]])];
    try (rewrite E in Hok; discriminate Hok).
  rewrite R. cbn [baseUrl apiKey agentId agentName signatureAlg loaded].
  inversion T as [|? ? T1 Ta]; subst. inversion Ta as [|? ? T2 Tb]; subst.
  inversion Tb as [|? ? T3 Tc]; subst. inversion Tc as [|? ? T4 _]; subst.
  destruct (opt_baseUrl o) as [| |s1]; try discriminate T1.
  destruct (opt_apiKey o) as [| |s2]; try discriminate T2.
  destruct (opt_agentId o) as [| |s3]; try discriminate T3.
  destruct (opt_agentName o) as [| |s4]; try discriminate T4.
  cbn [ToString].
  destruct (strip_trailing_slashes_spec s1) as (k & E & N).
  repeat split; try reflexivity.
  exists k. split; [congruence | exact N].
Qed.


(** X2. A constructor that throws leaves the object as [new] made it, with no
    field assigned. It reads ESIGN_AGENT_TRUST_PATH and loads the esign module
    only once its four options passed the guard; when the module does not
    load, the SDK object is never constructed and the error is a new [Error]
    naming the package reference and the original message. *)
Theorem failed_construction_assigns_nothing (O : Oracle W) (o : ClientOptions) (w : W) :
  let r := new_TrustbookEsignClient O o w in
  (forall e, outcome r = Abrupt e -> receiver r = blank)
  /\ (forall name v, (name, v) ∈ env_reads (trace r) ->
        name = "ESIGN_AGENT_TRUST_PATH"
        /\ Forall (fun x => truthy x = true)
             [opt_baseUrl o; opt_apiKey o; opt_agentId o; opt_agentName o])
  /\ (forall ref e, (ref, Abrupt e) ∈ module_loads (trace r) ->
        sdk_constructions (trace r) = []
        /\ outcome r = Abrupt (module_load_error ref e)
        /\ exists env, env_reads (trace r) = [("ESIGN_AGENT_TRUST_PATH", env)]
                       /\ ref = ToString (js_or env (VStr (lit "esign-agent-trust")))).
Proof.
  intros r. subst r.
  destruct (constructor_cases O o w)
    as [(v & _ & _ & T & R & E)
       | (F & env & [(e & T & R & E) | [(e & T & R & E) | (T & E & R)]])];
    rewrite T, E; cbn [env_reads module_loads sdk_constructions omap env_read
                        module_load sdk_construction mbind option_bind].
  - split; [auto|]. split; intros ? ? Hin; apply elem_of_nil in Hin; contradiction.
  - split; [auto|]. split.
    + intros name v Hin. apply list_elem_of_singleton in Hin.
      injection Hin as -> ->. auto.
    + intros ref e' Hin. apply list_elem_of_singleton in Hin.
      injection Hin as -> ->. eauto.
  - split; [auto|]. split.
    + intros name v Hin. apply list_elem_of_singleton in Hin.
      injection Hin as -> ->. auto.
    + intros ref e' Hin. apply list_elem_of_singleton in Hin. discriminate Hin.
  - split; [discriminate|]. split.
    + intros name v Hin. apply list_elem_of_singleton in Hin.
      injection Hin as -> ->. auto.
    + intros ref e' Hin. apply list_elem_of_singleton in Hin. discriminate Hin.
Qed.

End Construction.

(* ===================================================================== *)
(** * 19. More about a call of [request] *)
(* ===================================================================== *)

Section RequestMore.
Context {host : Host} {W : Type}.

Ltac reduce :=
  cbn -[sha256Base64 Buffer_from_utf8 Number_toString lit request_headers
        buildMb2Message strip_trailing_slashes] in *.

(** One step of a run: the next answer of the world, or the next test. *)
Ltac step O :=
  first
  [ match goal with
    | |- context [O ?X ?q ?w] =>
        is_var w;
        let a := fresh "answer" in let w' := fresh "w" in
        destruct (O X q w) as [a w'] eqn:?
    end
  | match goal with
    | |- context [lift (buildMb2Message ?i)] =>
        let B := fresh "B" in
        destruct (buildMb2Message i) eqn:B;
        [|rewrite buildMb2Message_strings in B; discriminate B]
    end
  | match goal with
    | |- context [lift ?x] => destruct x eqn:?
    end
  | match goal with
    | |- context [if negb ?b then _ else _] => destruct b eqn:?
    end ]; reduce.

Ltac explore O c b :=
  unfold request; reduce;
  destruct (loaded c) eqn:?; reduce;
  repeat (first [ step O
                | match goal with
                  | |- context [match b with Some _ => _ | None => _ end] =>
                      destruct b; reduce
                  end ]).

(** X3. A call of [request] asks the SDK to load the identity exactly when the
    client has not loaded it yet, and once; the client is marked as loaded as
    soon as the SDK answers true, whatever happens later in the call, and is
    otherwise left as it was. So the calls that follow a successful load never
    load again, and a call that follows a refused load tries again. *)
Theorem identity_loaded_at_most_once
    (O : Oracle W) (c : Client) (w : W) (m p : jsstring) (b : option Value) :
  let r := exec O (request m p b) c w in
  (loaded c = true -> load_calls (trace r) = [] /\ receiver r = c)
  /\ (loaded c = false ->
      exists answer,
        load_calls (trace r) = [(agentId c, answer)]
        /\ receiver r = match answer with
                        | Normal true => set_loaded true c
                        | _ => c
                        end)
  /\ (loaded (receiver r) = true ->
      forall m' p' b',
        load_calls (trace (exec O (request m' p' b') (receiver r) (world r))) = []).
Proof.
  assert (Hloaded : forall c' w' m' p' b',
            loaded c' = true ->
            load_calls (trace (exec O (request m' p' b') c' w')) = []
            /\ receiver (exec O (request m' p' b') c' w') = c').
  { intros c' w' m' p' b' L. explore O c' b'; try discriminate; auto. }
  intros r. split; [apply Hloaded|]. split.
  - intros L. subst r. explore O c b; try discriminate; eauto.
  - intros L m' p' b'. apply Hloaded. exact L.
Qed.


(** X4. Once [fetch] has answered, the response decides how [request] ends:
    a rejection of [fetch] or of [response.text()] is thrown on unchanged; an
    ok response returns the parsed body, and [null] when the body is empty or
    is not JSON (never a SyntaxError); a response that is not ok throws an
    [Error] whose message is the method, a space, the path, " 失败: " and the
    detail. *)
Theorem response_decides_outcome
    (O : Oracle W) (c : Client) (w : W) (m p : jsstring) (b : option Value) :
  let r := exec O (request m p b) c w in
  forall req answer, (req, answer) ∈ fetch_calls (trace r) ->
    match answer with
    | Abrupt e => outcome r = Abrupt e
    | Normal resp =>
        match text resp with
        | Abrupt e => outcome r = Abrupt e
        | Normal t =>
            if ok resp then outcome r = Normal (parsed_body t)
            else outcome r
                 = Abrupt (JsError (m ++ lit " " ++ p ++ lit " 失败: "
                                    ++ failure_detail resp t))
        end
    end.
Proof.
  intros r req answer Hin. subst r. revert Hin.
  explore O c b; intros Hin;
    cbn [fetch_calls omap fetch_call mbind option_bind] in Hin;
    rewrite ?elem_of_cons, ?elem_of_nil in Hin;
    repeat match type of Hin with
    | _ \/ _ => destruct Hin as [Hin|Hin]
    | False => contradiction
    end;
    try discriminate Hin.
  all: injection Hin as -> ->.
  all: repeat match goal with H : _ = _ |- _ => rewrite H end.
  all: try reflexivity.
Qed.


Lemma request_headers_names (c : Client) (sr : SignResult) (t n : jsstring) (hb : bool)
    (k : string) :
  is_Some (request_headers c sr t n hb !! k) <->
  k ∈ "Authorization" :: signature_header_names
       ++ (if hb then ["Content-Type"] else []).
Proof.
  unfold request_headers, signature_header_names.
  destruct hb; rewrite ?lookup_insert_is_Some, lookup_empty, is_Some_alt;
    cbn [app]; rewrite ?elem_of_cons, elem_of_nil;
    intuition (subst; try congruence; auto 10).
Qed.

(** X5. A call of [request] hands at most one request to [fetch]. It goes to
    the base URL followed by the path, with the method exactly as passed (the
    upper-casing is applied to the signed line only) and with these headers
    and no other: Authorization "Bearer " and the API key, the four signature
    headers, the algorithm being the client's, and Content-Type
    application/json exactly when a body object was passed. *)
Theorem sent_request_shape
    (O : Oracle W) (c : Client) (w : W) (m p : jsstring) (b : option Value) :
  let r := exec O (request m p b) c w in
  (length (requests_sent (trace r)) <= 1)%nat
  /\ forall req, req ∈ requests_sent (trace r) ->
       url req = baseUrl c ++ p
       /\ http_method req = m
       /\ headers req !! "Authorization" = Some (lit "Bearer " ++ apiKey c)
       /\ headers req !! "X-MB-Signature-Alg" = Some (signatureAlg c)
       /\ headers req !! "Content-Type"
          = match b with Some _ => Some (lit "application/json") | None => None end
       /\ (forall k, is_Some (headers req !! k) <->
                     k ∈ "Authorization" :: signature_header_names
                          ++ match b with Some _ => ["Content-Type"] | None => [] end)
       /\ (is_Some (body req) <-> is_Some b)
       /\ exists t n d sr,
            sign_calls (trace r)
            = [([77; 66; 50; 10] ++ Buffer_from_utf8 t ++ [10] ++ Buffer_from_utf8 n ++ [10]
                ++ Buffer_from_utf8 (agentName c) ++ [10]
                ++ Buffer_from_utf8 (toUpperCase m) ++ [10]
                ++ Buffer_from_utf8 p ++ [10] ++ Buffer_from_utf8 d ++ [10],
                Normal sr)].
Proof.
  intros r. subst r.
  destruct (request_run_observed _ _ _ _ _ _ _ (request_runs O c w m p b))
    as [(_ & S & _) | (text & msg & B & M & _ & _ & _ & [(e & _ & S & _) | (sr & Sg & S)])];
    rewrite S; (split; [simpl; lia|]); intros req Hreq;
    try (apply elem_of_nil in Hreq; contradiction).
  apply list_elem_of_singleton in Hreq. subst req.
  unfold signed_request. cbn [url http_method headers body].
  split; [reflexivity|]. split; [reflexivity|].
  split; [unfold request_headers; destruct b; cbn [bool_decide]; simpl;
          by rewrite ?lookup_insert_ne, ?lookup_insert_eq by done|].
  split; [apply request_headers_lookup|].
  split; [unfold request_headers; destruct b; simpl;
          by rewrite ?lookup_insert_ne, ?lookup_insert_eq, ?lookup_empty by done|].
  split.
  { intros k. rewrite request_headers_names. destruct b; simpl; reflexivity. }
  split.
  { destruct b; split; intros [? ?]; try discriminate; eauto. }
  unfold signing_input in M. rewrite buildMb2Message_strings in M.
  injection M as <-. rewrite Sg. eauto.
Qed.

(** X6. When [JSON.stringify] throws on the body object or returns
    [undefined], the call ends in an exception before it reads the clock,
    draws a UUID, asks for a signature or calls [fetch]; on a client whose
    identity is loaded it makes no call at all, and throws what
    [JSON.stringify] threw, or a TypeError when it returned [undefined]. *)
Theorem unserialisable_body_stops_the_call
    (O : Oracle W) (c : Client) (w : W) (m p : jsstring) (v : Value) :
  let r := exec O (request m p (Some v)) c w in
  (forall t, JSON_stringify v <> Normal (Some t)) ->
  clock_reads (trace r) = [] /\ uuids_drawn (trace r) = []
  /\ sign_calls (trace r) = [] /\ fetch_calls (trace r) = []
  /\ (exists e, outcome r = Abrupt e)
  /\ (loaded c = true ->
      trace r = []
      /\ match JSON_stringify v with
         | Abrupt e => outcome r = Abrupt e
         | Normal _ => exists msg, outcome r = Abrupt (JsTypeError msg)
         end).
Proof.
  intros r Hbad. subst r.
  destruct (JSON_stringify v) as [[t|]|e] eqn:J; [exfalso; exact (Hbad t eq_refl)| |];
    unfold request; reduce; rewrite J; reduce;
    destruct (loaded c) eqn:L; reduce; repeat step O;
    repeat split; eauto; discriminate.
Qed.

End RequestMore.

(* ===================================================================== *)
(** * 20. The digest and the timestamp as lines of the message *)
(* ===================================================================== *)

Section DigestShape.

Import SHA256.

Lemma round_length st kw : length (round st kw) = length st.
Proof.
  unfold round.
  do 9 (destruct st as [|? st]; try reflexivity).
Qed.

Lemma rounds_length kws : forall st, length (fold_left round kws st) = length st.
Proof.
  induction kws as [|kw kws IH]; intros st; simpl; [reflexivity|].
  rewrite IH. apply round_length.
Qed.

Lemma compress_length h block : length (compress h block) = length h.
Proof.
  unfold compress. rewrite length_map, length_combine, rounds_length. lia.
Qed.

Lemma blocks_length blocks : forall h, length (fold_left compress blocks h) = length h.
Proof.
  induction blocks as [|bl blocks IH]; intros h; simpl; [reflexivity|].
  rewrite IH. apply compress_length.
Qed.

Lemma be_octets_length n x : length (be_octets n x) = n.
Proof.
  revert x. induction n as [|n IH]; intros x; simpl; [reflexivity|].
  rewrite length_app, IH. simpl. lia.
Qed.

Lemma words_octets_length ws : length (concat (List.map (be_octets 4) ws)) = (4 * length ws)%nat.
Proof.
  induction ws as [|x ws IH]; [reflexivity|].
  cbn [List.map concat]. rewrite length_app, be_octets_length, IH. simpl length. lia.
Qed.

(** A SHA-256 digest has thirty-two octets. *)
Lemma digest_length msg : length (digest msg) = 32%nat.
Proof.
  unfold digest. rewrite words_octets_length, blocks_length. reflexivity.
Qed.

Lemma be_octets_octets n : forall x, Forall octet (be_octets n x).
Proof.
  induction n as [|n IH]; intros x; cbn [be_octets]; [apply List.Forall_nil|].
  apply Forall_app. split; [apply IH|].
  apply List.Forall_cons; [|apply List.Forall_nil].
  unfold octet. Z.div_mod_to_equations. lia.
Qed.

Lemma words_octets ws : Forall octet (concat (List.map (be_octets 4) ws)).
Proof.
  induction ws as [|x ws IH]; cbn [List.map concat]; [apply List.Forall_nil|].
  apply Forall_app. split; [apply be_octets_octets | exact IH].
Qed.

Lemma digest_octets msg : Forall octet (digest msg).
Proof. unfold digest. apply words_octets. Qed.

Lemma sym_in_alphabet i : 0 <= i < 64 -> Base64.sym i ∈ Base64.alphabet.
Proof.
  intros Hi. unfold Base64.sym. apply list_elem_of_In, nth_In.
  change (length Base64.alphabet) with 64%nat. lia.
Qed.

Lemma base64_char_ascii u : base64_char u -> 0 <= u < 128 /\ u <> LF.
Proof.
  unfold base64_char, Base64.pad_sym, LF. intros [Hin| ->]; [|lia].
  apply list_elem_of_In in Hin. vm_compute in Hin.
  repeat (destruct Hin as [<-|Hin]; [lia|]). contradiction.
Qed.

Lemma encode_chars bs : Forall octet bs -> Forall base64_char (Base64.encode bs).
Proof.
  assert (Hpad : base64_char Base64.pad_sym) by (right; reflexivity).
  assert (Hsym : forall i, 0 <= i < 64 -> base64_char (Base64.sym i))
    by (intros i Hi; left; apply sym_in_alphabet, Hi).
  assert (H3 : forall n bs, (length bs <= n)%nat -> Forall octet bs ->
                            Forall base64_char (Base64.encode bs)).
  { unfold octet.
    induction n as [|n IH]; intros [|a [|b [|c rest]]] L F;
      cbn [Base64.encode]; simpl in L; try lia;
      repeat match goal with
      | H : Forall _ (_ :: _) |- _ => apply Forall_cons in H; destruct H
      end;
      repeat (apply List.Forall_cons;
              [first [exact Hpad | apply Hsym; Z.div_mod_to_equations; lia]|]);
      try apply List.Forall_nil.
    apply IH; [lia | assumption]. }
  intros F. exact (H3 (length bs) bs (le_n _) F).
Qed.

Lemma encode_length_32 bs :
  length bs = 32%nat ->
  length (Base64.encode bs) = 44%nat /\ last (Base64.encode bs) = Some 61.
Proof.
  intros L.
  do 33 (destruct bs as [|? bs]; try discriminate L).
  split; reflexivity.
Qed.

Lemma is_surrogate_ascii u :
  0 <= u < 128 -> is_high_surrogate u = false /\ is_low_surrogate u = false.
Proof.
  intros Hu. unfold is_high_surrogate, is_low_surrogate.
  split; apply andb_false_iff; left; apply Z.leb_gt; lia.
Qed.

(** The UTF-8 octets of ASCII text are its code units. *)
Lemma Buffer_from_utf8_ascii s : ascii_text s -> Buffer_from_utf8 s = s.
Proof.
  unfold ascii_text.
  induction s as [|u s IH]; intros F; [reflexivity|].
  apply Forall_cons in F. destruct F as [Hu F].
  cbn [Buffer_from_utf8].
  destruct (is_surrogate_ascii u Hu) as [-> ->].
  unfold utf8_of_code_point.
  replace (u <? 128) with true by (symmetry; apply Z.ltb_lt; lia).
  cbn [app]. f_equal. apply IH, F.
Qed.

Lemma ascii_one_line s : Forall (fun u => 0 <= u < 128 /\ u <> LF) s -> one_line s.
Proof.
  unfold one_line. intros F Hin.
  rewrite Forall_forall in F. destruct (F _ Hin) as [_ N]. congruence.
Qed.

End DigestShape.


(* ===================================================================== *)
(** * 21. The lines the client makes itself: the digest and the ts *)
(* ===================================================================== *)

Section OwnLines.

(** The digest text holds no line feed and is ASCII. *)
Lemma sha256Base64_digest_line (buf : buffer) :
  one_line (sha256Base64 buf) /\ ascii_text (sha256Base64 buf).
Proof.
  unfold sha256Base64.
  pose proof (encode_chars _ (digest_octets buf)) as F.
  assert (A : Forall (fun u => 0 <= u < 128 /\ u <> LF) (Base64.encode (SHA256.digest buf)))
    by (eapply Forall_impl; [exact F | exact base64_char_ascii]).
  split; [apply ascii_one_line, A|].
  eapply Forall_impl; [exact A | intros u [Hu _]; exact Hu].
Qed.

(** X7. Whatever the octets, [sha256Base64] returns forty-four characters of
    the base64 alphabet, the last one the padding [=]: the digest is
    thirty-two octets long. The text is ASCII without a line feed, so its
    UTF-8 octets are its characters and it fills exactly one line of the
    signed message. *)
Theorem sha256Base64_shape (buf : buffer) :
  length (sha256Base64 buf) = 44%nat
  /\ last (sha256Base64 buf) = Some 61
  /\ Forall base64_char (sha256Base64 buf)
  /\ one_line (sha256Base64 buf)
  /\ well_formed (sha256Base64 buf)
  /\ Buffer_from_utf8 (sha256Base64 buf) = sha256Base64 buf.
Proof.
  unfold sha256Base64.
  destruct (encode_length_32 (SHA256.digest buf) (digest_length buf)) as [L E].
  pose proof (encode_chars _ (digest_octets buf)) as F.
  assert (A : Forall (fun u => 0 <= u < 128 /\ u <> LF) (Base64.encode (SHA256.digest buf)))
    by (eapply Forall_impl; [exact F | exact base64_char_ascii]).
  assert (A' : ascii_text (Base64.encode (SHA256.digest buf)))
    by (eapply Forall_impl; [exact A | intros u [Hu _]; exact Hu]).
  repeat split; auto using ascii_one_line, well_formed_ascii, Buffer_from_utf8_ascii.
Qed.

Lemma octets_of_string_cons (a : ascii) (s : string) :
  octets_of_string (String a s) = Z.of_N (N_of_ascii a) :: octets_of_string s.
Proof. reflexivity. Qed.

Lemma octets_of_string_injective (s1 s2 : string) :
  octets_of_string s1 = octets_of_string s2 -> s1 = s2.
Proof.
  revert s2. induction s1 as [|a1 s1 IH]; intros [|a2 s2] E;
    rewrite ?octets_of_string_cons in E; try discriminate E; [reflexivity|].
  injection E as Ea Es. f_equal; [|apply IH, Es].
  apply N2Z.inj in Ea.
  rewrite <- (ascii_N_embedding a1), <- (ascii_N_embedding a2). congruence.
Qed.

Lemma utf16_of_utf8_ascii (bs : list Z) :
  Forall (fun b => b < 0xC0) bs -> utf16_of_utf8 bs = bs.
Proof.
  induction bs as [|b bs IH]; intros F; [reflexivity|].
  apply Forall_cons in F. destruct F as [Hb F].
  cbn [utf16_of_utf8].
  replace (b <? 192) with true by (symmetry; apply Z.ltb_lt; lia).
  f_equal. apply IH, F.
Qed.

Lemma string_of_uint_digits (d : Decimal.uint) :
  Forall decimal_digit (octets_of_string (NilEmpty.string_of_uint d)).
Proof.
  induction d; cbn [NilEmpty.string_of_uint]; rewrite ?octets_of_string_cons;
    [apply List.Forall_nil | apply List.Forall_cons; [vm_compute; split; discriminate | assumption] ..].
Qed.

Lemma string_of_uint_nonempty (d : Decimal.uint) :
  d <> Decimal.Nil -> octets_of_string (NilEmpty.string_of_uint d) <> [].
Proof. destruct d; intros N; [contradiction | discriminate ..]. Qed.

Lemma NilZero_string_of_uint_digits (d : Decimal.uint) :
  Forall decimal_digit (octets_of_string (NilZero.string_of_uint d))
  /\ octets_of_string (NilZero.string_of_uint d) <> [].
Proof.
  assert (E : d = Decimal.Nil
              \/ NilZero.string_of_uint d = NilEmpty.string_of_uint d /\ d <> Decimal.Nil).
  { destruct d; [left; reflexivity | right; split; [reflexivity | discriminate] ..]. }
  destruct E as [->|[-> N]].
  - change (octets_of_string (NilZero.string_of_uint Decimal.Nil)) with [48].
    split; [|discriminate].
    apply List.Forall_cons; [unfold decimal_digit; lia | apply List.Forall_nil].
  - split; [apply string_of_uint_digits | apply string_of_uint_nonempty, N].
Qed.

Lemma digits_below_C0 (ds : list Z) : Forall decimal_digit ds -> Forall (fun b => b < 0xC0) ds.
Proof. intros F. eapply Forall_impl; [exact F|]. unfold decimal_digit. intros; lia. Qed.

(** [String(n)] writes an integer in decimal. *)
Lemma Number_toString_numeral (n : Z) : decimal_numeral (n <? 0) (Number_toString n).
Proof.
  unfold Number_toString, lit, decimal_numeral.
  destruct n as [|q|q]; cbn [Z.ltb Z.compare Z.to_int NilZero.string_of_int].
  - exists [48]. split; [reflexivity|]. split; [discriminate|].
    apply List.Forall_cons; [unfold decimal_digit; lia | apply List.Forall_nil].
  - destruct (NilZero_string_of_uint_digits (Pos.to_uint q)) as [F N].
    exists (octets_of_string (NilZero.string_of_uint (Pos.to_uint q))).
    split; [apply utf16_of_utf8_ascii, digits_below_C0, F | auto].
  - destruct (NilZero_string_of_uint_digits (Pos.to_uint q)) as [F N].
    exists (octets_of_string (NilZero.string_of_uint (Pos.to_uint q))).
    split; [|auto].
    rewrite octets_of_string_cons. apply utf16_of_utf8_ascii.
    apply List.Forall_cons; [vm_compute; reflexivity | apply digits_below_C0, F].
Qed.

Lemma Number_toString_ascii (n : Z) :
  Forall (fun u => 0 <= u < 128 /\ u <> LF) (Number_toString n).
Proof.
  destruct (Number_toString_numeral n) as (ds & -> & _ & F).
  apply Forall_app. split.
  - destruct (n <? 0); repeat constructor; unfold LF; lia.
  - eapply Forall_impl; [exact F|]. unfold decimal_digit, LF. intros; lia.
Qed.

(** Two integers with the same decimal text are equal. *)
Lemma Number_toString_injective (n1 n2 : Z) :
  Number_toString n1 = Number_toString n2 -> n1 = n2.
Proof.
  assert (Hlit : forall n, lit (NilZero.string_of_int (Z.to_int n))
                           = octets_of_string (NilZero.string_of_int (Z.to_int n))).
  { intros n. pose proof (Number_toString_ascii n) as F.
    unfold Number_toString, lit in *.
    destruct (Number_toString_numeral n) as (ds & E & _ & D).
    unfold Number_toString, lit in E.
    destruct n as [|q|q]; cbn [Z.to_int NilZero.string_of_int] in *.
    - reflexivity.
    - destruct (NilZero_string_of_uint_digits (Pos.to_uint q)) as [G _].
      apply utf16_of_utf8_ascii, digits_below_C0, G.
    - destruct (NilZero_string_of_uint_digits (Pos.to_uint q)) as [G _].
      rewrite octets_of_string_cons. apply utf16_of_utf8_ascii.
      apply List.Forall_cons; [vm_compute; reflexivity | apply digits_below_C0, G]. }
  assert (Hisi : forall n, NilZero.int_of_string (NilZero.string_of_int (Z.to_int n))
                           = Some (Z.to_int n)).
  { intros n. apply NilZero.isi; destruct n as [|q|q]; cbn [Z.to_int];
      try discriminate; intros E; injection E as E;
      exact (Unsigned.to_uint_nonnil q E). }
  unfold Number_toString. rewrite !Hlit. intros E.
  apply octets_of_string_injective in E.
  apply to_int_inj.
  pose proof (Hisi n1) as H1. rewrite E, Hisi in H1. congruence.
Qed.

End OwnLines.

(* ===================================================================== *)
(** * 22. The ts header and the lines of a signed message *)
(* ===================================================================== *)

Section SignedLines.
Context {host : Host} {W : Type}.

Lemma count_LF_utf8 (s : jsstring) :
  one_line s -> count_occ Z.eq_dec (Buffer_from_utf8 s) LF = 0%nat.
Proof.
  intros H. apply count_occ_not_In. intros Hin.
  apply (one_line_utf8 s H). apply list_elem_of_In. exact Hin.
Qed.

Lemma count_LF_line (s : jsstring) (rest : buffer) :
  one_line s ->
  count_occ Z.eq_dec (Buffer_from_utf8 s ++ LF :: rest) LF
  = S (count_occ Z.eq_dec rest LF).
Proof.
  intros H. rewrite count_occ_app, count_LF_utf8 by exact H.
  rewrite count_occ_cons_eq by reflexivity. reflexivity.
Qed.

(** X8. The X-MB-Signature-Ts header of a request that was sent is the
    decimal numeral of the seconds of the one clock reading of the call
    (digits only, after a minus sign before 1970), and it determines that
    second: another clock reading gives the same text exactly when it falls
    in the same second. *)
Theorem ts_header_is_the_second_of_the_clock
    (O : Oracle W) (c : Client) (w : W) (m p : jsstring) (b : option Value) :
  let r := exec O (request m p b) c w in
  forall req, req ∈ requests_sent (trace r) ->
  exists now t,
    clock_reads (trace r) = [now]
    /\ headers req !! "X-MB-Signature-Ts" = Some t
    /\ decimal_numeral (now <? 0) t
    /\ forall now', Number_toString (now' / 1000) = t <-> now' / 1000 = now / 1000.
Proof.
  intros r req Hreq. subst r.
  destruct (request_run_observed _ _ _ _ _ _ _ (request_runs O c w m p b))
    as [(_ & S & _) | (text & msg & B & M & C & U & _ & [(e & _ & S & _) | (sr & Sg & S)])];
    rewrite S in Hreq; try (apply elem_of_nil in Hreq; contradiction).
  apply list_elem_of_singleton in Hreq. subst req.
  exists (clock_at_signing O c w), (Number_toString (clock_at_signing O c w / 1000)).
  split; [exact C|]. split; [unfold signed_request; cbn [headers]; apply request_headers_lookup|].
  split.
  - replace (clock_at_signing O c w <? 0) with (clock_at_signing O c w / 1000 <? 0);
      [apply Number_toString_numeral|].
    destruct (Z.ltb_spec (clock_at_signing O c w) 0);
      [apply Z.ltb_lt | apply Z.ltb_ge]; Z.div_mod_to_equations; lia.
  - intros now'. split; [apply Number_toString_injective | intros ->; reflexivity].
Qed.

(** X9. When the agent name, the upper-cased method, the path and the UUID
    hold no line feed, a message the client signs has exactly seven line
    feeds: the ts and the digest the client makes itself never add one. *)
Theorem signed_message_has_seven_lines
    (O : Oracle W) (c : Client) (w : W) (m p : jsstring) (b : option Value) :
  let r := exec O (request m p b) c w in
  one_line (agentName c) -> one_line (toUpperCase m) -> one_line p ->
  Forall one_line (uuids_drawn (trace r)) ->
  forall msg answer, (msg, answer) ∈ sign_calls (trace r) ->
    count_occ Z.eq_dec msg LF = 7%nat.
Proof.
  intros r Ha Hm Hp Hu msg answer Hin. subst r.
  destruct (request_run_observed _ _ _ _ _ _ _ (request_runs O c w m p b))
    as [(S & _) | (text & msg' & B & M & C & U & _ & [(e & S & _) | (sr & S & _)])];
    rewrite S in Hin; try (apply elem_of_nil in Hin; contradiction);
    apply list_elem_of_singleton in Hin; injection Hin as -> _;
    rewrite U in Hu; apply Forall_cons in Hu; destruct Hu as [Hu _];
    unfold signing_input in M; rewrite buildMb2Message_strings in M;
    injection M as <-;
    pose proof (Number_toString_ascii (clock_at_signing O c w / 1000)) as Ht;
    apply ascii_one_line in Ht;
    destruct (sha256Base64_digest_line (Buffer_from_utf8 text)) as [Hd _];
    do 3 rewrite count_occ_cons_neq by (unfold LF; discriminate);
    rewrite count_occ_cons_eq by reflexivity;
    rewrite !count_LF_line by assumption; reflexivity.
Qed.

End SignedLines.

(* ===================================================================== *)
(** * 23. Unsigned requests *)
(* ===================================================================== *)

Section UnsignedRequests.
Context {host : Host} {W : Type}.

Ltac reduce :=
  cbn -[sha256Base64 Buffer_from_utf8 Number_toString lit request_headers
        buildMb2Message strip_trailing_slashes] in *.

Ltac step O :=
  first
  [ match goal with
    | |- context [O ?X ?q ?w] =>
        is_var w;
        let a := fresh "answer" in let w' := fresh "w" in
        destruct (O X q w) as [a w'] eqn:?
    end
  | match goal with
    | |- context [lift (buildMb2Message ?i)] =>
        let B := fresh "B" in
        destruct (buildMb2Message i) eqn:B;
        [|rewrite buildMb2Message_strings in B; discriminate B]
    end
  | match goal with
    | |- context [lift ?x] => destruct x eqn:?
    end
  | match goal with
    | |- context [if negb ?b then _ else _] => destruct b eqn:?
    end ]; reduce.

(** The request [rawApiRequest] hands to [fetch], when it gets that far. *)
Lemma rawApiRequest_runs (O : Oracle W) (a : RawApiRequest) (c : Client) (w : W) :
  let r := exec O (rawApiRequest a) c w in
  receiver r = c
  /\ ((trace r = [] /\ exists e, outcome r = Abrupt e)
      \/ exists s answer,
           raw_baseUrl a = VStr s
           /\ match raw_bodyObject a with
              | None => True
              | Some v => exists t, JSON_stringify v = Normal t
              end
           /\ trace r
              = [Ev (Fetch
                   {| url := strip_trailing_slashes s ++ raw_apiPath a;
                      http_method := raw_method a;
                      headers := match raw_bodyObject a with
                                 | Some _ => <["Content-Type" := lit "application/json"]>
                                               (default ∅ (raw_headers a))
                                 | None => default ∅ (raw_headers a)
                                 end;
                      body := match raw_bodyObject a with
                              | None => None
                              | Some v => match JSON_stringify v with
                                          | Normal t => t
                                          | Abrupt _ => None
                                          end
                              end |}) answer]
           /\ outcome r = response_outcome (raw_method a) (raw_apiPath a) answer).
Proof.
  intros r. subst r. unfold rawApiRequest.
  destruct (raw_bodyObject a) as [v|]; reduce.
  - destruct (JSON_stringify v) as [t|e] eqn:J; reduce; [|split; [reflexivity|]; left; eauto].
    destruct (raw_baseUrl a) as [| |s] eqn:Eb; reduce;
      try (split; [reflexivity|]; left; eauto; fail).
    step O. split; [repeat step O; reflexivity|].
    right. exists s, answer. split; [reflexivity|]. split; [eauto|].
    repeat step O; split; reflexivity.
  - destruct (raw_baseUrl a) as [| |s] eqn:Eb; reduce;
      try (split; [reflexivity|]; left; eauto; fail).
    step O. split; [repeat step O; reflexivity|].
    right. exists s, answer. split; [reflexivity|]. split; [exact I|].
    repeat step O; split; reflexivity.
Qed.

Lemma request_after_fetch
    (O : Oracle W) (c : Client) (w : W) (m p : jsstring) (b : option Value) :
  let r := exec O (request m p b) c w in
  forall req answer, (req, answer) ∈ fetch_calls (trace r) ->
    outcome r = response_outcome m p answer.
Proof.
  intros r req answer Hin. subst r. revert Hin.
  unfold request; reduce;
  destruct (loaded c) eqn:?; reduce;
  repeat (first [ step O
                | match goal with
                  | |- context [match b with Some _ => _ | None => _ end] =>
                      destruct b; reduce
                  end ]);
  intros Hin;
    cbn [fetch_calls omap fetch_call mbind option_bind] in Hin;
    rewrite ?elem_of_cons, ?elem_of_nil in Hin;
    repeat match type of Hin with
    | _ \/ _ => destruct Hin as [Hin|Hin]
    | False => contradiction
    end;
    try discriminate Hin.
  all: injection Hin as -> ->.
  all: unfold response_outcome.
  all: repeat match goal with H : _ = _ |- _ => rewrite H end.
  all: try reflexivity.
Qed.

(** X10. [rawApiRequest] calls nothing but [fetch], once at most: it never
    loads the identity, reads the clock, draws a UUID or asks for a
    signature. The request goes to the base URL without its trailing slashes
    followed by the path, with the caller's headers and no other, except
    Content-Type application/json, set (over the caller's) exactly when a
    body object was passed; its body is what [JSON.stringify] returned, so a
    body object that stringifies to [undefined] goes out with the
    Content-Type and no body. *)
Theorem rawApiRequest_is_unsigned
    (O : Oracle W) (a : RawApiRequest) (c : Client) (w : W) :
  let r := exec O (rawApiRequest a) c w in
  receiver r = c
  /\ load_calls (trace r) = [] /\ clock_reads (trace r) = []
  /\ uuids_drawn (trace r) = [] /\ sign_calls (trace r) = []
  /\ (length (trace r) <= 1)%nat
  /\ forall req, req ∈ requests_sent (trace r) ->
       (exists s, raw_baseUrl a = VStr s
                  /\ url req = strip_trailing_slashes s ++ raw_apiPath a)
       /\ http_method req = raw_method a
       /\ (forall k, k <> "Content-Type" ->
                     headers req !! k = default ∅ (raw_headers a) !! k)
       /\ match raw_bodyObject a with
          | Some v => headers req !! "Content-Type" = Some (lit "application/json")
                      /\ JSON_stringify v = Normal (body req)
          | None => headers req !! "Content-Type"
                      = default ∅ (raw_headers a) !! "Content-Type"
                    /\ body req = None
          end.
Proof.
  intros r. subst r.
  destruct (rawApiRequest_runs O a c w)
    as [R [(T & _) | (s & answer & Eb & J & T & _)]]; rewrite T.
  - split; [exact R|]. do 4 (split; [reflexivity|]). split; [simpl; lia|].
    intros req Hin. apply elem_of_nil in Hin. contradiction.
  - split; [exact R|]. do 4 (split; [reflexivity|]). split; [simpl; lia|].
    intros req Hin. apply list_elem_of_singleton in Hin. subst req.
    cbn [url http_method headers body].
    split; [eauto|]. split; [reflexivity|].
    destruct (raw_bodyObject a) as [v|].
    + destruct J as [t J]. rewrite J.
      split; [intros k Hk; apply lookup_insert_ne; congruence|].
      split; [apply lookup_insert_eq | reflexivity].
    + auto.
Qed.

(** X11. [request] and [rawApiRequest] read a response in the same way: called
    with the same method and path, they end alike on the same answer of
    [fetch], be it a rejection, an ok response or an error status. *)
Theorem signed_and_unsigned_read_responses_alike
    (O O' : Oracle W) (c c' : Client) (w w' : W) (m p : jsstring) (b : option Value)
    (a : RawApiRequest) :
  let r := exec O (request m p b) c w in
  let r' := exec O' (rawApiRequest a) c' w' in
  raw_method a = m -> raw_apiPath a = p ->
  forall req req' answer,
    (req, answer) ∈ fetch_calls (trace r) ->
    (req', answer) ∈ fetch_calls (trace r') ->
    outcome r = outcome r'.
Proof.
  intros r r' Em Ep req req' answer Hin Hin'. subst r r'.
  rewrite (request_after_fetch O c w m p b req answer Hin).
  destruct (rawApiRequest_runs O' a c' w')
    as [_ [(T & _) | (s & answer' & _ & _ & T & E)]]; rewrite T in Hin'.
  - apply elem_of_nil in Hin'. contradiction.
  - apply list_elem_of_singleton in Hin'. injection Hin' as _ ->.
    rewrite E, Em, Ep. reflexivity.
Qed.

End UnsignedRequests.

(* ===================================================================== *)
(** * 24. Posts and comments *)
(* ===================================================================== *)

Section PostsAndComments.
Context {host : Host} {literals : Literals} {W : Type}.

Lemma request_with_body_is_signed
    (O : Oracle W) (c : Client) (w : W) (m p : jsstring) (v : Value) :
  let r := exec O (request m p (Some v)) c w in
  forall req, req ∈ requests_sent (trace r) -> signed_with_body c (trace r) req m p v.
Proof.
  intros r req Hreq. subst r.
  destruct (request_run_observed _ _ _ _ _ _ _ (request_runs O c w m p (Some v)))
    as [(_ & S & _) | (text & msg & B & M & _ & _ & _ & [(e & _ & S & _) | (sr & Sg & S)])];
    rewrite S in Hreq; try (apply elem_of_nil in Hreq; contradiction).
  apply list_elem_of_singleton in Hreq. subst req.
  unfold signed_with_body, signed_request. cbn [url http_method headers body].
  split; [reflexivity|]. split; [reflexivity|].
  split; [unfold request_headers; simpl; by rewrite ?lookup_insert_ne, ?lookup_insert_eq by done|].
  unfold signing_input in M. rewrite buildMb2Message_strings in M. injection M as <-.
  cbn [body_text] in B.
  destruct (request_headers_lookup c sr
              (Number_toString (clock_at_signing O c w / 1000))
              (uuid_at_signing O c w) (bool_decide (is_Some (Some v))))
    as (H1 & _ & H3 & H4).
  exists text, (Number_toString (clock_at_signing O c w / 1000)), (uuid_at_signing O c w), sr.
  rewrite Sg. auto 10.
Qed.

(** X12. [createPost] and [createComment] are signed POST requests. A post
    goes to /api/v1/projects/<projectId>/posts with the object of its title,
    content, type and tags, the type being "discussion" and the tags the
    empty array unless given; a comment goes to /api/v1/posts/<postId>/comments
    with its content and parent_id, which is [null] whenever the parent passed
    is falsy. The identifier is put into the path as it is (an absent one as
    the text undefined or null), and that path is the one signed. *)
Theorem posts_and_comments_are_signed_posts
    (O : Oracle W) (c : Client) (w : W) (projectId postId : jsval) (f : PostFields)
    (content parentId : Value) :
  let r1 := exec O (createPost projectId f) c w in
  let r2 := exec O (createComment postId content parentId) c w in
  (forall req, req ∈ requests_sent (trace r1) ->
     signed_with_body c (trace r1) req (lit "POST")
       (lit "/api/v1/projects/" ++ ToString projectId ++ lit "/posts")
       (object_literal
          [("title", post_title f); ("content", post_content f);
           ("type", default (string_value (lit "discussion")) (post_type f));
           ("tags", default (array_literal []) (post_tags f))]))
  /\ (forall req, req ∈ requests_sent (trace r2) ->
        signed_with_body c (trace r2) req (lit "POST")
          (lit "/api/v1/posts/" ++ ToString postId ++ lit "/comments")
          (object_literal
             [("content", content);
              ("parent_id", if ToBoolean parentId then parentId else null_value)])).
Proof.
  intros r1 r2. split; intros req Hreq.
  - exact (request_with_body_is_signed O c w _ _ _ req Hreq).
  - exact (request_with_body_is_signed O c w _ _ _ req Hreq).
Qed.

End PostsAndComments.

(* ===================================================================== *)
(** * 26. Runs of the command-line part *)
(* ===================================================================== *)

Section CliRuns.
Context {host : Host} {literals : Literals} {runtime : Runtime} {W : Type}.

(** A run of [p] followed by [f]: the run of [p], then that of [f] on its
    result when it returns one. *)
Lemma run_bind {A B : Type} (O : CliOracle W) (p : Script A) (f : A -> Script B) :
  forall w,
    run O (script_bind p f) w
    = match ending_of (run O p w) with
      | Returns a =>
          let r' := run O (f a) (world_of (run O p w)) in
          {| ending_of := ending_of r'; world_of := world_of r';
             events := events (run O p w) ++ events r' |}
      | Rejects e =>
          {| ending_of := Rejects e; world_of := world_of (run O p w);
             events := events (run O p w) |}
      | ExitsWith code =>
          {| ending_of := ExitsWith code; world_of := world_of (run O p w);
             events := events (run O p w) |}
      | LeavesModel =>
          {| ending_of := LeavesModel; world_of := world_of (run O p w);
             events := events (run O p w) |}
      end.
Proof.
  induction p as [a|e|code| |X c k IH]; intros w; cbn [script_bind run ending_of world_of events].
  - destruct (run O (f a) w); reflexivity.
  - reflexivity.
  - reflexivity.
  - reflexivity.
  - destruct (O X c w) as [x w']. rewrite IH.
    cbn [ending_of world_of events].
    destruct (ending_of (run O (k x) w')); reflexivity.
Qed.

(** A method run from the command line makes the calls it makes on its own,
    and ends in the same way. *)
Lemma run_method_exec {A : Type} (O : CliOracle W) (p : Prog A) :
  forall c w,
    ending_of (run O (run_method p c) w)
    = match outcome (exec (lib_oracle O) p c w) with
      | Normal a => Returns (a, receiver (exec (lib_oracle O) p c w))
      | Abrupt e => Rejects e
      end
    /\ world_of (run O (run_method p c) w) = world (exec (lib_oracle O) p c w)
    /\ events (run O (run_method p c) w) = of_lib <$> trace (exec (lib_oracle O) p c w).
Proof.
  induction p as [a|e|X q k IH|k IH|g k IH]; intros c w;
    cbn [run_method run exec ending_of world_of events outcome receiver world trace].
  - auto.
  - auto.
  - change (lib_oracle O X q w) with (O X (Lib q) w).
    destruct (O X (Lib q) w) as [x w'].
    destruct (IH x c w') as (E1 & E2 & E3).
    cbn [ending_of world_of events logged outcome receiver world trace fmap list_fmap of_lib].
    rewrite E1, E2, E3. auto.
  - apply IH.
  - apply IH.
Qed.

Lemma run_function_exec {A : Type} (O : CliOracle W) (p : Prog A) (w : W) :
  ending_of (run O (run_function p) w)
  = match outcome (exec (lib_oracle O) p blank w) with
    | Normal a => Returns a
    | Abrupt e => Rejects e
    end
  /\ world_of (run O (run_function p) w) = world (exec (lib_oracle O) p blank w)
  /\ events (run O (run_function p) w) = of_lib <$> trace (exec (lib_oracle O) p blank w).
Proof.
  unfold run_function. change (mbind ?f ?p) with (script_bind p f).
  rewrite run_bind.
  destruct (run_method_exec O p blank w) as (E1 & E2 & E3).
  rewrite E1. destruct (outcome (exec (lib_oracle O) p blank w)) as [a|e];
    cbn [run ending_of world_of events]; rewrite ?app_nil_r; auto.
Qed.

Lemma lib_events_of_lib (tr : list event) : lib_events (of_lib <$> tr) = tr.
Proof.
  induction tr as [|[X q x] tr IH]; [reflexivity|].
  change (lib_events (of_lib <$> Ev q x :: tr)) with (Ev q x :: lib_events (of_lib <$> tr)).
  rewrite IH. reflexivity.
Qed.

Lemma lib_events_app (a b : list cli_event) :
  lib_events (a ++ b) = lib_events a ++ lib_events b.
Proof. apply omap_app. Qed.

End CliRuns.

(* ===================================================================== *)
(** * 27. Key generation *)
(* ===================================================================== *)

Section KeyGeneration.
Context {host : Host} {literals : Literals} {runtime : Runtime} {W : Type}.

Ltac reduce :=
  cbn -[sha256Base64 Buffer_from_utf8 Number_toString lit request_headers
        buildMb2Message strip_trailing_slashes usage] in *.

(** One step of a run: the next answer of the world, or the next test. *)
Ltac step O :=
  first
  [ match goal with
    | |- context [O ?X ?q ?w] =>
        is_var w;
        let a := fresh "answer" in let w' := fresh "w" in
        destruct (O X q w) as [a w'] eqn:?
    end
  | match goal with
    | |- context [settle ?x] => is_var x; destruct x
    end
  | match goal with
    | |- context [lift ?x] => is_var x; destruct x
    end
  | match goal with
    | |- context [match ?x with Normal _ => _ | Abrupt _ => _ end] => is_var x; destruct x
    end
  | match goal with
    | |- context [if negb (ToBoolean ?b) then _ else _] => destruct (ToBoolean b) eqn:?
    end ]; reduce.

Ltac members :=
  repeat match goal with
  | H : _ ∈ [] |- _ => apply elem_of_nil in H; contradiction
  | H : _ ∈ [_] |- _ => apply list_elem_of_singleton in H
  | H : (_, _) = (_, _) |- _ => injection H as ? ?; subst
  end.

(** X13. [generateAndStoreKeyPairWithEsign] never calls [fetch]. Without a
    local id it throws before any call. It asks the key manager whether the
    private key is there only after [savePrivateKey] returned for the same
    id, and it returns a key pair only when that answer is truthy: a throw
    of [hasPrivateKey] is passed on, a falsy answer throws an [Error] naming
    the keystore account. The keystore service reported is that of the
    configuration, and esign-agent-trust when it has none. *)
Theorem key_pair_is_reported_only_when_stored
    (O : CliOracle W) (keySize : Value) (localId : jsval) (cfg : SdkConfig) (w : W) :
  let r := run O (generateAndStoreKeyPairWithEsign keySize localId cfg) w in
  requests_sent (lib_events (events r)) = []
  /\ (truthy localId = false ->
      events r = [] /\ ending_of r = Rejects (JsError (lit "localId 不能为空")))
  /\ (forall id answer, (id, answer) ∈ keys_checked (events r) ->
      localId = VStr id
      /\ keys_saved (events r) = [(id, Normal tt)]
      /\ keys_checked (events r) = [(id, answer)]
      /\ match answer with
         | Abrupt e => ending_of r = Rejects e
         | Normal has =>
             if ToBoolean has then
               exists pk,
                 ending_of r
                 = Returns {| publicKey := pk; hasPrivateKey := has;
                              gen_keystoreService :=
                                ToString (js_or (keystoreService cfg)
                                                (VStr (lit "esign-agent-trust"))) |}
             else
               ending_of r
               = Rejects (JsError (lit "私钥保存失败（keystore account: " ++ id ++ lit "）"))
         end)
  /\ (forall g, ending_of r = Returns g ->
      ToBoolean (hasPrivateKey g) = true
      /\ exists id, keys_checked (events r) = [(id, Normal (hasPrivateKey g))]).
Proof.
  intros r. subst r. unfold generateAndStoreKeyPairWithEsign.
  destruct localId as [| |[|u id]]; reduce;
    try (split; [reflexivity|]; split; [auto|]; split;
         [intros ? ? Hin; members | intros ? Hg; discriminate Hg]).
  repeat step O.
  all: split; [reflexivity|]; split; [discriminate|]; split;
    [ intros ? ? Hin; members;
      repeat match goal with H : ToBoolean _ = _ |- _ => rewrite H end;
      repeat match goal with x : unit |- _ => destruct x end; eauto 10
    | intros g Hg; try discriminate Hg; injection Hg as <-; reduce; eauto ].
Qed.

End KeyGeneration.

(* ===================================================================== *)
(** * 28. Binding the identity *)
(* ===================================================================== *)

Section IdentityBinding.
Context {host : Host} {literals : Literals} {runtime : Runtime} {W : Type}.

Ltac reduce :=
  cbn -[sha256Base64 Buffer_from_utf8 Number_toString lit request_headers
        buildMb2Message strip_trailing_slashes usage request] in *.

Ltac step O :=
  first
  [ match goal with
    | |- context [O ?X ?q ?w] =>
        is_var w;
        let a := fresh "answer" in let w' := fresh "w" in
        destruct (O X q w) as [a w'] eqn:?
    end
  | match goal with
    | |- context [settle ?x] => is_var x; destruct x
    end
  | match goal with
    | |- context [settle (get_property ?v ?n)] =>
        let G := fresh "G" in destruct (get_property v n) eqn:G
    end
  | match goal with
    | |- context [lift ?x] => is_var x; destruct x
    end
  | match goal with
    | |- context [(if negb ?b then _ else _)] => is_var b; destruct b
    end ]; reduce.

(** A request on a client whose identity is loaded does not load it again. *)
Lemma loaded_request_never_loads
    (O : Oracle W) (c : Client) (w : W) (m p : jsstring) (b : option Value) :
  loaded c = true -> load_calls (trace (exec O (request m p b) c w)) = [].
Proof.
  intros L.
  destruct (request_runs O c w m p b)
    as [answer e L' _ _ _ | e T _ | text msg e _ _ T _ | text msg sr answer _ _ T];
    [congruence | rewrite T; unfold load_events; rewrite L; reflexivity ..].
Qed.

(** X14. [bindIdentityToTrustbook] reads the credentials of the SDK once at
    most, and only when the identity is loaded: a load that fails or is
    refused ends the call first. Whatever it sends is a signed PUT to
    /api/v1/agents/me/identity whose body is the object of the certificate
    and the public key of those credentials. *)
Theorem identity_is_bound_with_the_credentials_of_the_sdk
    (O : CliOracle W) (c : Client) (w : W) :
  let r := run O (bindIdentityToTrustbook c) w in
  (length (credentials_reads (events r)) <= 1)%nat
  /\ (credentials_reads (events r) <> [] ->
      load_calls (lib_events (events r))
      = if loaded c then [] else [(agentId c, Normal true)])
  /\ forall req, req ∈ requests_sent (lib_events (events r)) ->
       exists credentials certificate publicKey,
         credentials_reads (events r) = [Normal credentials]
         /\ get_property credentials "certificate" = Normal certificate
         /\ get_property credentials "publicKey" = Normal publicKey
         /\ signed_with_body c (lib_events (events r)) req (lit "PUT")
              (lit "/api/v1/agents/me/identity")
              (object_literal [("certificate_pem", certificate);
                               ("public_key_pem", publicKey)]).
Proof.
  assert (Hsent : forall (c1 : Client) (w1 : W) (pre : list event) (v : Value) req,
            baseUrl c1 = baseUrl c -> agentName c1 = agentName c ->
            sign_calls pre = [] -> requests_sent pre = [] ->
            req ∈ requests_sent
                    (pre ++ trace (exec (lib_oracle O)
                                     (request (lit "PUT") (lit "/api/v1/agents/me/identity")
                                        (Some v)) c1 w1)) ->
            signed_with_body c
              (pre ++ trace (exec (lib_oracle O)
                               (request (lit "PUT") (lit "/api/v1/agents/me/identity")
                                  (Some v)) c1 w1))
              req (lit "PUT") (lit "/api/v1/agents/me/identity") v).
  { intros c1 w1 pre v req Eb Ea Hs Hr Hin.
    unfold requests_sent in Hin, Hr. rewrite omap_app, Hr in Hin. cbn [app] in Hin.
    pose proof (request_with_body_is_signed (lib_oracle O) c1 w1 _ _ v req Hin) as S.
    unfold signed_with_body in *. unfold sign_calls in *. rewrite omap_app, Hs.
    cbn [app]. rewrite <- Eb, <- Ea. exact S. }
  assert (Hc : forall t : list event, credentials_reads (of_lib <$> t) = []).
  { induction t as [|[X q x] t IH]; [reflexivity|]. exact IH. }
  assert (Hread : forall (c1 : Client) (w1 : W) (pre : list event),
            baseUrl c1 = baseUrl c -> agentName c1 = agentName c -> loaded c1 = true ->
            sign_calls pre = [] -> requests_sent pre = [] ->
            load_calls pre = (if loaded c then [] else [(agentId c, Normal true)]) ->
            let r := run O
                       (credentials ← try_call SdkGetCredentials;
                        certificate ← settle (get_property credentials "certificate");
                        publicKey ← settle (get_property credentials "publicKey");
                        run_method
                          (request (lit "PUT") (lit "/api/v1/agents/me/identity")
                             (Some (object_literal [("certificate_pem", certificate);
                                                    ("public_key_pem", publicKey)])))
                          c1) w1 in
            (length (credentials_reads (events r)) <= 1)%nat
            /\ load_calls (pre ++ lib_events (events r))
               = (if loaded c then [] else [(agentId c, Normal true)])
            /\ forall req, req ∈ requests_sent (pre ++ lib_events (events r)) ->
                 exists credentials certificate publicKey,
                   credentials_reads (events r) = [Normal credentials]
                   /\ get_property credentials "certificate" = Normal certificate
                   /\ get_property credentials "publicKey" = Normal publicKey
                   /\ signed_with_body c (pre ++ lib_events (events r)) req (lit "PUT")
                        (lit "/api/v1/agents/me/identity")
                        (object_literal [("certificate_pem", certificate);
                                         ("public_key_pem", publicKey)])).
  { intros c1 w1 pre Eb Ea L1 Hs Hr Hl r. subst r. reduce.
    assert (Hnone : forall (tr : list event),
              tr = [] ->
              load_calls (pre ++ tr) = (if loaded c then [] else [(agentId c, Normal true)])
              /\ forall req, req ∈ requests_sent (pre ++ tr) -> False).
    { intros tr ->. rewrite app_nil_r. split; [exact Hl|].
      intros req Hin. rewrite Hr in Hin. apply elem_of_nil in Hin. exact Hin. }
    destruct (O _ SdkGetCredentials w1) as [[creds|e] w2]; reduce;
      [|split; [simpl; lia|]; destruct (Hnone [] eq_refl) as [H1 H2];
        split; [exact H1 | intros req Hin; destruct (H2 req Hin)]].
    destruct (get_property creds "certificate") as [cert|e] eqn:Gc; reduce;
      [|split; [simpl; lia|]; destruct (Hnone [] eq_refl) as [H1 H2];
        split; [exact H1 | intros req Hin; destruct (H2 req Hin)]].
    destruct (get_property creds "publicKey") as [pk|e] eqn:Gp; reduce;
      [|split; [simpl; lia|]; destruct (Hnone [] eq_refl) as [H1 H2];
        split; [exact H1 | intros req Hin; destruct (H2 req Hin)]].
    destruct (run_method_exec O
                (request (lit "PUT") (lit "/api/v1/agents/me/identity")
                   (Some (object_literal [("certificate_pem", cert); ("public_key_pem", pk)])))
                c1 w2) as (_ & _ & E3).
    rewrite E3.
    change (omap lib_event (of_lib <$> ?t)) with (lib_events (of_lib <$> t)).
    change (omap credentials_read (of_lib <$> ?t)) with (credentials_reads (of_lib <$> t)).
    rewrite lib_events_of_lib, Hc.
    split; [simpl; lia|]. split.
    - unfold load_calls in *. rewrite omap_app, Hl.
      change (omap load_call ?t) with (load_calls t).
      rewrite loaded_request_never_loads by exact L1. apply app_nil_r.
    - intros req Hin. exists creds, cert, pk.
      split; [reflexivity|]. split; [exact Gc|]. split; [exact Gp|].
      exact (Hsent c1 w2 pre _ req Eb Ea Hs Hr Hin). }
  intros r. subst r. unfold bindIdentityToTrustbook.
  destruct (loaded c) eqn:L.
  - cbn [negb]. change (mbind ?f (Done ?a)) with (f a). cbv beta. cbn [snd].
    destruct (Hread c w [] eq_refl eq_refl L eq_refl eq_refl eq_refl) as (H1 & H2 & H3).
    cbn [app] in *. split; [exact H1|]. split; [intros _; exact H2 | exact H3].
  - cbn [negb]. change (mbind ?f ?p) with (script_bind p f). rewrite run_bind.
    unfold loadIdentity. reduce.
    destruct (O _ (Lib (SdkLoad (agentId c))) w) as [[[|]|e] w1]; reduce.
    + destruct (Hread (set_loaded true c) w1 [Ev (SdkLoad (agentId c)) (Normal true)]
                  eq_refl eq_refl eq_refl eq_refl eq_refl eq_refl) as (H1 & H2 & H3).
      split; [exact H1|]. split; [intros _; exact H2 | exact H3].
    + split; [simpl; lia|]. split; [intros H; contradiction|].
      intros req Hin. apply elem_of_nil in Hin. contradiction.
    + split; [simpl; lia|]. split; [intros H; contradiction|].
      intros req Hin. apply elem_of_nil in Hin. contradiction.
Qed.

End IdentityBinding.

(* ===================================================================== *)
(** * 29. The commands of [runCli] *)
(* ===================================================================== *)

Section Commands.
Context {host : Host} {literals : Literals} {runtime : Runtime} {W : Type}.

Ltac reduce :=
  cbn -[sha256Base64 Buffer_from_utf8 Number_toString lit request_headers
        buildMb2Message strip_trailing_slashes usage] in *.

Ltac decide_literals :=
  repeat match goal with
  | |- context [bool_decide (?a = ?b)] =>
      first [ rewrite (bool_decide_eq_true_2 (a = b)) by (vm_compute; reflexivity)
            | rewrite (bool_decide_eq_false_2 (a = b)) by (vm_compute; discriminate) ]
  end.

(** Which branch of [runCli] a command takes. *)
Lemma runCli_command_dispatch (i : CliInputs) :
  (cmd i ∈ [[]; lit "help"; lit "--help"; lit "-h"] ->
   runCli_command i = (ask (ConsoleLog (Some usage));; Exit 0))
  /\ (cmd i = lit "gen-keys" -> runCli_command i = cli_gen_keys i)
  /\ (cmd i = lit "gen-bind-public" -> runCli_command i = cli_gen_bind_public i)
  /\ (cmd i = lit "agents" -> runCli_command i = cli_agents i)
  /\ (cmd i = lit "register" -> runCli_command i = cli_register i)
  /\ (cmd i = lit "bootstrap" -> runCli_command i = cli_bootstrap i)
  /\ (cmd i ∉ unsigned_commands -> runCli_command i = cli_signed i).
Proof.
  unfold runCli_command.
  split.
  { intros Hin. rewrite !elem_of_cons, elem_of_nil in Hin.
    destruct Hin as [-> | [-> | [-> | [-> | []]]]]; decide_literals; reflexivity. }
  repeat (split; [intros ->; decide_literals; reflexivity|]).
  intros Hnot. unfold unsigned_commands in Hnot.
  rewrite !not_elem_of_cons in Hnot.
  destruct Hnot as (N1 & N2 & N3 & N4 & N5 & N6 & N7 & N8 & N9 & _).
  rewrite !bool_decide_eq_false_2 by assumption. reflexivity.
Qed.

(** One step of a run of a command. *)
Ltac step O :=
  first
  [ match goal with
    | |- context [O ?X ?q ?w] =>
        is_var w;
        let a := fresh "answer" in let w' := fresh "w" in
        destruct (O X q w) as [a w'] eqn:?
    end
  | match goal with
    | |- context [lift (buildMb2Message ?i)] =>
        let B := fresh "B" in
        destruct (buildMb2Message i) eqn:B;
        [|rewrite buildMb2Message_strings in B; discriminate B]
    end
  | match goal with
    | |- context [settle ?x] => is_var x; destruct x
    end
  | match goal with
    | |- context [lift ?x] => is_var x; destruct x
    end
  | match goal with
    | |- context [match ?x with Normal _ => _ | Abrupt _ => _ end] => is_var x; destruct x
    end
  | match goal with
    | |- context [lift (JSON_stringify ?v)] =>
        let J := fresh "J" in destruct (JSON_stringify v) as [[?|]|?] eqn:J
    end
  | match goal with
    | |- context [lift (text ?resp)] =>
        let T := fresh "T" in destruct (text resp) eqn:T
    end
  | match goal with
    | |- context [settle (JSON_stringify_indented ?v)] =>
        let P := fresh "P" in destruct (JSON_stringify_indented v) eqn:P
    end
  | match goal with
    | |- context [settle (get_property ?v ?n)] =>
        let G := fresh "G" in destruct (get_property v n) eqn:G
    end
  | match goal with
    | |- context [if negb (ok ?resp) then _ else _] =>
        let K := fresh "K" in destruct (ok resp) eqn:K
    end
  | match goal with
    | |- context [if negb (ToBoolean ?v) then _ else _] =>
        let B := fresh "B" in destruct (ToBoolean v) eqn:B
    end
  | match goal with
    | |- context [if negb ?b then _ else _] => is_var b; destruct b
    end ]; reduce.

Ltac members :=
  repeat match goal with
  | H : _ ∈ [] |- _ => apply elem_of_nil in H; contradiction
  | H : _ ∈ [_] |- _ => apply list_elem_of_singleton in H
  | H : (_, _) = (_, _) |- _ => injection H as ? ?; subst
  end.

(** X15. The command register makes one unsigned request at most and
    touches nothing else: it does not load the esign module, asks for no
    signature and stores no key. Without a base URL or an agent name it
    throws before any call. The request is a POST to the base URL (trailing
    slashes removed) followed by /api/v1/agents, with Content-Type as its only
    header and the object of the name as its body; what is printed is the
    indented JSON of the parsed body of an ok response. *)
Theorem register_is_one_unsigned_request (O : CliOracle W) (i : CliInputs) (w : W) :
  cmd i = lit "register" ->
  let r := run O (runCli_command i) w in
  let agentName := (O _ (Argv 3) w).1 in
  (truthy (in_baseUrl i) && truthy agentName = false ->
   events r = [CliEv (Argv 3) agentName]
   /\ ending_of r = Rejects (JsError (lit "register 需要 MB_BASE_URL 和 <agentName>")))
  /\ module_loads (lib_events (events r)) = []
  /\ load_calls (lib_events (events r)) = []
  /\ sign_calls (lib_events (events r)) = []
  /\ keys_saved (events r) = []
  /\ (length (requests_sent (lib_events (events r))) <= 1)%nat
  /\ (forall req, req ∈ requests_sent (lib_events (events r)) ->
      exists base name,
        in_baseUrl i = VStr base /\ agentName = VStr name /\ name <> []
        /\ url req = strip_trailing_slashes base ++ lit "/api/v1/agents"
        /\ http_method req = lit "POST"
        /\ headers req = <["Content-Type" := lit "application/json"]> ∅
        /\ JSON_stringify (object_literal [("name", string_value name)]) = Normal (body req))
  /\ (forall out, out ∈ console_log (events r) ->
      exists req resp t,
        fetch_calls (lib_events (events r)) = [(req, Normal resp)]
        /\ ok resp = true /\ text resp = Normal t
        /\ JSON_stringify_indented (parsed_body t) = Normal out
        /\ ending_of r = Returns tt).
Proof.
  intros Hcmd r agentName. subst r agentName.
  replace (runCli_command i) with (cli_register i)
    by (symmetry; apply runCli_command_dispatch; exact Hcmd).
  unfold cli_register, register_request, rawApiRequest, run_function, print.
  reduce.
  destruct (O _ (Argv 3) w) as [name w0] eqn:Ea; reduce.
  destruct (in_baseUrl i) as [| |[|b0 base]] eqn:Eb; reduce;
    try (split; [auto|]; do 4 (split; [reflexivity|]); split; [simpl; lia|];
         split; intros ? Hin; members).
  destruct name as [| |[|n0 name]]; reduce;
    try (split; [auto|]; do 4 (split; [reflexivity|]); split; [simpl; lia|];
         split; intros ? Hin; members).
  repeat step O.
  all: split; [discriminate|]; do 4 (split; [reflexivity|]); split; [simpl; lia|].
  all: split; intros ? Hin; members; subst;
    repeat match goal with x : unit |- _ => destruct x end.
  all: try (eexists _, _; repeat (split; [reflexivity || discriminate || eassumption|]);
            first [reflexivity | eassumption]).
  all: try (eexists _, _, _; repeat (split; [reflexivity || eassumption|]);
            first [reflexivity | eassumption]).
Qed.

(** X16. The command gen-bind-public sends its request only after these
    four calls on the key manager, in this order and each returning: its
    construction with the configuration and the key size of ESIGN_KEY_SIZE
    (2048 when unset), [generateKeyPair], [savePrivateKey] under the local id
    and [hasPrivateKey] for the local id, answered truthy. No call on the key
    manager follows the request: the key stays stored when the request fails,
    whose error is passed on. The request is unsigned: a PUT to
    /api/v1/agents/me/identity under the base URL, with the API key as bearer
    token and, as body, the object of the public key that [generateKeyPair]
    answered. Without a local id, a base URL or an API key the command throws
    before any call. *)
Theorem key_is_stored_before_it_is_bound (O : CliOracle W) (i : CliInputs) (w : W) :
  cmd i = lit "gen-bind-public" ->
  let r := run O (runCli_command i) w in
  let localId := (O _ (Argv 3) w).1 in
  let keySize :=
    Number_ (ToString (js_or (O _ (Lib (EnvVar "ESIGN_KEY_SIZE")) (O _ (Argv 3) w).2).1
                             (VStr (lit "2048")))) in
  (truthy localId && truthy (in_baseUrl i) && truthy (in_apiKey i) = false ->
   events r = [CliEv (Argv 3) localId]
   /\ ending_of r
      = Rejects (JsError (lit "gen-bind-public 需要 MB_BASE_URL、MB_API_KEY 和 <localId>")))
  /\ sign_calls (lib_events (events r)) = []
  /\ (length (requests_sent (lib_events (events r))) <= 1)%nat
  /\ (forall req answer, (req, answer) ∈ fetch_calls (lib_events (events r)) ->
      exists id base key has pk pre post,
        localId = VStr id /\ in_baseUrl i = VStr base /\ in_apiKey i = VStr key
        /\ events r = pre ++ CliEv (Lib (Fetch req)) answer :: post
        /\ keys_saved pre = [(id, Normal tt)]
        /\ keys_checked pre = [(id, Normal has)]
        /\ ToBoolean has = true
        /\ keys_saved post = []
        /\ key_calls pre
           = [CliEv (NewKeyManager (in_sdkConfig i) keySize) (Normal tt);
              CliEv GenerateKeyPair (Normal pk);
              CliEv (SavePrivateKey id) (Normal tt);
              CliEv (HasPrivateKey id) (Normal has)]
        /\ key_calls post = []
        /\ url req = strip_trailing_slashes base ++ lit "/api/v1/agents/me/identity"
        /\ http_method req = lit "PUT"
        /\ headers req
           = <["Content-Type" := lit "application/json"]>
               {[ "Authorization" := lit "Bearer " ++ key ]}
        /\ JSON_stringify (object_literal [("public_key_pem", pk)]) = Normal (body req)
        /\ match answer with
           | Abrupt e => ending_of r = Rejects e
           | Normal _ => True
           end).
Proof.
  intros Hcmd r localId keySize. subst r localId keySize.
  replace (runCli_command i) with (cli_gen_bind_public i)
    by (symmetry; apply runCli_command_dispatch; exact Hcmd).
  unfold cli_gen_bind_public, generateAndStoreKeyPairWithEsign, read_keySize,
    resolveEsignModule, rawApiRequest, run_function, print.
  reduce.
  destruct (O _ (Argv 3) w) as [localId w0] eqn:Ea; reduce.
  destruct localId as [| |[|n0 id]]; reduce;
    try (split; [auto|]; split; [reflexivity|]; split; [simpl; lia|];
         intros ? ? Hin; members).
  destruct (in_baseUrl i) as [| |[|b0 base]] eqn:Eb; reduce;
    try (split; [auto|]; split; [reflexivity|]; split; [simpl; lia|];
         intros ? ? Hin; members).
  destruct (in_apiKey i) as [| |[|k0 key]] eqn:Ek; reduce;
    try (split; [auto|]; split; [reflexivity|]; split; [simpl; lia|];
         intros ? ? Hin; members).
  repeat step O.
  all: split; [discriminate|]; split; [reflexivity|]; split; [simpl; lia|].
  all: intros ? ? Hin; members; subst;
    repeat match goal with x : unit |- _ => destruct x end.
  all: eexists _, _, _, _, _, _, _.
  all: split; [reflexivity|]; split; [reflexivity|]; split; [reflexivity|].
  all: split;
    [lazymatch goal with
     | |- ?l = ?pre ++ _ :: ?post =>
         unify pre (take 8 l); unify post (drop 9 l); reflexivity
     end|].
  all: split; [reflexivity|]; split; [reflexivity|]; split; [eassumption|].
  all: split; [reflexivity|]; split; [reflexivity|]; split; [reflexivity|].
  all: split; [reflexivity|]; split; [reflexivity|].
  all: split; [reflexivity|]; split; [eassumption || reflexivity|].
  all: first [exact I | reflexivity].
Qed.

(** X17. Every command other than help, gen-keys, gen-bind-public, agents,
    register and bootstrap needs the four variables MB_BASE_URL, MB_API_KEY,
    ESIGN_AGENT_ID and MB_AGENT_NAME: when one is missing or empty, [runCli]
    throws before any call. Otherwise it constructs the client first, and an
    error of the construction is the error of the command; so a command that
    does not exist is reported as unknown only once the esign module has been
    loaded and the SDK object constructed. *)
Theorem signing_commands_need_a_client (O : CliOracle W) (i : CliInputs) (w : W) :
  cmd i ∉ unsigned_commands ->
  let r := run O (runCli_command i) w in
  let built :=
    new_TrustbookEsignClient (lib_oracle O)
      {| opt_baseUrl := in_baseUrl i; opt_apiKey := in_apiKey i;
         opt_agentId := in_agentId i; opt_agentName := in_agentName i;
         opt_signatureAlg := None; opt_sdkConfig := Some (in_sdkConfig i) |} w in
  (truthy (in_baseUrl i) && truthy (in_apiKey i)
   && truthy (in_agentId i) && truthy (in_agentName i) = false ->
   events r = []
   /\ ending_of r
      = Rejects (JsError (lit "缺少环境变量：MB_BASE_URL / MB_API_KEY / ESIGN_AGENT_ID / MB_AGENT_NAME")))
  /\ (truthy (in_baseUrl i) && truthy (in_apiKey i)
      && truthy (in_agentId i) && truthy (in_agentName i) = true ->
      exists rest,
        events r = (of_lib <$> trace built) ++ rest
        /\ (forall e, outcome built = Abrupt e -> rest = [] /\ ending_of r = Rejects e)
        /\ (cmd i ∉ [lit "bind-identity"; lit "post"; lit "comment"] ->
            outcome built = Normal tt ->
            rest = [] /\ ending_of r = Rejects (JsError (lit "未知命令: " ++ cmd i)))).
Proof.
  intros Hcmd r built. subst r built.
  replace (runCli_command i) with (cli_signed i)
    by (symmetry; apply runCli_command_dispatch; exact Hcmd).
  unfold cli_signed, new_TrustbookEsignClient.
  destruct (truthy (in_baseUrl i)); cbn [negb orb andb];
    [|split; [intros _; split; reflexivity | discriminate]].
  destruct (truthy (in_apiKey i)); cbn [negb orb andb];
    [|split; [intros _; split; reflexivity | discriminate]].
  destruct (truthy (in_agentId i)); cbn [negb orb andb];
    [|split; [intros _; split; reflexivity | discriminate]].
  destruct (truthy (in_agentName i)); cbn [negb orb andb];
    [|split; [intros _; split; reflexivity | discriminate]].
  split; [discriminate|]. intros _.
  change (mbind ?f ?p) with (script_bind p f). rewrite run_bind.
  match goal with
  | |- context [run O (run_method (constructor ?o) blank) w] =>
      destruct (run_method_exec O (constructor o) blank w) as (E1 & E2 & E3);
      rewrite E1, E3;
      destruct (outcome (exec (lib_oracle O) (constructor o) blank w)) as [[]|e] eqn:Eo
  end; cbn [ending_of events world_of].
  - eexists. split; [reflexivity|]. split; [discriminate|].
    intros Hnot _. rewrite !not_elem_of_cons in Hnot. destruct Hnot as (N1 & N2 & N3 & _).
    cbn [snd]. rewrite !bool_decide_eq_false_2 by assumption.
    cbn [run events ending_of]. auto.
  - exists []. rewrite app_nil_r. split; [reflexivity|]. split.
    + intros e' He. injection He as <-. auto.
    + intros _ He. discriminate He.
Qed.


End Commands.

(* ===================================================================== *)
(** * 31. How [runCli] ends *)
(* ===================================================================== *)

Section Endings.
Context {host : Host} {literals : Literals} {runtime : Runtime} {W : Type}.

Lemma quiet_bind {A B : Type} (p : Script A) (f : A -> Script B) :
  quiet p -> (forall a, quiet (f a)) -> quiet (script_bind p f).
Proof.
  intros Hp Hf. induction Hp as [a|e| |X c k Hc Hk IH]; cbn [script_bind];
    [apply Hf | constructor | constructor | constructor; [exact Hc | exact IH]].
Qed.

Lemma quiet_run_method {A : Type} (p : Prog A) : forall c, quiet (run_method p c).
Proof.
  induction p as [a|e|X q k IH|k IH|g k IH]; intros c; cbn [run_method];
    [constructor | constructor | constructor; [reflexivity | intros x; apply IH]
    | apply IH | apply IH].
Qed.

Lemma quiet_settle {A : Type} (r : completion A) : quiet (settle r).
Proof. destruct r; constructor. Qed.

Lemma quiet_run {A : Type} (O : CliOracle W) (p : Script A) :
  quiet p ->
  forall w, (forall code, ending_of (run O p w) <> ExitsWith code)
            /\ console_error (events (run O p w)) = [].
Proof.
  induction 1 as [a|e| |X c k Hc Hk IH]; intros w; cbn [run ending_of events];
    try (split; [discriminate | reflexivity]).
  destruct (O X c w) as [x w']. cbn [ending_of events].
  destruct (IH x w') as [H1 H2]. split; [exact H1|].
  destruct c; try discriminate Hc; exact H2.
Qed.

Ltac quietly :=
  unfold mbind, Script_bind, Prog_bind, ask, try_call, run_function;
  repeat first
    [ apply quiet_run_method
    | apply quiet_settle
    | apply quiet_bind
    | apply quiet_do; [reflexivity|]
    | apply quiet_done | apply quiet_throw | apply quiet_outside
    | intros ?
    | match goal with
      | |- quiet (if ?b then _ else _) => destruct b
      | |- quiet (match ?x with [] => _ | _ :: _ => _ end) => destruct x
      end ].

Lemma bindIdentityToTrustbook_quiet (c : Client) : quiet (bindIdentityToTrustbook c).
Proof. unfold bindIdentityToTrustbook. quietly. Qed.

Lemma generateAndStoreKeyPairWithEsign_quiet keySize localId cfg :
  quiet (generateAndStoreKeyPairWithEsign keySize localId cfg).
Proof. unfold generateAndStoreKeyPairWithEsign. quietly. Qed.

(** Outside the help branch [runCli] neither ends the process nor writes to
    the error stream. *)
Lemma runCli_command_quiet (i : CliInputs) :
  cmd i ∉ [[]; lit "help"; lit "--help"; lit "-h"] -> quiet (runCli_command i).
Proof.
  intros Hnot. rewrite !not_elem_of_cons in Hnot. destruct Hnot as (N1 & N2 & N3 & N4 & _).
  unfold runCli_command. rewrite !bool_decide_eq_false_2 by assumption. cbn [orb].
  pose proof bindIdentityToTrustbook_quiet. pose proof generateAndStoreKeyPairWithEsign_quiet.
  unfold cli_gen_keys, cli_gen_bind_public, cli_agents, cli_register, cli_bootstrap,
    cli_signed, cli_post, cli_comment, print, read_keySize.
  quietly; auto.
Qed.

(** [runCli] reads the command and six variables, then runs the command. *)
Lemma runCli_inputs_runs (O : CliOracle W) (w : W) :
  exists (inputs : list cli_event) (i : CliInputs) (w' : W),
    run O runCli_inputs w = {| ending_of := Returns i; world_of := w'; events := inputs |}
    /\ cmd i = ToString (js_or (O _ (Argv 2) w).1 (VStr []))
    /\ length inputs = 7%nat
    /\ forallb reads_input inputs = true
    /\ console_log inputs = [] /\ console_error inputs = [].
Proof.
  unfold runCli_inputs. unfold mbind, Script_bind, ask.
  cbn [script_bind].
  cbn [run].
  destruct (O _ (Argv 2) w) as [argv2 w1]. cbn [run fst].
  destruct (O _ (Lib (EnvVar "MB_BASE_URL")) w1) as [v2 w2]. cbn [run].
  destruct (O _ (Lib (EnvVar "MB_API_KEY")) w2) as [v3 w3]. cbn [run].
  destruct (O _ (Lib (EnvVar "ESIGN_AGENT_ID")) w3) as [v4 w4]. cbn [run].
  destruct (O _ (Lib (EnvVar "MB_AGENT_NAME")) w4) as [v5 w5]. cbn [run].
  destruct (O _ (Lib (EnvVar "ESIGN_KEYSTORE_SERVICE")) w5) as [v6 w6]. cbn [run].
  destruct (O _ (Lib (EnvVar "ESIGN_CERT_STORE_PATH")) w6) as [v7 w7]. cbn [run].
  cbn [events ending_of world_of fst].
  eexists [_; _; _; _; _; _; _], _, _.
  split; [reflexivity|]. split; [reflexivity|].
  repeat split.
Qed.

Lemma runCli_runs (O : CliOracle W) (w : W) :
  exists (inputs : list cli_event) (i : CliInputs) (w' : W),
    events (run O runCli w) = inputs ++ events (run O (runCli_command i) w')
    /\ ending_of (run O runCli w) = ending_of (run O (runCli_command i) w')
    /\ cmd i = ToString (js_or (O _ (Argv 2) w).1 (VStr []))
    /\ length inputs = 7%nat
    /\ forallb reads_input inputs = true
    /\ console_log inputs = [] /\ console_error inputs = [].
Proof.
  destruct (runCli_inputs_runs O w) as (inputs & i & w' & E & Ec & Hl & Hr & Hlog & Herr).
  exists inputs, i, w'.
  unfold runCli. change (mbind ?f ?p) with (script_bind p f).
  rewrite run_bind, E. cbn [ending_of world_of events]. auto 10.
Qed.

Lemma help_or_not (s : jsstring) :
  s ∈ [[]; lit "help"; lit "--help"; lit "-h"]
  \/ s ∉ [[]; lit "help"; lit "--help"; lit "-h"].
Proof. destruct (decide (s ∈ [[]; lit "help"; lit "--help"; lit "-h"])); auto. Qed.

Lemma runCli_start_help (argv2 : jsval) :
  runCli_start argv2 = ProcessExits 0
  <-> ToString (js_or argv2 (VStr [])) ∈ [[]; lit "help"; lit "--help"; lit "-h"].
Proof.
  unfold runCli_start. rewrite !elem_of_cons, elem_of_nil.
  set (s := ToString (js_or argv2 (VStr []))).
  destruct (bool_decide_reflect (s = [])); [cbn [orb]; tauto|].
  destruct (bool_decide_reflect (s = lit "help")); [cbn [orb]; tauto|].
  destruct (bool_decide_reflect (s = lit "--help")); [cbn [orb]; tauto|].
  destruct (bool_decide_reflect (s = lit "-h")); [cbn [orb]; tauto|].
  cbn [orb]. split; [discriminate | tauto].
Qed.

(** X19. [runCli] ends the process in one case only: with no command or
    with help, --help or -h it prints the usage and calls [process.exit(0)],
    having read its command and variables and done nothing else. Every other
    run returns or throws; none writes to the error stream. This is the case
    in which the evaluation of the module is cut short. *)
Theorem usage_is_the_only_exit (O : CliOracle W) (w : W) :
  let r := run O runCli w in
  let argv2 := (O _ (Argv 2) w).1 in
  (forall code, ending_of r = ExitsWith code ->
     code = 0 /\ runCli_start argv2 = ProcessExits 0)
  /\ (runCli_start argv2 = ProcessExits 0 ->
      ending_of r = ExitsWith 0
      /\ console_log (events r) = [Some usage]
      /\ length (events r) = 8%nat
      /\ forallb reads_input (take 7 (events r)) = true)
  /\ console_error (events r) = [].
Proof.
  intros r argv2. subst r argv2.
  destruct (runCli_runs O w) as (inputs & i & w' & Ev & En & Ec & Hl & Hr & Hlog & Herr).
  rewrite Ev, En.
  destruct (help_or_not (cmd i)) as [Hhelp|Hnot].
  - destruct (runCli_command_dispatch i) as (D & _). rewrite (D Hhelp).
    unfold mbind, Script_bind, ask. cbn [script_bind run].
    destruct (O _ (ConsoleLog (Some usage)) w') as [[] w'']. cbn [events ending_of].
    rewrite Ec in Hhelp. apply runCli_start_help in Hhelp.
    split; [intros code Hc; injection Hc as <-; auto|].
    split.
    + intros _. split; [reflexivity|].
      unfold console_log, console_error in *. rewrite omap_app, Hlog.
      split; [reflexivity|]. rewrite length_app, Hl. split; [reflexivity|].
      rewrite take_app_length' by (symmetry; exact Hl). exact Hr.
    + unfold console_error in *. rewrite omap_app, Herr. reflexivity.
  - destruct (quiet_run O _ (runCli_command_quiet i Hnot) w') as [Hq He].
    split; [intros code Hc; destruct (Hq code Hc)|].
    split.
    + intros Hs. apply runCli_start_help in Hs. rewrite <- Ec in Hs. contradiction.
    + unfold console_error in *. rewrite omap_app, Herr, He. reflexivity.
Qed.

End Endings.

(* ===================================================================== *)
(** * 30. The command bootstrap *)
(* ===================================================================== *)

Section Bootstrap.
Context {host : Host} {literals : Literals} {runtime : Runtime} {W : Type}.

Ltac reduce :=
  cbn -[sha256Base64 Buffer_from_utf8 Number_toString lit request_headers
        buildMb2Message strip_trailing_slashes usage request].

(** One step of a run; a call of [request] is taken as a whole, with what
    [request_run_observed] says of it. *)
Ltac step O :=
  first
  [ match goal with
    | |- context [run O (script_bind (run_method (request ?m ?p ?b) ?c) ?f) ?w] =>
        let E1 := fresh "E" in let E2 := fresh "E" in let E3 := fresh "E" in
        let Hobs := fresh "Hobs" in let T := fresh "T" in let HT := fresh "HT" in
        rewrite (run_bind O (run_method (request m p b) c) f w);
        destruct (run_method_exec O (request m p b) c w) as (E1 & E2 & E3);
        rewrite E1, E2, E3; clear E1 E2 E3;
        pose proof (request_run_observed _ _ _ _ _ _ _
                      (request_runs (lib_oracle O) c w m p b)) as Hobs;
        remember (exec (lib_oracle O) (request m p b) c w) as T eqn:HT; clear HT;
        let wT := fresh "w" in
        generalize (world T); intros wT;
        destruct (outcome T) eqn:?
    end
  | match goal with
    | |- context [O ?X ?q ?w] =>
        is_var w;
        let a := fresh "answer" in let w' := fresh "w" in
        destruct (O X q w) as [a w'] eqn:?
    end
  | match goal with
    | |- context [settle ?x] => is_var x; destruct x
    end
  | match goal with
    | |- context [lift ?x] => is_var x; destruct x
    end
  | match goal with
    | |- context [match ?x with Normal _ => _ | Abrupt _ => _ end] => is_var x; destruct x
    end
  | match goal with
    | |- context [lift (JSON_stringify ?v)] =>
        let J := fresh "J" in destruct (JSON_stringify v) as [[?|]|?] eqn:J
    end
  | match goal with
    | |- context [lift (text ?resp)] =>
        let T := fresh "T" in destruct (text resp) eqn:T
    end
  | match goal with
    | |- context [settle (JSON_stringify_indented ?v)] =>
        let P := fresh "P" in destruct (JSON_stringify_indented v) eqn:P
    end
  | match goal with
    | |- context [run O (script_bind (settle (get_property ?v ?n)) _) _] =>
        let G := fresh "G" in destruct (get_property v n) eqn:G
    | |- context [run O (script_bind (script_bind (settle (get_property ?v ?n)) _) _) _] =>
        let G := fresh "G" in destruct (get_property v n) eqn:G
    end
  | match goal with
    | |- context [if negb (ok ?resp) then _ else _] =>
        let K := fresh "K" in destruct (ok resp) eqn:K
    end
  | match goal with
    | |- context [if negb (ToBoolean ?v) then _ else _] =>
        let B := fresh "B" in destruct (ToBoolean v) eqn:B
    end
  | match goal with
    | |- context [match template_text ?v with [] => _ | _ :: _ => _ end] =>
        let K := fresh "Key" in destruct (template_text v) eqn:K
    end
  | match goal with
    | |- context [if negb ?b then _ else _] => is_var b; destruct b
    end ]; reduce.

Ltac members :=
  repeat match goal with
  | H : _ ∈ [] |- _ => apply elem_of_nil in H; contradiction
  | H : _ ∈ [_] |- _ => apply list_elem_of_singleton in H
  | H : (_, _) = (_, _) |- _ => injection H as ? ?; subst
  end.

Lemma request_headers_bearer (c : Client) (sr : SignResult) (t n : jsstring) (hb : bool) :
  request_headers c sr t n hb !! "Authorization" = Some (lit "Bearer " ++ apiKey c).
Proof.
  unfold request_headers.
  destruct hb; by rewrite ?lookup_insert_ne, ?lookup_insert_eq by done.
Qed.

(** X18. The command bootstrap registers before it touches the key custody.
    Its first request is the unsigned registration, a POST of the name to
    /api/v1/agents. The esign module is loaded only after an ok response to
    it whose parsed body has a truthy api_key; the one request that may
    follow is a PUT that carries that api_key as bearer token and the
    signature the SDK returned. Without a base URL, an agent id or an agent
    name the command throws before any call. *)
Theorem bootstrap_registers_before_it_signs (O : CliOracle W) (i : CliInputs) (w : W) :
  cmd i = lit "bootstrap" ->
  let r := run O (runCli_command i) w in
  let agentName := (O _ (Argv 3) w).1 in
  (truthy (in_baseUrl i) && truthy agentName && truthy (in_agentId i) = false ->
   events r = [CliEv (Argv 3) agentName]
   /\ ending_of r
      = Rejects (JsError (lit "bootstrap 需要 MB_BASE_URL、ESIGN_AGENT_ID 和 <agentName>")))
  /\ (length (requests_sent (lib_events (events r))) <= 2)%nat
  /\ (forall req answer,
        head (fetch_calls (lib_events (events r))) = Some (req, answer) ->
        exists base name,
          in_baseUrl i = VStr base /\ agentName = VStr name
          /\ url req = strip_trailing_slashes base ++ lit "/api/v1/agents"
          /\ http_method req = lit "POST"
          /\ headers req = <["Content-Type" := lit "application/json"]> ∅
          /\ JSON_stringify (object_literal [("name", string_value name)])
             = Normal (body req))
  /\ (module_loads (lib_events (events r)) <> [] ->
      exists req resp t api_key,
        head (fetch_calls (lib_events (events r))) = Some (req, Normal resp)
        /\ ok resp = true /\ text resp = Normal t
        /\ get_property (parsed_body t) "api_key" = Normal api_key
        /\ ToBoolean api_key = true
        /\ forall req2, req2 ∈ tail (requests_sent (lib_events (events r))) ->
             headers req2 !! "Authorization"
             = Some (lit "Bearer " ++ template_text api_key)
             /\ http_method req2 = lit "PUT"
             /\ exists msg sr,
                  sign_calls (lib_events (events r)) = [(msg, Normal sr)]
                  /\ headers req2 !! "X-MB-Signature" = Some (signature sr)).
Proof.
  intros Hcmd r agentName. subst r agentName.
  replace (runCli_command i) with (cli_bootstrap i)
    by (symmetry; apply runCli_command_dispatch; exact Hcmd).
  unfold cli_bootstrap, register_request, rawApiRequest, run_function, print,
    bindIdentityToTrustbook, constructor, resolveEsignModule, loadIdentity.
  unfold mbind, Script_bind, Prog_bind.
  reduce.
  destruct (O _ (Argv 3) w) as [name w0] eqn:Ea; reduce.
  destruct (in_baseUrl i) as [| |[|b0 base]] eqn:Eb; reduce;
    try (split; [auto|]; split; [simpl; lia|]; split;
         [intros ? ? Hin; discriminate Hin | intros H; contradiction]).
  destruct name as [| |[|n0 name]]; reduce;
    try (split; [auto|]; split; [simpl; lia|]; split;
         [intros ? ? Hin; discriminate Hin | intros H; contradiction]).
  destruct (in_agentId i) as [| |[|a0 agent]] eqn:Eg; reduce;
    try (split; [auto|]; split; [simpl; lia|]; split;
         [intros ? ? Hin; discriminate Hin | intros H; contradiction]).
  repeat step O.
  all: repeat rewrite omap_app.
  all: repeat (change (omap lib_event (of_lib <$> ?t)) with (lib_events (of_lib <$> t));
               rewrite lib_events_of_lib).
  all: repeat rewrite omap_app.
  all: try match goal with
       | Hobs : _ \/ _ |- _ =>
           destruct Hobs
             as [(Sg & S & _)
                | (text & msg & _ & _ & _ & _ & _ & [(e' & Sg & S & _) | (sr & Sg & S)])];
           unfold sign_calls, requests_sent in Sg, S; rewrite ?Sg, ?S
       end.
  all: reduce.
  all: split; [discriminate|]; split; [simpl; lia|]; split.
  all: try (intros ? ? Hin; first [discriminate Hin | injection Hin as <- <-];
            eexists _, _; repeat (split; [reflexivity || eassumption|]);
            first [reflexivity | eassumption]).
  all: try (intros H; contradiction).
  all: intros _; eexists _, _, _, _; split; [reflexivity|];
    split; [eassumption|]; split; [eassumption|]; split; [eassumption|];
    split; [eassumption|]; intros ? Hin; members; subst.
  all: split; [unfold signed_request; cbn [headers]; rewrite request_headers_bearer;
               cbn [apiKey];
               repeat match goal with H : template_text _ = _ |- _ => rewrite H end;
               reflexivity|].
  all: split; [reflexivity|].
  all: eexists _, _; split; [reflexivity|].
  all: unfold signed_request; cbn [headers];
    exact (proj1 (request_headers_lookup _ _ _ _ _)).
Qed.

End Bootstrap.

(* ===================================================================== *)
(** * 25. The further statements at concrete inputs *)
(* ===================================================================== *)

(** The demonstration client as its constructor leaves it. *)
Lemma constructed_client_fields_witness :
  opt_apiKey demo_options
  = VStr (apiKey (receiver (new_TrustbookEsignClient
                              (fixed_world (Normal true) custody_signs) demo_options tt)))
  /\ loaded (receiver (new_TrustbookEsignClient
                         (fixed_world (Normal true) custody_signs) demo_options tt)) = false.
Proof.
  destruct (constructed_client_fields (fixed_world (Normal true) custody_signs)
              demo_options tt eq_refl) as (_ & H2 & _ & _ & _ & H6).
  split; assumption.
Defined.

(** Constructing without a name leaves the blank object. *)
Lemma failed_construction_assigns_nothing_witness :
  receiver (new_TrustbookEsignClient (fixed_world (Normal true) custody_signs)
              nameless_options tt) = blank.
Proof.
  destruct (failed_construction_assigns_nothing (fixed_world (Normal true) custody_signs)
              nameless_options tt) as (H & _).
  eapply H. reflexivity.
Defined.

(** The demonstration run loads the identity once and marks the client. *)
Lemma identity_loaded_at_most_once_witness :
  exists answer,
    load_calls (trace demo_run) = [(agentId demo_client, answer)]
    /\ loaded (receiver demo_run) = true.
Proof.
  destruct (identity_loaded_at_most_once (host := ascii_host)
              (fixed_world (Normal true) custody_signs) demo_client tt
              (lit "POST") scenario_path (Some (VStr (lit "Hello"))))
    as (_ & H & _).
  destruct (H eq_refl) as (answer & Hl & _).
  exists answer. split; [exact Hl | reflexivity].
Defined.

(** The demonstration run returns the parsed body of its ok response. *)
Lemma response_decides_outcome_witness :
  outcome demo_run = Normal (parsed_body (host := ascii_host) (lit "null")).
Proof.
  eapply (response_decides_outcome (host := ascii_host)
            (fixed_world (Normal true) custody_signs) demo_client tt
            (lit "POST") scenario_path (Some (VStr (lit "Hello"))) _
            (Normal {| ok := true; status := 200; text := Normal (lit "null") |})).
  member.
Defined.

(** The request of the demonstration run. *)
Lemma sent_request_shape_witness :
  exists req,
    req ∈ requests_sent (trace demo_run)
    /\ url req = baseUrl demo_client ++ scenario_path
    /\ headers req !! "Authorization" = Some (lit "Bearer " ++ apiKey demo_client).
Proof.
  assert (Hex : exists req, req ∈ requests_sent (trace demo_run)).
  { eexists. member. }
  destruct Hex as [req Hin].
  destruct (sent_request_shape (host := ascii_host)
              (fixed_world (Normal true) custody_signs) demo_client tt
              (lit "POST") scenario_path (Some (VStr (lit "Hello")))) as (_ & H).
  destruct (H req Hin) as (Hu & _ & Ha & _).
  exists req. split; [exact Hin|]. split; [exact Hu | exact Ha].
Defined.

(** A body object that stringifies to [undefined] stops the call. *)
Lemma unserialisable_body_stops_the_call_witness :
  fetch_calls (trace bodyless_run) = [] /\ exists e, outcome bodyless_run = Abrupt e.
Proof.
  destruct (unserialisable_body_stops_the_call (host := ascii_host)
              (fixed_world (Normal true) custody_signs) demo_client tt
              (lit "POST") scenario_path VUndefined)
    as (_ & _ & _ & Hf & He & _).
  - intros t. discriminate.
  - split; [exact Hf | exact He].
Defined.

(** The ts header of the demonstration run. *)
Lemma ts_header_is_the_second_of_the_clock_witness :
  exists req now t,
    req ∈ requests_sent (trace demo_run)
    /\ clock_reads (trace demo_run) = [now]
    /\ headers req !! "X-MB-Signature-Ts" = Some t
    /\ decimal_numeral (now <? 0) t.
Proof.
  assert (Hex : exists req, req ∈ requests_sent (trace demo_run)).
  { eexists. member. }
  destruct Hex as [req Hin].
  destruct (ts_header_is_the_second_of_the_clock (host := ascii_host)
              (fixed_world (Normal true) custody_signs) demo_client tt
              (lit "POST") scenario_path (Some (VStr (lit "Hello"))) req Hin)
    as (now & t & Hc & Ht & Hd & _).
  exists req, now, t. auto.
Defined.

(** The message signed in the demonstration run has seven line feeds. *)
Lemma signed_message_has_seven_lines_witness :
  exists msg answer,
    (msg, answer) ∈ sign_calls (trace demo_run)
    /\ count_occ Z.eq_dec msg LF = 7%nat.
Proof.
  assert (Hex : exists call, call ∈ sign_calls (trace demo_run)).
  { eexists. member. }
  destruct Hex as [[msg answer] Hin].
  exists msg, answer. split; [exact Hin|].
  apply (signed_message_has_seven_lines (host := ascii_host)
           (fixed_world (Normal true) custody_signs) demo_client tt
           (lit "POST") scenario_path (Some (VStr (lit "Hello")))) with (answer := answer).
  - no_line_feed.
  - no_line_feed.
  - no_line_feed.
  - apply Forall_forall. intros u Hu. apply list_elem_of_In in Hu. vm_compute in Hu.
    destruct Hu as [<-|[]]. no_line_feed.
  - exact Hin.
Defined.

(** The unsigned demonstration request: what goes out. *)
Lemma rawApiRequest_is_unsigned_witness :
  sign_calls (trace raw_run) = []
  /\ exists req,
       req ∈ requests_sent (trace raw_run)
       /\ http_method req = lit "POST"
       /\ headers req !! "Content-Type" = Some (lit "application/json").
Proof.
  destruct (rawApiRequest_is_unsigned (host := ascii_host)
              (fixed_world (Normal true) custody_signs) demo_raw demo_client tt)
    as (_ & _ & _ & _ & Hs & _ & H).
  split; [exact Hs|].
  assert (Hex : exists req, req ∈ requests_sent (trace raw_run)).
  { eexists. member. }
  destruct Hex as [req Hin].
  destruct (H req Hin) as (_ & Hm & _ & Hc & _).
  exists req. split; [exact Hin|]. split; [exact Hm | exact Hc].
Defined.

(** The signed and the unsigned demonstration request end alike. *)
Lemma signed_and_unsigned_read_responses_alike_witness :
  outcome demo_run = outcome raw_run.
Proof.
  assert (H1 : exists req,
            (req, Normal {| ok := true; status := 200; text := Normal (lit "null") |})
            ∈ fetch_calls (trace demo_run)) by (eexists; member).
  assert (H2 : exists req,
            (req, Normal {| ok := true; status := 200; text := Normal (lit "null") |})
            ∈ fetch_calls (trace raw_run)) by (eexists; member).
  assert (Em : raw_method demo_raw = lit "POST") by (vm_compute; reflexivity).
  assert (Ep : raw_apiPath demo_raw = scenario_path) by (vm_compute; reflexivity).
  destruct H1 as [req H1]. destruct H2 as [req' H2].
  unfold demo_run in H1 |- *. unfold raw_run in H2 |- *.
  exact (signed_and_unsigned_read_responses_alike (host := ascii_host)
           (fixed_world (Normal true) custody_signs) (fixed_world (Normal true) custody_signs)
           demo_client demo_client tt tt (lit "POST") scenario_path
           (Some (VStr (lit "Hello"))) demo_raw Em Ep req req'
           (Normal {| ok := true; status := 200; text := Normal (lit "null") |}) H1 H2).
Defined.

(** The command register against a server that answers with a registration. *)
Lemma register_is_one_unsigned_request_witness :
  sign_calls (lib_events (events (command_run "register" "MyAgent" [registration_document])))
  = []
  /\ (length (requests_sent
                (lib_events (events (command_run "register" "MyAgent"
                                       [registration_document])))) <= 1)%nat.
Proof.
  destruct (register_is_one_unsigned_request
              (host := tree_host) (literals := tree_literals) (runtime := tree_runtime)
              (scripted_world (argv_of ["register"; "MyAgent"]) demo_env)
              (demo_inputs "register") (List.map ok_response [registration_document])
              eq_refl)
    as (_ & _ & _ & Hs & _ & Hl & _).
  split; [exact Hs | exact Hl].
Defined.

(** The command gen-bind-public against a server that binds the key: four
    calls go to the key manager, the key pair is generated, the private key
    is saved under the local id and found there; the one request is a PUT
    whose body is the object of the public key that was generated, and
    nothing is signed. *)
Lemma key_is_stored_before_it_is_bound_witness :
  sign_calls (lib_events (events (command_run "gen-bind-public" "local-1"
                                    [identity_document])))
  = []
  /\ (length (requests_sent
                (lib_events (events (command_run "gen-bind-public" "local-1"
                                       [identity_document])))) <= 1)%nat
  /\ exists req answer,
       (req, answer) ∈ fetch_calls (lib_events (events (command_run "gen-bind-public"
                                                          "local-1" [identity_document])))
       /\ http_method req = lit "PUT"
       /\ body req
          = Some (lit "{" ++ quoted (lit "public_key_pem") ++ lit ":"
                  ++ quoted (lit "PUBLIC KEY") ++ lit "}")
       /\ keys_generated (events (command_run "gen-bind-public" "local-1"
                                    [identity_document]))
          = [Normal (JString (lit "PUBLIC KEY"))]
       /\ keys_saved (events (command_run "gen-bind-public" "local-1" [identity_document]))
          = [(lit "local-1", Normal tt)]
       /\ keys_checked (events (command_run "gen-bind-public" "local-1"
                                  [identity_document]))
          = [(lit "local-1", Normal (JBool true))]
       /\ length (key_calls (events (command_run "gen-bind-public" "local-1"
                                       [identity_document]))) = 4%nat.
Proof.
  destruct (key_is_stored_before_it_is_bound
              (host := tree_host) (literals := tree_literals) (runtime := tree_runtime)
              (scripted_world (argv_of ["gen-bind-public"; "local-1"]) demo_env)
              (demo_inputs "gen-bind-public") (List.map ok_response [identity_document])
              eq_refl)
    as (_ & Hs & Hl & Hf).
  split; [exact Hs|]. split; [exact Hl|].
  assert (Hex : exists ra, ra ∈ fetch_calls (lib_events (events (command_run "gen-bind-public"
                                                          "local-1" [identity_document])))).
  { eexists. member. }
  destruct Hex as [[req answer] Hin].
  destruct (Hf req answer Hin)
    as (id & base & key & has & pk & pre & post & _ & _ & _ & _ & _ & _ & _ & _ & _ & _
        & _ & Hm & _).
  exists req, answer. split; [exact Hin|]. split; [exact Hm|].
  apply list_elem_of_In in Hin. vm_compute in Hin. destruct Hin as [Hin|[]].
  injection Hin as <- <-.
  repeat split; vm_compute; reflexivity.
Defined.

(** A command that does not exist, with the four variables set. *)
Lemma signing_commands_need_a_client_witness :
  ending_of (command_run "frobnicate" "x" [])
  = Rejects (JsError (lit "未知命令: " ++ lit "frobnicate")).
Proof.
  assert (Hcmd : cmd (demo_inputs "frobnicate") ∉ unsigned_commands) by no_line_feed.
  assert (Hnot : cmd (demo_inputs "frobnicate")
                 ∉ [lit "bind-identity"; lit "post"; lit "comment"]) by no_line_feed.
  destruct (signing_commands_need_a_client
              (host := tree_host) (literals := tree_literals) (runtime := tree_runtime)
              (scripted_world (argv_of ["frobnicate"; "x"]) demo_env)
              (demo_inputs "frobnicate") (List.map ok_response []) Hcmd)
    as (_ & H).
  destruct (H ltac:(vm_compute; reflexivity)) as (rest & _ & _ & Hu).
  destruct (Hu Hnot ltac:(vm_compute; reflexivity)) as (_ & He).
  exact He.
Defined.

(** The command bootstrap against a server that registers and binds. *)
Lemma bootstrap_registers_before_it_signs_witness :
  (length (requests_sent
             (lib_events (events (command_run "bootstrap" "MyAgent"
                                    [registration_document; identity_document])))) <= 2)%nat.
Proof.
  destruct (bootstrap_registers_before_it_signs
              (host := tree_host) (literals := tree_literals) (runtime := tree_runtime)
              (scripted_world (argv_of ["bootstrap"; "MyAgent"]) demo_env)
              (demo_inputs "bootstrap")
              (List.map ok_response [registration_document; identity_document])
              eq_refl)
    as (_ & Hl & _).
  exact Hl.
Defined.
